(** * Replay buffers of [catalyst/rl/offpolicy/utils.py]

    A shallow embedding of [BufferDataset] (the ring store with its state
    composer and n-step transition assembler), [BufferSampler] (the sample
    index generator) and [SamplerBuffer] (the per-rollout episode
    accumulator), followed by the properties established about them.

    Python integers are [Z]; [%] is floor modulo, which for a positive
    modulus is [Z.modulo].  NumPy arrays are lists of their elements along
    the first axis, indexed with stdpp's lookup and insert, next to the
    shape of an element; every bounds check, negative-index wrap and
    broadcast that NumPy performs is written out.  Exceptions are values
    of [result].  Observations, actions and rewards are kept abstract: the
    code never inspects an observation or an action, and on rewards it
    only uses [0], [+], [*] and [**].  What an assignment into an array
    and [astype] do to a value, the conversion to the dtype, is the
    operation [Np.astype] of the element types; the names the module looks
    up in [numpy] are resolved per NumPy release. *)

From Stdlib Require Import ZArith Lia Bool String.
From stdpp Require Import base tactics option list numbers.

Local Open Scope Z_scope.

(** ** Exceptions *)

Inductive pyerror : Type :=
  | IndexError
  | ValueError
  | AttributeError
  | UnboundLocalError
  | ZeroDivisionError.

Inductive result (A : Type) : Type :=
  | Ok (a : A)
  | Raise (e : pyerror).
Arguments Ok {A} a.
Arguments Raise {A} e.

#[export] Instance result_ret : MRet result := fun A a => Ok a.
#[export] Instance result_bind : MBind result := fun A B f m =>
  match m with
  | Ok a => f a
  | Raise e => Raise e
  end.

(** ** The fragment of Python and NumPy the module relies on *)

Module Np.

Inductive dtype : Type := UInt8 | Float32 | PyInt | PyBool.

(** The NumPy releases, as far as the names looked up here go: before
    1.24 [np.int] and [np.bool] are aliases of the builtins, from 1.24 to
    1.26 neither exists, and from 2.0 on [np.bool] exists again. *)
Inductive release : Type := Before_1_24 | From_1_24 | From_2_0.

(** Attribute lookup in the [numpy] namespace of a release, restricted to
    the scalar types; any other name is not an attribute of the module. *)
Definition getattr (r : release) (name : string) : result dtype :=
  if String.eqb name "uint8" then Ok UInt8
  else if String.eqb name "float32" then Ok Float32
  else if String.eqb name "int" then
    match r with
    | Before_1_24 => Ok PyInt
    | From_1_24 | From_2_0 => Raise AttributeError
    end
  else if String.eqb name "bool" then
    match r with
    | Before_1_24 | From_2_0 => Ok PyBool
    | From_1_24 => Raise AttributeError
    end
  else Raise AttributeError.

(** Conversion of a value to a dtype, as an assignment into an array of
    that dtype and [astype] perform it. *)
Class Astype (A : Type) : Type := astype : dtype -> A -> A.

(** Flags are handed over as booleans and stored as booleans. *)
#[global] Instance bool_astype : Astype bool := fun _ flag => flag.

(** [a % b] on Python integers. *)
Definition py_mod (a b : Z) : result Z :=
  if b =? 0 then Raise ZeroDivisionError else Ok (a `mod` b).

(** [a % b] elementwise on an integer array: a zero divisor yields 0. *)
Definition mod_elem (b a : Z) : Z := if b =? 0 then 0 else a `mod` b.

(** [np.arange(start, stop)] *)
Definition arange (start stop : Z) : list Z := seqZ start (stop - start).

(** [np.empty((n,) + shape)]: [n] slots of whatever memory held, here
    the values [mem 0], [mem 1], ...; no dimension may be negative. *)
Definition empty {A} (mem : nat -> A) (n : Z) (shape : list Z)
    : result (list A) :=
  if (n <? 0) || existsb (fun d => d <? 0) shape then Raise ValueError
  else Ok (mem <$> seq 0 (Z.to_nat n)).

(** [np.zeros((n,) + shape)], for the element shape of an array that
    exists, so that only [n] can be negative. *)
Definition zeros {A} (zero : A) (n : Z) : result (list A) :=
  if n <? 0 then Raise ValueError else Ok (replicate (Z.to_nat n) zero).

(** Bounds check and wrap of one integer index into an axis of length
    [n]. *)
Definition adjust_index (n i : Z) : result nat :=
  if (i <? - n) || (n <=? i) then Raise IndexError
  else Ok (Z.to_nat (if i <? 0 then i + n else i)).

(** [a[i]] for an integer [i]. *)
Definition getitem {A} (a : list A) (i : Z) : result A :=
  k ← adjust_index (Z.of_nat (length a)) i;
  match a !! k with
  | Some x => Ok x
  | None => Raise IndexError
  end.

(** [a[i] = x] for an integer [i] and an array [a] of dtype [d]. *)
Definition setitem {A} `{!Astype A} (d : dtype) (a : list A) (i : Z) (x : A)
    : result (list A) :=
  k ← adjust_index (Z.of_nat (length a)) i;
  Ok (<[k := astype d x]> a).

(** [a[indices]] for a sequence of integers. *)
Fixpoint getitem_fancy {A} (a : list A) (indices : list Z)
  : result (list A) :=
  match indices with
  | [] => Ok []
  | i :: rest =>
      x ← getitem a i;
      xs ← getitem_fancy a rest;
      Ok (x :: xs)
  end.

(** Clamping of a slice endpoint. *)
Definition slice_bound (n i : Z) : Z :=
  if i <? 0 then Z.max (i + n) 0 else Z.min i n.

(** [a[start:stop]] *)
Definition slice {A} (a : list A) (start stop : Z) : list A :=
  let n := Z.of_nat (length a) in
  let s := slice_bound n start in
  let e := slice_bound n stop in
  take (Z.to_nat (e - s)) (drop (Z.to_nat s) a).

(** Broadcast of an array [vals] to [n] rows of the element shape its own
    rows have, as when rows read from an array are assigned to rows of an
    array of the same element shape: only the first axis can differ. *)
Definition broadcast {A} (n : nat) (vals : list A) : result (list A) :=
  if decide (length vals = n) then Ok vals
  else match vals with
       | [v] => Ok (replicate n v)
       | _ => Raise ValueError
       end.

(** [a[start:] = vals] *)
Definition set_slice_from {A} (a : list A) (start : Z) (vals : list A)
  : result (list A) :=
  let n := Z.of_nat (length a) in
  let s := Z.to_nat (slice_bound n start) in
  vs ← broadcast (length a - s)%nat vals;
  Ok (take s a ++ vs).

Fixpoint adjust_indices (n : Z) (indices : list Z) : result (list nat) :=
  match indices with
  | [] => Ok []
  | i :: rest =>
      k ← adjust_index n i;
      ks ← adjust_indices n rest;
      Ok (k :: ks)
  end.

Fixpoint write_all {A} (a : list A) (kvs : list (nat * A)) : list A :=
  match kvs with
  | [] => a
  | (k, v) :: rest => write_all (<[k := v]> a) rest
  end.

(** The rows of [np.array(vals)], for a Python sequence [vals] of
    elements of shape [shape], broadcast for an assignment to [n] slots of
    such elements.  The array has shape [(len(vals),) + shape]; that of an
    empty sequence has shape [(0,)], which fits only a target whose last
    dimension is 0, and then nothing is written. *)
Definition broadcast_sequence {A} (shape : list Z) (n : nat) (vals : list A)
    : result (list A) :=
  match vals with
  | [] =>
      if List.last shape (Z.of_nat n) =? 0 then Ok [] else Raise ValueError
  | [v] => Ok (replicate n v)
  | _ => if decide (length vals = n) then Ok vals else Raise ValueError
  end.

(** [a[indices] = np.array(vals)] for an array [a] of dtype [d] with
    elements of shape [shape]: the indices are checked, the values
    broadcast and converted to [d], then the slots written in order, so
    that of two writes to one slot the later one stays. *)
Definition setitem_fancy {A} `{!Astype A} (d : dtype) (shape : list Z)
    (a : list A) (indices : list Z) (vals : list A) : result (list A) :=
  ks ← adjust_indices (Z.of_nat (length a)) indices;
  vs ← broadcast_sequence shape (length ks) vals;
  Ok (write_all a (zip ks (astype d <$> vs))).

(** [np.any(flags)] *)
Definition any (flags : list bool) : bool := existsb id flags.

(** [np.random.choice(range(n), size=size)]: [rng k] is the raw value of
    the k-th draw. An empty population with a nonzero [size] is an
    error. *)
Definition random_choice (rng : nat -> Z) (n size : Z) : result (list Z) :=
  if size <? 0 then Raise ValueError
  else if (n <=? 0) && negb (size =? 0) then Raise ValueError
  else Ok ((fun k => rng k `mod` n) <$> seq 0 (Z.to_nat size)).

End Np.

(** ** [BufferDataset]: ring store, state composer, transition assembler *)

Module BufferDataset.

Section Model.

(** One observation, one action, one reward, and their conversion to the
    dtype of an array. *)
Context {obs act rew : Type}.
Context {obs_astype : Np.Astype obs} {act_astype : Np.Astype act}
  {rew_astype : Np.Astype rew}.

(** The entry of [np.zeros], and the arithmetic used on rewards:
    the literal [0], [+], [*] and [**] with an integer exponent. *)
Variable obs_zero : obs.
Variable rew_zero : rew.
Variable rew_add rew_mul : rew -> rew -> rew.
Variable rew_pow : rew -> Z -> rew.

Record t : Type := Build {
  observation_shape : list Z;
  action_shape : list Z;
  history_len : Z;
  n_step : Z;
  gamma : rew;
  max_size : Z;
  obs_dtype : Np.dtype;
  act_dtype : Np.dtype;
  len : Z;
  pointer : Z;
  observations : list obs;
  actions : list act;
  rewards : list rew;
  dones : list bool
}.

Definition set_len (v : Z) (b : t) : t :=
  Build (observation_shape b) (action_shape b) (history_len b) (n_step b)
    (gamma b) (max_size b) (obs_dtype b) (act_dtype b) v (pointer b)
    (observations b) (actions b) (rewards b) (dones b).

Definition set_pointer (v : Z) (b : t) : t :=
  Build (observation_shape b) (action_shape b) (history_len b) (n_step b)
    (gamma b) (max_size b) (obs_dtype b) (act_dtype b) (len b) v
    (observations b) (actions b) (rewards b) (dones b).

Definition set_observations (v : list obs) (b : t) : t :=
  Build (observation_shape b) (action_shape b) (history_len b) (n_step b)
    (gamma b) (max_size b) (obs_dtype b) (act_dtype b) (len b) (pointer b)
    v (actions b) (rewards b) (dones b).

Definition set_actions (v : list act) (b : t) : t :=
  Build (observation_shape b) (action_shape b) (history_len b) (n_step b)
    (gamma b) (max_size b) (obs_dtype b) (act_dtype b) (len b) (pointer b)
    (observations b) v (rewards b) (dones b).

Definition set_rewards (v : list rew) (b : t) : t :=
  Build (observation_shape b) (action_shape b) (history_len b) (n_step b)
    (gamma b) (max_size b) (obs_dtype b) (act_dtype b) (len b) (pointer b)
    (observations b) (actions b) v (dones b).

Definition set_dones (v : list bool) (b : t) : t :=
  Build (observation_shape b) (action_shape b) (history_len b) (n_step b)
    (gamma b) (max_size b) (obs_dtype b) (act_dtype b) (len b) (pointer b)
    (observations b) (actions b) (rewards b) v.

(** What the four [np.empty] arrays hold before anything is written. *)
Record memory : Type := Memory {
  mem_observations : nat -> obs;
  mem_actions : nat -> act;
  mem_rewards : nat -> rew;
  mem_dones : nat -> bool
}.

(** [__init__], under the NumPy release [numpy]. *)
Definition init (numpy : Np.release) (mem : memory)
    (observation_shape action_shape : list Z)
    (max_size history_len n_step : Z) (gamma : rew)
    (discrete_actions byte_observations : bool) : result t :=
  let action_shape := if discrete_actions then [1] else action_shape in
  obs_dtype ← (if byte_observations then Np.getattr numpy "unit8"
               else Np.getattr numpy "float32");
  act_dtype ← (if discrete_actions then Np.getattr numpy "int"
               else Np.getattr numpy "float32");
  observations ← Np.empty (mem_observations mem) max_size observation_shape;
  actions ← Np.empty (mem_actions mem) max_size action_shape;
  _ ← Np.getattr numpy "float32";
  rewards ← Np.empty (mem_rewards mem) max_size [];
  _ ← Np.getattr numpy "bool";
  dones ← Np.empty (mem_dones mem) max_size [];
  Ok (Build observation_shape action_shape history_len n_step gamma max_size
        obs_dtype act_dtype 0 0 observations actions rewards dones).

(** An episode as [push_episode] receives it: four Python sequences, of
    observations, actions, rewards and flags. *)
Record episode : Type := Episode {
  ep_observations : list obs;
  ep_actions : list act;
  ep_rewards : list rew;
  ep_dones : list bool
}.

(** [push_episode].  The buffer is mutated statement by statement, so the
    buffer as the call leaves it is returned next to the outcome, also
    when a statement raises. *)
Definition push_episode (ep : episode) (b : t) : result unit * t :=
  let episode_len := Z.of_nat (length (ep_rewards ep)) in
  let b := set_len (Z.min (len b + episode_len) (max_size b)) b in
  let indices :=
    Np.mod_elem (max_size b)
      <$> Np.arange (pointer b) (pointer b + episode_len) in
  match Np.setitem_fancy (obs_dtype b) (observation_shape b)
          (observations b) indices (ep_observations ep) with
  | Raise e => (Raise e, b)
  | Ok o =>
  let b := set_observations o b in
  match Np.setitem_fancy (act_dtype b) (action_shape b)
          (actions b) indices (ep_actions ep) with
  | Raise e => (Raise e, b)
  | Ok a =>
  let b := set_actions a b in
  match Np.setitem_fancy Np.Float32 [] (rewards b) indices
          (ep_rewards ep) with
  | Raise e => (Raise e, b)
  | Ok r =>
  let b := set_rewards r b in
  match Np.setitem_fancy Np.PyBool [] (dones b) indices (ep_dones ep) with
  | Raise e => (Raise e, b)
  | Ok d =>
  let b := set_dones d b in
  match Np.py_mod (pointer b + episode_len) (max_size b) with
  | Raise e => (Raise e, b)
  | Ok p => (Ok (), set_pointer p b)
  end end end end end.

(** The loop of [get_state] over the remaining values of [i], with the
    indices gathered so far; [break] returns them. *)
Fixpoint get_state_loop (b : t) (idx : Z) (range : list Z)
    (indices : list Z) : result (list Z) :=
  match range with
  | [] => Ok indices
  | i :: range =>
      next_idx ← Np.py_mod (idx - i - 1) (max_size b);
      if len b <=? next_idx then Ok indices
      else
        d ← Np.getitem (dones b) next_idx;
        if d : bool then Ok indices
        else get_state_loop b idx range (indices ++ [next_idx])
  end.

(** [get_state] *)
Definition get_state (b : t) (idx history_len : Z) : result (list obs) :=
  let start_idx := idx - history_len + 1 in
  if (start_idx <? 0) || Np.any (Np.slice (dones b) start_idx (idx + 1))
  then
    state ← Np.zeros obs_zero history_len;
    indices ← get_state_loop b idx (seqZ 0 (history_len - 1)) [idx];
    let indices := reverse indices in
    vals ← Np.getitem_fancy (observations b) indices;
    Np.set_slice_from state (- Z.of_nat (length indices)) vals
  else
    Ok (Np.slice (observations b) start_idx (idx + 1)).

(** The loop of [get_transition_n_step] over the remaining pairs
    [(num, i)]; [done] is unbound until the body has run once. *)
Fixpoint n_step_loop (b : t) (gamma : rew) (pairs : list (Z * Z))
    (cum_reward : rew) (done : option bool) : result (rew * option bool) :=
  match pairs with
  | [] => Ok (cum_reward, done)
  | (num, i) :: pairs =>
      r ← Np.getitem (rewards b) i;
      let cum_reward := rew_add cum_reward (rew_mul r (rew_pow gamma num)) in
      done ← Np.getitem (dones b) i;
      if done : bool then Ok (cum_reward, Some done)
      else n_step_loop b gamma pairs cum_reward (Some done)
  end.

(** [enumerate] *)
Definition enumerate {A} (l : list A) : list (Z * A) :=
  imap (fun k x => (Z.of_nat k, x)) l.

(** [get_transition_n_step] *)
Definition get_transition_n_step (b : t) (idx history_len n_step : Z)
    (gamma : rew) : result (list obs * act * rew * list obs * bool) :=
  state ← get_state b idx history_len;
  next_idx ← Np.py_mod (idx + n_step) (max_size b);
  next_state ← get_state b next_idx history_len;
  let indices :=
    Np.mod_elem (max_size b) <$> Np.arange idx (idx + n_step) in
  '(cum_reward, done) ← n_step_loop b gamma (enumerate indices) rew_zero None;
  action ← Np.getitem (actions b) idx;
  done ← match done with
         | Some d => Ok d
         | None => Raise UnboundLocalError
         end;
  Ok (state, action, cum_reward, next_state, done).

(** The dictionary [__getitem__] returns.  The flag, which the source
    converts to 0.0 or 1.0, is kept as the boolean. *)
Record sample : Type := Sample {
  sample_state : list obs;
  sample_action : act;
  sample_reward : rew;
  sample_next_state : list obs;
  sample_done : bool
}.

(** [__getitem__] *)
Definition getitem (b : t) (index : Z) : result sample :=
  '(state, action, reward, next_state, done) ←
    get_transition_n_step b index (history_len b) (n_step b) (gamma b);
  Ok (Sample (Np.astype Np.Float32 <$> state) (Np.astype Np.Float32 action)
        (Np.astype Np.Float32 reward) (Np.astype Np.Float32 <$> next_state)
        done).

(** [__len__] *)
Definition len_ (b : t) : Z := len b.

End Model.

End BufferDataset.

Arguments BufferDataset.t : clear implicits.
Arguments BufferDataset.memory : clear implicits.
Arguments BufferDataset.episode : clear implicits.
Arguments BufferDataset.sample : clear implicits.

(** ** [BufferSampler]: the sample index generator *)

Module BufferSampler.

Record t (obs act rew : Type) : Type := Build {
  buffer : BufferDataset.t obs act rew;
  buffer_history_len : Z;
  epoch_len : Z;
  batch_size : Z;
  len : Z
}.
Arguments Build {obs act rew}.
Arguments buffer {obs act rew}.
Arguments buffer_history_len {obs act rew}.
Arguments epoch_len {obs act rew}.
Arguments batch_size {obs act rew}.
Arguments len {obs act rew}.

(** [__init__] *)
Definition init {obs act rew} (buffer : BufferDataset.t obs act rew)
    (epoch_len batch_size : Z) : t obs act rew :=
  Build buffer (BufferDataset.history_len buffer) epoch_len batch_size
    (epoch_len * batch_size).

(** [__iter__]: the indices of one epoch, drawn from the random source
    [rng]. *)
Definition iter {obs act rew} (rng : nat -> Z) (s : t obs act rew)
    : result (list Z) :=
  Np.random_choice rng (BufferDataset.len_ (buffer s)) (len s).

(** [__len__] *)
Definition len_ {obs act rew} (s : t obs act rew) : Z := len s.

End BufferSampler.

(** ** [SamplerBuffer]: the episode accumulator *)

Module SamplerBuffer.

Section Model.

Context {obs act rew : Type}.
Context {obs_astype : Np.Astype obs} {act_astype : Np.Astype act}
  {rew_astype : Np.Astype rew}.
Variable obs_zero : obs.

Record t : Type := Build {
  size : Z;
  observation_shape : list Z;
  action_shape : list Z;
  obs_dtype : Np.dtype;
  act_dtype : Np.dtype;
  pointer : Z;
  observations : list obs;
  actions : list act;
  rewards : list rew;
  dones : list bool
}.

Definition set_pointer (v : Z) (s : t) : t :=
  Build (size s) (observation_shape s) (action_shape s) (obs_dtype s)
    (act_dtype s) v (observations s) (actions s) (rewards s) (dones s).

Definition set_observations (v : list obs) (s : t) : t :=
  Build (size s) (observation_shape s) (action_shape s) (obs_dtype s)
    (act_dtype s) (pointer s) v (actions s) (rewards s) (dones s).

Definition set_actions (v : list act) (s : t) : t :=
  Build (size s) (observation_shape s) (action_shape s) (obs_dtype s)
    (act_dtype s) (pointer s) (observations s) v (rewards s) (dones s).

Definition set_rewards (v : list rew) (s : t) : t :=
  Build (size s) (observation_shape s) (action_shape s) (obs_dtype s)
    (act_dtype s) (pointer s) (observations s) (actions s) v (dones s).

Definition set_dones (v : list bool) (s : t) : t :=
  Build (size s) (observation_shape s) (action_shape s) (obs_dtype s)
    (act_dtype s) (pointer s) (observations s) (actions s) (rewards s) v.

(** [__init__], under the NumPy release [numpy]. *)
Definition init (numpy : Np.release)
    (mem : BufferDataset.memory obs act rew) (capacity : Z)
    (observation_shape action_shape : list Z)
    (discrete_actions byte_observations : bool) : result t :=
  obs_dtype ← (if byte_observations then Np.getattr numpy "unit8"
               else Np.getattr numpy "float32");
  act_dtype ← (if discrete_actions then Np.getattr numpy "int"
               else Np.getattr numpy "float32");
  observations ←
    Np.empty (BufferDataset.mem_observations mem) capacity observation_shape;
  actions ← Np.empty (BufferDataset.mem_actions mem) capacity action_shape;
  _ ← Np.getattr numpy "float32";
  rewards ← Np.empty (BufferDataset.mem_rewards mem) capacity [];
  _ ← Np.getattr numpy "bool";
  dones ← Np.empty (BufferDataset.mem_dones mem) capacity [];
  Ok (Build capacity observation_shape action_shape obs_dtype act_dtype 0
        observations actions rewards dones).

(** [init_with_observation] *)
Definition init_with_observation (observation : obs) (s : t)
    : result unit * t :=
  match Np.setitem (obs_dtype s) (observations s) 0 observation with
  | Raise e => (Raise e, s)
  | Ok o => (Ok (), set_pointer 0 (set_observations o s))
  end.

(** [pointer or self.pointer]: [None] and [0] both select the cursor. *)
Definition pointer_or (arg : option Z) (s : t) : Z :=
  match arg with
  | None => pointer s
  | Some p => if p =? 0 then pointer s else p
  end.

(** [get_state] *)
Definition get_state (s : t) (history_len : Z) (pointer : option Z)
    : result (list obs) :=
  let pointer := pointer_or pointer s in
  state ← Np.zeros obs_zero history_len;
  let indices :=
    Np.arange (Z.max 0 (pointer - history_len + 1)) (pointer + 1) in
  vals ← Np.getitem_fancy (observations s) indices;
  Np.set_slice_from state (- Z.of_nat (length indices)) vals.

(** [push_transition], with the transition [(s_tp1, a_t, r_t, d_t)]. *)
Definition push_transition (transition : obs * act * rew * bool) (s : t)
    : result unit * t :=
  let '(s_tp1, a_t, r_t, d_t) := transition in
  match Np.setitem (obs_dtype s) (observations s) (pointer s + 1) s_tp1 with
  | Raise e => (Raise e, s)
  | Ok o =>
  let s := set_observations o s in
  match Np.setitem (act_dtype s) (actions s) (pointer s) a_t with
  | Raise e => (Raise e, s)
  | Ok a =>
  let s := set_actions a s in
  match Np.setitem Np.Float32 (rewards s) (pointer s) r_t with
  | Raise e => (Raise e, s)
  | Ok r =>
  let s := set_rewards r s in
  match Np.setitem Np.PyBool (dones s) (pointer s) d_t with
  | Raise e => (Raise e, s)
  | Ok d =>
  let s := set_dones d s in
  (Ok (), set_pointer (pointer s + 1) s)
  end end end end.

(** [get_complete_episode] *)
Definition get_complete_episode (s : t)
    : result (list obs * list act * list rew * list bool) :=
  let indices := Np.arange 0 (pointer s) in
  observations ← Np.getitem_fancy (observations s) indices;
  actions ← Np.getitem_fancy (actions s) indices;
  rewards ← Np.getitem_fancy (rewards s) indices;
  dones ← Np.getitem_fancy (dones s) indices;
  Ok (observations, actions, rewards, dones).

(** The list comprehension of [get_states_history] over the remaining
    values of [i]. *)
Fixpoint get_states_history_loop (s : t) (history_len : Z)
    (range : list Z) : result (list (list obs)) :=
  match range with
  | [] => Ok []
  | i :: range =>
      state ← get_state s history_len (Some i);
      states ← get_states_history_loop s history_len range;
      Ok (state :: states)
  end.

(** [get_states_history] *)
Definition get_states_history (s : t) (history_len : Z)
    : result (list (list obs)) :=
  get_states_history_loop s history_len (seqZ 0 (pointer s)).

End Model.

End SamplerBuffer.

Arguments SamplerBuffer.t : clear implicits.

(** ** Specification vocabulary for [BufferDataset] *)

Section BufferDatasetSpec.

Context {obs act rew : Type}.
Context {obs_astype : Np.Astype obs} {act_astype : Np.Astype act}
  {rew_astype : Np.Astype rew}.
Variable obs_zero : obs.
Variable rew_zero : rew.
Variable rew_add rew_mul : rew -> rew -> rew.
Variable rew_pow : rew -> Z -> rew.

Local Abbreviation buffer := (BufferDataset.t obs act rew).

(** The class invariant: a positive capacity, four arrays of that length,
    and both counters within it. *)
Record wf (b : buffer) : Prop := Wf {
  wf_capacity : 0 < BufferDataset.max_size b;
  wf_len : 0 <= BufferDataset.len b <= BufferDataset.max_size b;
  wf_pointer : 0 <= BufferDataset.pointer b < BufferDataset.max_size b;
  wf_observations :
    Z.of_nat (length (BufferDataset.observations b)) = BufferDataset.max_size b;
  wf_actions :
    Z.of_nat (length (BufferDataset.actions b)) = BufferDataset.max_size b;
  wf_rewards :
    Z.of_nat (length (BufferDataset.rewards b)) = BufferDataset.max_size b;
  wf_dones :
    Z.of_nat (length (BufferDataset.dones b)) = BufferDataset.max_size b
}.

(** The buffer after a sequence of [push_episode] calls, whatever each
    call's outcome. *)
Definition push_all (eps : list (BufferDataset.episode obs act rew))
    (b : buffer) : buffer :=
  foldl (fun b ep => snd (BufferDataset.push_episode ep b)) b eps.

(** The number of steps a sequence of episodes holds. *)
Definition total_steps (eps : list (BufferDataset.episode obs act rew)) : Z :=
  foldr (fun ep n => Z.of_nat (length (BufferDataset.ep_rewards ep)) + n) 0 eps.

(** The slot an unwrapped position falls into. *)
Definition slot (b : buffer) (i : Z) : nat :=
  Z.to_nat (i `mod` BufferDataset.max_size b).

(** Slot contents, read at an unwrapped position. *)
Definition obs_at (b : buffer) (i : Z) : obs :=
  default obs_zero
    (BufferDataset.observations b !! slot b i).

Definition reward_at (b : buffer) (i : Z) : rew :=
  default rew_zero
    (BufferDataset.rewards b !! slot b i).

Definition done_at (b : buffer) (i : Z) : bool :=
  default false
    (BufferDataset.dones b !! slot b i).

(** The discounted sum of the first [k] rewards from [idx] on, summed from
    the left starting at zero. *)
Fixpoint discounted_sum (b : buffer) (idx : Z) (gamma : rew) (k : nat) : rew :=
  match k with
  | O => rew_zero
  | S k' =>
      rew_add (discounted_sum b idx gamma k')
        (rew_mul (reward_at b (idx + Z.of_nat k'))
           (rew_pow gamma (Z.of_nat k')))
  end.

(** The slot [j] steps behind [idx] can extend a history: it lies in the
    filled range and does not end an episode. *)
Definition extends_history (b : buffer) (idx : Z) (j : nat) : Prop :=
  (idx - Z.of_nat j) `mod` BufferDataset.max_size b < BufferDataset.len b
  /\ done_at b (idx - Z.of_nat j) = false.

(** [m] is how far the backward scan from [idx] gets with history length
    [h]: the slots 1..m behind [idx] extend the history, and the scan ends
    there because the history is full or the next slot does not. *)
Definition lookback (b : buffer) (idx h : Z) (m : nat) : Prop :=
  Z.of_nat m <= h - 1
  /\ (forall j, (1 <= j <= m)%nat -> extends_history b idx j)
  /\ (Z.of_nat m = h - 1 \/ ~ extends_history b idx (S m)).

(** The state of length [h] holding the observations of [idx] and of the
    [m] slots behind it in chronological order, zero before them. *)
Definition padded_state (b : buffer) (idx h : Z) (m : nat) : list obs :=
  replicate (Z.to_nat h - S m) obs_zero
    ++ ((fun j => obs_at b (idx - Z.of_nat m + Z.of_nat j)) <$> seq 0 (S m)).

(** The length of an episode as [push_episode] takes it. *)
Definition episode_len (ep : BufferDataset.episode obs act rew) : Z :=
  Z.of_nat (length (BufferDataset.ep_rewards ep)).

(** The four sequences of an episode are parallel. *)
Definition parallel (ep : BufferDataset.episode obs act rew) : Prop :=
  let n := length (BufferDataset.ep_rewards ep) in
  length (BufferDataset.ep_observations ep) = n
  /\ length (BufferDataset.ep_actions ep) = n
  /\ length (BufferDataset.ep_dones ep) = n.


End BufferDatasetSpec.

(** ** Specification vocabulary for [SamplerBuffer] *)

Section SamplerBufferSpec.

Context {obs act rew : Type}.
Context {obs_astype : Np.Astype obs} {act_astype : Np.Astype act}
  {rew_astype : Np.Astype rew}.
Variable obs_zero : obs.

Local Abbreviation accumulator := (SamplerBuffer.t obs act rew).

(** The class invariant: four scratch arrays as long as the capacity. *)
Record wf_accumulator (s : accumulator) : Prop := WfAccumulator {
  wfa_observations :
    Z.of_nat (length (SamplerBuffer.observations s)) = SamplerBuffer.size s;
  wfa_actions :
    Z.of_nat (length (SamplerBuffer.actions s)) = SamplerBuffer.size s;
  wfa_rewards :
    Z.of_nat (length (SamplerBuffer.rewards s)) = SamplerBuffer.size s;
  wfa_dones :
    Z.of_nat (length (SamplerBuffer.dones s)) = SamplerBuffer.size s
}.

(** The components of a transition [(s_tp1, a_t, r_t, d_t)]. *)
Definition tr_next_observation (t : obs * act * rew * bool) : obs :=
  let '(s_tp1, _, _, _) := t in s_tp1.
Definition tr_action (t : obs * act * rew * bool) : act :=
  let '(_, a_t, _, _) := t in a_t.
Definition tr_reward (t : obs * act * rew * bool) : rew :=
  let '(_, _, r_t, _) := t in r_t.
Definition tr_done (t : obs * act * rew * bool) : bool :=
  let '(_, _, _, d_t) := t in d_t.

(** [push_transition] for each transition in turn, up to the first one
    that raises. *)
Fixpoint append_all (ts : list (obs * act * rew * bool)) (s : accumulator)
    : result unit * accumulator :=
  match ts with
  | [] => (Ok (), s)
  | t :: ts =>
      match SamplerBuffer.push_transition t s with
      | (Ok _, s) => append_all ts s
      | (Raise e, s) => (Raise e, s)
      end
  end.

(** Seeding with [o0], then appending [ts]. *)
Definition accumulate (o0 : obs) (ts : list (obs * act * rew * bool))
    (s : accumulator) : result unit * accumulator :=
  match SamplerBuffer.init_with_observation o0 s with
  | (Ok _, s) => append_all ts s
  | (Raise e, s) => (Raise e, s)
  end.

(** The state of length [h] ending at step [i] of the accumulator's own
    array: the [h] observations ending at index [i], with leading zero
    slots when [i < h - 1]. *)
Definition history_state (s : accumulator) (h i : Z) : list obs :=
  replicate (Z.to_nat (h - 1 - i)) obs_zero
    ++ take (Z.to_nat (Z.min h (i + 1)))
         (drop (Z.to_nat (i - h + 1)) (SamplerBuffer.observations s)).

End SamplerBufferSpec.

(** ** Concrete instances, with integers for observations, actions and
    rewards *)

(** The integer a [float32] holds for the integer [x]: [x] itself up to
    [2 ^ 24] in absolute value, beyond that the nearest integer with 24
    significant bits, ties to the even one (below the overflow
    threshold). *)
Definition float32_of_Z (x : Z) : Z :=
  let a := Z.abs x in
  let e := Z.log2 a - 23 in
  if e <=? 0 then x
  else
    let q := a / 2 ^ e in
    let r := a `mod` 2 ^ e in
    let half := 2 ^ (e - 1) in
    let q' :=
      if r <? half then q
      else if half <? r then q + 1
      else if Z.even q then q else q + 1 in
    Z.sgn x * (q' * 2 ^ e).

(** Conversion of integers: rounding for [float32], wrap-around for
    [uint8], truth for [bool]. *)
#[global] Instance Z_astype : Np.Astype Z := fun d x =>
  match d with
  | Np.Float32 => float32_of_Z x
  | Np.UInt8 => x `mod` 256
  | Np.PyInt => x
  | Np.PyBool => if x =? 0 then 0 else 1
  end.

Module Demo.

Definition memory : BufferDataset.memory Z Z Z :=
  BufferDataset.Memory (fun k => 100 + Z.of_nat k) (fun _ => 7) (fun _ => 9)
    (fun _ => false).

(** [BufferDataset((), max_size=4, history_len=2, n_step=2, gamma=2)] *)
Definition fresh : BufferDataset.t Z Z Z :=
  BufferDataset.Build [] [1] 2 2 2 4 Np.Float32 Np.Float32 0 0
    [100; 101; 102; 103] [7; 7; 7; 7] [9; 9; 9; 9]
    [false; false; false; false].

Definition first_episode : BufferDataset.episode Z Z Z :=
  BufferDataset.Episode [10; 11] [0; 1] [1; 1] [false; true].

Definition second_episode : BufferDataset.episode Z Z Z :=
  BufferDataset.Episode [12] [2] [3] [false].

(** Five steps, one more than the capacity of [fresh]. *)
Definition long_episode : BufferDataset.episode Z Z Z :=
  BufferDataset.Episode [20; 21; 22; 23; 24] [0; 1; 2; 3; 4] [1; 2; 3; 4; 5]
    [false; false; false; false; true].

(** [fresh] after [first_episode] and [second_episode]. *)
Definition filled : BufferDataset.t Z Z Z :=
  BufferDataset.Build [] [1] 2 2 2 4 Np.Float32 Np.Float32 3 3
    [10; 11; 12; 103] [0; 1; 2; 7] [1; 1; 3; 9]
    [false; true; false; false].


(** [SamplerBuffer(3, ())] *)
Definition scratch : SamplerBuffer.t Z Z Z :=
  SamplerBuffer.Build 3 [] [1] Np.Float32 Np.Float32 0
    [100; 101; 102] [7; 7; 7] [9; 9; 9] [false; false; false].

(** [scratch] seeded with 50, then one transition appended. *)
Definition one_step : SamplerBuffer.t Z Z Z :=
  SamplerBuffer.Build 3 [] [1] Np.Float32 Np.Float32 1
    [50; 51; 102] [4; 7; 7] [6; 9; 9] [true; false; false].

End Demo.

(** ** Further vocabulary: sequences of pushes, stacked observations *)

Section MoreSpec.

Context {obs act rew : Type}.
Context {obs_astype : Np.Astype obs} {act_astype : Np.Astype act}
  {rew_astype : Np.Astype rew}.
Variable obs_zero : obs.

(** What NumPy accepts as the values of an assignment to [n] slots of
    elements of shape [shape], when the values come as a Python sequence:
    [n] values, or a single one that is broadcast; an empty sequence only
    when the last dimension of the target, [n] for scalars, is 0. *)
Definition broadcastable {X} (shape : list Z) (n : nat) (vals : list X)
    : Prop :=
  match vals with
  | [] => List.last shape (Z.of_nat n) = 0
  | [_] => True
  | _ => length vals = n
  end.

(** Two episodes, one after the other. *)
Definition episode_app (ep1 ep2 : BufferDataset.episode obs act rew)
    : BufferDataset.episode obs act rew :=
  BufferDataset.Episode
    (BufferDataset.ep_observations ep1 ++ BufferDataset.ep_observations ep2)
    (BufferDataset.ep_actions ep1 ++ BufferDataset.ep_actions ep2)
    (BufferDataset.ep_rewards ep1 ++ BufferDataset.ep_rewards ep2)
    (BufferDataset.ep_dones ep1 ++ BufferDataset.ep_dones ep2).

(** The tuple [get_complete_episode] returns, as the episode
    [push_episode] unpacks. *)
Definition as_episode (e : list obs * list act * list rew * list bool)
    : BufferDataset.episode obs act rew :=
  let '(observations, actions, rewards, dones) := e in
  BufferDataset.Episode observations actions rewards dones.

(** The [h] entries of [l] ending at position [i], with zeros in front
    when fewer than [h] entries exist up to [i]. *)
Definition stacked (l : list obs) (h i : Z) : list obs :=
  replicate (Z.to_nat (h - 1 - i)) obs_zero
    ++ take (Z.to_nat (Z.min h (i + 1))) (drop (Z.to_nat (i - h + 1)) l).

End MoreSpec.

Module Cases.

(** Two observations for two rewards are fine; three are not. *)
Definition ragged_episode : BufferDataset.episode Z Z Z :=
  BufferDataset.Episode [30; 31; 32] [0; 1] [1; 1] [false; true].

(** An episode whose first observation, [2 ** 24 + 1], is not a
    [float32]. *)
Definition precise_episode : BufferDataset.episode Z Z Z :=
  BufferDataset.Episode [16777217; 11] [0; 1] [1; 1] [false; true].

(** A ring of four slots, all filled, written up to slot 1: slots 2, 3
    hold the oldest steps, slots 0, 1 the newest. *)
Definition full : BufferDataset.t Z Z Z :=
  BufferDataset.Build [] [1] 3 2 2 4 Np.Float32 Np.Float32 4 2
    [14; 15; 12; 13] [4; 5; 2; 3] [1; 2; 3; 4]
    [false; false; false; false].

(** [Demo.scratch] seeded with 50, then two transitions appended: it is
    full. *)
Definition two_steps : SamplerBuffer.t Z Z Z :=
  SamplerBuffer.Build 3 [] [1] Np.Float32 Np.Float32 2
    [50; 51; 52] [4; 5; 7] [6; 7; 9] [false; true; false].

End Cases.
(** * Properties *)

(** ** Array reads and writes *)

Section NpFacts.

Context {A : Type} {A_astype : Np.Astype A}.
Implicit Types (a : list A) (i : Z).

Lemma bind_ok {B C} (m : result B) (f : B -> result C) (c : C) :
  m ≫= f = Ok c <-> exists x, m = Ok x /\ f x = Ok c.
Proof.
  destruct m as [x|e]; simpl; split.
  - intros H. exists x. auto.
  - intros (y & [= ->] & H). exact H.
  - discriminate.
  - intros (y & [=] & _).
Qed.

Lemma adjust_index_in_range n i :
  0 <= i < n -> Np.adjust_index n i = Ok (Z.to_nat i).
Proof.
  intros Hi. unfold Np.adjust_index.
  replace (i <? - n) with false by lia.
  replace (n <=? i) with false by lia.
  replace (i <? 0) with false by lia. reflexivity.
Qed.

Lemma getitem_in_range a i :
  0 <= i < Z.of_nat (length a) ->
  exists x, a !! Z.to_nat i = Some x /\ Np.getitem a i = Ok x.
Proof.
  intros Hi. unfold Np.getitem. rewrite adjust_index_in_range by exact Hi.
  destruct (lookup_lt_is_Some_2 a (Z.to_nat i)) as [x Hx]; [lia|].
  exists x. simpl. rewrite Hx. auto.
Qed.

Lemma getitem_default a i (d : A) :
  0 <= i < Z.of_nat (length a) ->
  Np.getitem a i = Ok (default d (a !! Z.to_nat i)).
Proof.
  intros Hi. destruct (getitem_in_range a i Hi) as (x & Hx & ->).
  rewrite Hx. reflexivity.
Qed.

Lemma setitem_in_range (d : Np.dtype) a i (x : A) :
  0 <= i < Z.of_nat (length a) ->
  Np.setitem d a i x = Ok (<[Z.to_nat i := Np.astype d x]> a).
Proof.
  intros Hi. unfold Np.setitem. rewrite adjust_index_in_range by exact Hi.
  reflexivity.
Qed.

Lemma getitem_fancy_in_range a (d : A) (indices : list Z) :
  Forall (fun i => 0 <= i < Z.of_nat (length a)) indices ->
  Np.getitem_fancy a indices
  = Ok ((fun i => default d (a !! Z.to_nat i)) <$> indices).
Proof.
  induction 1 as [|i rest Hi _ IH]; [reflexivity|].
  simpl. rewrite (getitem_default a i d Hi). simpl. rewrite IH. reflexivity.
Qed.

Lemma adjust_indices_in_range n (indices : list Z) :
  Forall (fun i => 0 <= i < n) indices ->
  Np.adjust_indices n indices = Ok (Z.to_nat <$> indices).
Proof.
  induction 1 as [|i rest Hi _ IH]; [reflexivity|].
  simpl. rewrite adjust_index_in_range by exact Hi. simpl. rewrite IH.
  reflexivity.
Qed.

Lemma length_write_all a (kvs : list (nat * A)) :
  length (Np.write_all a kvs) = length a.
Proof.
  revert a. induction kvs as [|[k v] kvs IH]; intros a; [reflexivity|].
  simpl. rewrite IH. apply length_insert.
Qed.

Lemma length_setitem_fancy (d : Np.dtype) (shape : list Z) a
    (indices : list Z) (vals a' : list A) :
  Np.setitem_fancy d shape a indices vals = Ok a' -> length a' = length a.
Proof.
  unfold Np.setitem_fancy. intros H.
  apply bind_ok in H as (ks & _ & H). apply bind_ok in H as (vs & _ & H).
  injection H as <-. apply length_write_all.
Qed.

Lemma broadcast_same (vals : list A) :
  Np.broadcast (length vals) vals = Ok vals.
Proof. unfold Np.broadcast. rewrite decide_True by reflexivity. reflexivity.
  Qed.

Lemma set_slice_from_tail (z : A) (n : nat) (vals : list A) :
  (0 < length vals <= n)%nat ->
  Np.set_slice_from (replicate n z) (- Z.of_nat (length vals)) vals
  = Ok (replicate (n - length vals) z ++ vals).
Proof.
  intros Hle. unfold Np.set_slice_from. rewrite length_replicate.
  assert (Hs : Z.to_nat (Np.slice_bound (Z.of_nat n) (- Z.of_nat (length vals)))
               = (n - length vals)%nat).
  { unfold Np.slice_bound. destruct (Z.ltb_spec (- Z.of_nat (length vals)) 0);
    lia. }
  rewrite Hs. replace (n - (n - length vals))%nat with (length vals) by lia.
  rewrite broadcast_same. simpl. rewrite take_replicate.
  replace ((n - length vals) `min` n)%nat with (n - length vals)%nat by lia.
  reflexivity.
Qed.

Lemma slice_in_range a (s e : Z) :
  0 <= s <= e -> e <= Z.of_nat (length a) ->
  Np.slice a s e = take (Z.to_nat (e - s)) (drop (Z.to_nat s) a).
Proof.
  intros Hs He. unfold Np.slice, Np.slice_bound.
  replace (s <? 0) with false by lia. replace (e <? 0) with false by lia.
  rewrite !Z.min_l by lia. reflexivity.
Qed.

End NpFacts.

(** ** The ring store: [push_episode] and the counters *)

Section PushFacts.

Context {obs act rew : Type}.
Context {obs_astype : Np.Astype obs} {act_astype : Np.Astype act}
  {rew_astype : Np.Astype rew}.

Local Abbreviation buffer := (BufferDataset.t obs act rew).
Local Abbreviation episode := (BufferDataset.episode obs act rew).

Implicit Types (b : buffer) (ep : episode) (eps : list episode).

Lemma push_episode_len ep b :
  BufferDataset.len (snd (BufferDataset.push_episode ep b))
  = Z.min (BufferDataset.len b + episode_len ep) (BufferDataset.max_size b).
Proof.
  unfold BufferDataset.push_episode. repeat case_match; reflexivity.
Qed.

Lemma push_episode_max_size ep b :
  BufferDataset.max_size (snd (BufferDataset.push_episode ep b))
  = BufferDataset.max_size b.
Proof.
  unfold BufferDataset.push_episode. repeat case_match; reflexivity.
Qed.

Lemma push_episode_pointer ep b :
  BufferDataset.pointer (snd (BufferDataset.push_episode ep b))
  = match fst (BufferDataset.push_episode ep b) with
    | Ok _ => (BufferDataset.pointer b + episode_len ep)
                `mod` BufferDataset.max_size b
    | Raise _ => BufferDataset.pointer b
    end.
Proof.
  unfold BufferDataset.push_episode, Np.py_mod. simpl.
  repeat case_match; simplify_eq; reflexivity.
Qed.

Lemma push_episode_lengths ep b :
  let b' := snd (BufferDataset.push_episode ep b) in
  length (BufferDataset.observations b') = length (BufferDataset.observations b)
  /\ length (BufferDataset.actions b') = length (BufferDataset.actions b)
  /\ length (BufferDataset.rewards b') = length (BufferDataset.rewards b)
  /\ length (BufferDataset.dones b') = length (BufferDataset.dones b).
Proof.
  unfold BufferDataset.push_episode. simpl.
  repeat case_match; simpl;
    repeat match goal with
           | H : Np.setitem_fancy _ _ _ _ _ = Ok _ |- _ =>
               apply length_setitem_fancy in H; simpl in H; rewrite H; clear H
           end; auto.
Qed.

Lemma push_episode_wf ep b :
  wf b -> wf (snd (BufferDataset.push_episode ep b)).
Proof.
  intros [Hc Hl Hp Ho Ha Hr Hd].
  destruct (push_episode_lengths ep b) as (Eo & Ea & Er & Ed).
  pose proof (push_episode_pointer ep b) as Ep.
  split; rewrite ?push_episode_max_size, ?push_episode_len;
    rewrite ?Eo, ?Ea, ?Er, ?Ed; try assumption.
  - unfold episode_len. lia.
  - rewrite Ep. destruct (fst (BufferDataset.push_episode ep b)); [|exact Hp].
    apply Z.mod_pos_bound. exact Hc.
Qed.

Lemma total_steps_app eps eps' :
  total_steps (eps ++ eps') = total_steps eps + total_steps eps'.
Proof.
  induction eps as [|ep eps IH]; simpl; [reflexivity|].
  unfold total_steps in *. simpl. rewrite foldr_app in *. lia.
Qed.

Lemma total_steps_nonneg eps : 0 <= total_steps eps.
Proof.
  induction eps as [|ep eps IH]; unfold total_steps in *; simpl; lia.
Qed.

Lemma push_all_max_size eps b :
  BufferDataset.max_size (push_all eps b) = BufferDataset.max_size b.
Proof.
  revert b. induction eps as [|ep eps IH]; intros b; [reflexivity|].
  simpl. rewrite IH. apply push_episode_max_size.
Qed.

Lemma push_all_len eps b :
  0 <= BufferDataset.len b <= BufferDataset.max_size b ->
  BufferDataset.len (push_all eps b)
  = Z.min (BufferDataset.len b + total_steps eps) (BufferDataset.max_size b).
Proof.
  revert b. induction eps as [|ep eps IH]; intros b Hb.
  - unfold total_steps. simpl. lia.
  - simpl. pose proof (total_steps_nonneg eps) as Hn.
    rewrite IH; rewrite push_episode_max_size, push_episode_len;
      unfold total_steps in *; simpl; unfold episode_len; lia.
Qed.

Lemma push_all_wf eps b : wf b -> wf (push_all eps b).
Proof.
  revert b. induction eps as [|ep eps IH]; intros b Hb; [exact Hb|].
  simpl. apply IH, push_episode_wf, Hb.
Qed.

Lemma empty_ok {X} (mem : nat -> X) (n : Z) (shape : list Z) (a : list X) :
  Np.empty mem n shape = Ok a ->
  0 <= n /\ Forall (fun d => 0 <= d) shape
  /\ a = mem <$> seq 0 (Z.to_nat n).
Proof.
  unfold Np.empty. intros H.
  destruct ((n <? 0) || existsb (fun d => d <? 0) shape) eqn:Hneg;
    [discriminate|].
  apply orb_false_iff in Hneg as [Hn Hshape]. injection H as <-.
  split; [lia|]. split; [|reflexivity].
  apply Forall_forall. intros d Hd.
  destruct (Z.ltb_spec d 0) as [Hlt|Hge]; [|exact Hge].
  assert (existsb (fun d => d <? 0) shape = true); [|congruence].
  apply existsb_exists. exists d. split; [exact Hd | lia].
Qed.

Lemma empty_nonneg {X} (mem : nat -> X) (n : Z) (shape : list Z) :
  0 <= n -> Forall (fun d => 0 <= d) shape ->
  Np.empty mem n shape = Ok (mem <$> seq 0 (Z.to_nat n)).
Proof.
  intros Hn Hshape. unfold Np.empty.
  replace (n <? 0) with false by lia.
  replace (existsb (fun d => d <? 0) shape) with false; [reflexivity|].
  symmetry. induction Hshape as [|d shape Hd _ IH]; [reflexivity|].
  simpl. rewrite IH. lia.
Qed.

Lemma empty_negative {X} (mem : nat -> X) (n : Z) (shape : list Z) :
  ~ (0 <= n /\ Forall (fun d => 0 <= d) shape) ->
  Np.empty mem n shape = Raise ValueError.
Proof.
  intros Hneg. destruct (Np.empty mem n shape) as [a|e] eqn:E.
  - apply empty_ok in E as (Hn & Hshape & _). tauto.
  - unfold Np.empty in E.
    destruct ((n <? 0) || existsb (fun d => d <? 0) shape);
      [congruence | discriminate].
Qed.

(** What a construction that returns has built. *)
Lemma init_ok (numpy : Np.release) (mem : BufferDataset.memory obs act rew)
    (observation_shape action_shape : list Z)
    (max_size history_len n_step : Z) (gamma : rew)
    (discrete_actions byte_observations : bool) b :
  BufferDataset.init numpy mem observation_shape action_shape max_size
    history_len n_step gamma discrete_actions byte_observations = Ok b ->
  0 <= max_size
  /\ BufferDataset.len b = 0 /\ BufferDataset.pointer b = 0
  /\ BufferDataset.max_size b = max_size
  /\ Z.of_nat (length (BufferDataset.observations b)) = max_size
  /\ Z.of_nat (length (BufferDataset.actions b)) = max_size
  /\ Z.of_nat (length (BufferDataset.rewards b)) = max_size
  /\ Z.of_nat (length (BufferDataset.dones b)) = max_size.
Proof.
  unfold BufferDataset.init. intros H.
  apply bind_ok in H as (obs_dtype & _ & H).
  apply bind_ok in H as (act_dtype & _ & H).
  apply bind_ok in H as (observations & Ho & H).
  apply bind_ok in H as (actions & Ha & H).
  apply bind_ok in H as (? & _ & H).
  apply bind_ok in H as (rewards & Hr & H).
  apply bind_ok in H as (? & _ & H).
  apply bind_ok in H as (dones & Hd & H).
  injection H as <-.
  apply empty_ok in Ho as (Hn & _ & ->). apply empty_ok in Ha as (_ & _ & ->).
  apply empty_ok in Hr as (_ & _ & ->). apply empty_ok in Hd as (_ & _ & ->).
  simpl. rewrite !length_fmap, !length_seq. repeat split; lia.
Qed.

Lemma init_wf (numpy : Np.release) (mem : BufferDataset.memory obs act rew)
    (observation_shape action_shape : list Z)
    (max_size history_len n_step : Z) (gamma : rew)
    (discrete_actions byte_observations : bool) b :
  BufferDataset.init numpy mem observation_shape action_shape max_size
    history_len n_step gamma discrete_actions byte_observations = Ok b ->
  0 < max_size ->
  wf b /\ BufferDataset.len b = 0 /\ BufferDataset.pointer b = 0
  /\ BufferDataset.max_size b = max_size.
Proof.
  intros H Hpos.
  destruct (init_ok _ _ _ _ _ _ _ _ _ _ _ H)
    as (_ & Hlen & Hptr & Hmax & Ho & Ha & Hr & Hd).
  split; [split; lia | auto].
Qed.

Lemma init_fresh (numpy : Np.release)
    (mem : BufferDataset.memory obs act rew)
    (observation_shape action_shape : list Z)
    (max_size history_len n_step : Z) (gamma : rew)
    (discrete_actions byte_observations : bool) b :
  BufferDataset.init numpy mem observation_shape action_shape max_size
    history_len n_step gamma discrete_actions byte_observations = Ok b ->
  BufferDataset.len b = 0 /\ BufferDataset.pointer b = 0
  /\ BufferDataset.max_size b = max_size /\ 0 <= max_size.
Proof.
  intros H.
  destruct (init_ok _ _ _ _ _ _ _ _ _ _ _ H) as (Hn & Hlen & Hptr & Hmax & _).
  auto.
Qed.

(** *** Writes through an index array *)

Lemma write_all_lookup_other {X} (a : list X) (ks : list nat) (vs : list X)
    (p : nat) :
  (forall j, ks !! j <> Some p) ->
  Np.write_all a (zip ks vs) !! p = a !! p.
Proof.
  revert a vs. induction ks as [|k ks IH]; intros a vs Hp; [reflexivity|].
  destruct vs as [|v vs]; [reflexivity|]. simpl.
  rewrite IH by (intros j; apply (Hp (S j))).
  apply list_lookup_insert_ne. intros ->. apply (Hp 0%nat). reflexivity.
Qed.

Lemma write_all_lookup_last {X} (a : list X) (ks : list nat) (vs : list X)
    (j p : nat) (v : X) :
  ks !! j = Some p -> vs !! j = Some v -> (p < length a)%nat ->
  (forall j', (j < j')%nat -> ks !! j' <> Some p) ->
  Np.write_all a (zip ks vs) !! p = Some v.
Proof.
  revert a vs j. induction ks as [|k ks IH]; intros a vs j Hk Hv Hp Hlater;
    [discriminate|].
  destruct vs as [|v0 vs]; [discriminate|]. simpl.
  destruct j as [|j]; simpl in Hk, Hv.
  - injection Hk as ->. injection Hv as ->.
    rewrite write_all_lookup_other.
    + apply list_lookup_insert_eq. exact Hp.
    + intros j. apply (Hlater (S j)). lia.
  - apply (IH _ _ j Hk Hv).
    + rewrite length_insert. exact Hp.
    + intros j' Hj'. apply (Hlater (S j')). lia.
Qed.

Lemma broadcast_sequence_same {X} (shape : list Z) (vals : list X) :
  vals <> [] -> Np.broadcast_sequence shape (length vals) vals = Ok vals.
Proof.
  destruct vals as [|v [|w vals]]; [congruence | reflexivity |]. intros _.
  unfold Np.broadcast_sequence. rewrite decide_True by reflexivity.
  reflexivity.
Qed.

Lemma setitem_fancy_in_range {X} {X_astype : Np.Astype X} (d : Np.dtype)
    (shape : list Z) (a : list X) (indices : list Z) (vals : list X) :
  Forall (fun i => 0 <= i < Z.of_nat (length a)) indices ->
  length vals = length indices -> vals <> [] ->
  Np.setitem_fancy d shape a indices vals
  = Ok (Np.write_all a (zip (Z.to_nat <$> indices) (Np.astype d <$> vals))).
Proof.
  intros Hin Hlen Hne. unfold Np.setitem_fancy.
  rewrite adjust_indices_in_range by exact Hin. cbn [mbind result_bind].
  rewrite length_fmap, <- Hlen, broadcast_sequence_same by exact Hne.
  reflexivity.
Qed.

(** With no index and no value nothing is written, but the empty array of
    values must still fit the shape of the target. *)
Lemma setitem_fancy_nil {X} {X_astype : Np.Astype X} (d : Np.dtype)
    (shape : list Z) (a : list X) :
  Np.setitem_fancy d shape a [] []
  = if List.last shape 0 =? 0 then Ok a else Raise ValueError.
Proof.
  unfold Np.setitem_fancy. simpl. change (Z.of_nat 0) with 0.
  destruct (List.last shape 0 =? 0); reflexivity.
Qed.

(** The slots [push_episode] writes, in the order it writes them. *)
Lemma ring_indices b (n : nat) :
  0 < BufferDataset.max_size b ->
  Z.to_nat <$> (Np.mod_elem (BufferDataset.max_size b)
                  <$> Np.arange (BufferDataset.pointer b)
                        (BufferDataset.pointer b + Z.of_nat n))
  = (fun j => slot b (BufferDataset.pointer b + Z.of_nat j)) <$> seq 0 n.
Proof.
  intros Hc. unfold Np.arange, seqZ.
  replace (BufferDataset.pointer b + Z.of_nat n - BufferDataset.pointer b)
    with (Z.of_nat n) by lia.
  rewrite Nat2Z.id, <- !list_fmap_compose. apply list_fmap_ext.
  intros _ j _. simpl. unfold Np.mod_elem, slot.
  replace (BufferDataset.max_size b =? 0) with false by lia.
  do 2 f_equal. lia.
Qed.

Lemma ring_indices_in_range b (n : nat) (len : nat) :
  0 < BufferDataset.max_size b -> Z.of_nat len = BufferDataset.max_size b ->
  Forall (fun i => 0 <= i < Z.of_nat len)
    (Np.mod_elem (BufferDataset.max_size b)
       <$> Np.arange (BufferDataset.pointer b)
             (BufferDataset.pointer b + Z.of_nat n)).
Proof.
  intros Hc Hlen. apply Forall_fmap, Forall_forall. intros i _. simpl.
  unfold Np.mod_elem. replace (BufferDataset.max_size b =? 0) with false by lia.
  rewrite Hlen. apply Z.mod_pos_bound. exact Hc.
Qed.

Lemma slot_distinct b (i j : Z) :
  0 < BufferDataset.max_size b ->
  0 < j - i < BufferDataset.max_size b -> slot b j <> slot b i.
Proof.
  intros Hc Hij Heq. unfold slot in Heq.
  pose proof (Z.mod_pos_bound i _ Hc). pose proof (Z.mod_pos_bound j _ Hc).
  assert (Hmod : j `mod` BufferDataset.max_size b
                 = i `mod` BufferDataset.max_size b) by lia.
  assert (Hz : (j - i) `mod` BufferDataset.max_size b = 0).
  { rewrite Zminus_mod, Hmod, Z.sub_diag. apply Zmod_0_l. }
  rewrite Z.mod_small in Hz by lia. lia.
Qed.

(** The array [push_episode] leaves for one of the four fields. *)
Lemma pushed_field {X} b (a : list X) (vals : list X) :
  0 < BufferDataset.max_size b ->
  Z.of_nat (length a) = BufferDataset.max_size b ->
  forall j : nat,
    (j < length vals)%nat ->
    Z.of_nat (length vals) - BufferDataset.max_size b <= Z.of_nat j ->
    Np.write_all a
      (zip ((fun j => slot b (BufferDataset.pointer b + Z.of_nat j))
              <$> seq 0 (length vals)) vals)
      !! slot b (BufferDataset.pointer b + Z.of_nat j)
    = vals !! j.
Proof.
  intros Hc Hlen j Hj Hrecent.
  destruct (lookup_lt_is_Some_2 vals j Hj) as [v Hv]. rewrite Hv.
  apply (write_all_lookup_last _ _ _ j); [| exact Hv | |].
  - rewrite list_lookup_fmap, lookup_seq_lt by exact Hj. reflexivity.
  - pose proof (Z.mod_pos_bound (BufferDataset.pointer b + Z.of_nat j) _ Hc).
    unfold slot. lia.
  - intros j' Hj'. rewrite list_lookup_fmap.
    destruct (decide (j' < length vals)%nat) as [Hlt|Hge].
    + rewrite lookup_seq_lt by exact Hlt. simpl. intros [= Heq].
      revert Heq. apply slot_distinct; [exact Hc | lia].
    + rewrite lookup_seq_ge by lia. discriminate.
Qed.

(** The same for values converted on the way in. *)
Lemma pushed_field_astype {X} (f : X -> X) b (a : list X) (vals : list X) :
  0 < BufferDataset.max_size b ->
  Z.of_nat (length a) = BufferDataset.max_size b ->
  forall j : nat,
    (j < length vals)%nat ->
    Z.of_nat (length vals) - BufferDataset.max_size b <= Z.of_nat j ->
    Np.write_all a
      (zip ((fun j => slot b (BufferDataset.pointer b + Z.of_nat j))
              <$> seq 0 (length vals)) (f <$> vals))
      !! slot b (BufferDataset.pointer b + Z.of_nat j)
    = f <$> vals !! j.
Proof.
  intros Hc Hlen j Hj Hrecent. rewrite <- list_lookup_fmap.
  rewrite <- (length_fmap f vals).
  apply pushed_field; rewrite ?length_fmap; assumption.
Qed.

Lemma arange_nil (p : Z) : Np.arange p (p + 0) = [].
Proof. unfold Np.arange. replace (p + 0 - p) with 0 by lia. reflexivity. Qed.

(** An episode with no step leaves a buffer as it is, whether the call
    returns or raises. *)
Lemma push_episode_nil_state ep b :
  wf b -> parallel ep -> BufferDataset.ep_rewards ep = [] ->
  snd (BufferDataset.push_episode ep b) = b.
Proof.
  intros [Hc Hl Hp Ho Ha Hr Hd] (Eo & Ea & Ed) Er.
  destruct ep as [o a r d]. simpl in *. subst r. simpl in *.
  destruct o; [|discriminate]. destruct a; [|discriminate].
  destruct d; [|discriminate].
  destruct b as [oshape ashape h n g M od ad len p os acs rs ds].
  cbn [BufferDataset.max_size BufferDataset.len BufferDataset.pointer] in *.
  unfold BufferDataset.push_episode.
  cbn [BufferDataset.ep_rewards BufferDataset.ep_observations
    BufferDataset.ep_actions BufferDataset.ep_dones length
    BufferDataset.max_size BufferDataset.set_len
    BufferDataset.set_observations BufferDataset.set_actions
    BufferDataset.set_rewards BufferDataset.set_dones
    BufferDataset.pointer BufferDataset.len BufferDataset.observations
    BufferDataset.actions BufferDataset.rewards BufferDataset.dones
    BufferDataset.observation_shape BufferDataset.action_shape
    BufferDataset.obs_dtype BufferDataset.act_dtype
    BufferDataset.history_len BufferDataset.n_step BufferDataset.gamma].
  change (Z.of_nat 0) with 0. rewrite arange_nil. cbn [fmap list_fmap].
  rewrite !setitem_fancy_nil. unfold Np.py_mod.
  replace (M =? 0) with false by lia.
  rewrite !Z.add_0_r, Z.min_l by lia. rewrite Z.mod_small by lia.
  repeat match goal with |- context [if ?c then _ else _] => destruct c end;
    reflexivity.
Qed.

(** [push_episode] on an episode of parallel sequences, of any length: the
    values are converted to the dtype of their array and written to the
    slots from the write cursor on; an episode with at least one step is
    accepted. *)
Lemma push_episode_parallel ep b :
  wf b -> parallel ep ->
  let ks := (fun j => slot b (BufferDataset.pointer b + Z.of_nat j))
              <$> seq 0 (length (BufferDataset.ep_rewards ep)) in
  let b' := snd (BufferDataset.push_episode ep b) in
  (BufferDataset.ep_rewards ep <> [] ->
   fst (BufferDataset.push_episode ep b) = Ok ())
  /\ BufferDataset.observations b'
     = Np.write_all (BufferDataset.observations b)
         (zip ks (Np.astype (BufferDataset.obs_dtype b)
                    <$> BufferDataset.ep_observations ep))
  /\ BufferDataset.actions b'
     = Np.write_all (BufferDataset.actions b)
         (zip ks (Np.astype (BufferDataset.act_dtype b)
                    <$> BufferDataset.ep_actions ep))
  /\ BufferDataset.rewards b'
     = Np.write_all (BufferDataset.rewards b)
         (zip ks (Np.astype Np.Float32 <$> BufferDataset.ep_rewards ep))
  /\ BufferDataset.dones b'
     = Np.write_all (BufferDataset.dones b)
         (zip ks (BufferDataset.ep_dones ep)).
Proof.
  intros Hwf Hpar.
  destruct (decide (BufferDataset.ep_rewards ep = [])) as [Hnil|Hne].
  { cbv zeta. rewrite push_episode_nil_state by assumption.
    rewrite Hnil. simpl. split; [congruence | auto]. }
  destruct Hwf as [Hc Hl Hp Ho Ha Hr Hd]. destruct Hpar as (Eo & Ea & Ed).
  assert (No : BufferDataset.ep_observations ep <> []).
  { intros E. rewrite E in Eo. destruct (BufferDataset.ep_rewards ep);
      [congruence | discriminate]. }
  assert (Na : BufferDataset.ep_actions ep <> []).
  { intros E. rewrite E in Ea. destruct (BufferDataset.ep_rewards ep);
      [congruence | discriminate]. }
  assert (Nd : BufferDataset.ep_dones ep <> []).
  { intros E. rewrite E in Ed. destruct (BufferDataset.ep_rewards ep);
      [congruence | discriminate]. }
  cbv zeta. unfold BufferDataset.push_episode. simpl.
  rewrite !setitem_fancy_in_range;
    rewrite ?length_fmap; unfold Np.arange; rewrite ?length_seqZ;
    try lia; try assumption;
    try (apply ring_indices_in_range; assumption).
  fold (Np.arange (BufferDataset.pointer b)
          (BufferDataset.pointer b
           + Z.of_nat (length (BufferDataset.ep_rewards ep)))).
  rewrite ring_indices by exact Hc. unfold Np.py_mod. simpl.
  replace (BufferDataset.max_size b =? 0) with false by lia. simpl.
  change (Np.astype Np.PyBool) with (@id bool). rewrite list_fmap_id. auto.
Qed.

End PushFacts.

(** ** The state composer: [get_state] *)

Section StateFacts.

Context {obs act rew : Type}.
Context {obs_astype : Np.Astype obs} {act_astype : Np.Astype act}
  {rew_astype : Np.Astype rew}.
Variable obs_zero : obs.

Local Abbreviation buffer := (BufferDataset.t obs act rew).
Local Abbreviation get_state := (BufferDataset.get_state obs_zero).

Implicit Types (b : buffer) (idx h : Z) (m : nat).

Lemma seqZ_of_nat (i cnt : nat) :
  seqZ (Z.of_nat i) (Z.of_nat cnt) = Z.of_nat <$> seq i cnt.
Proof.
  unfold seqZ. rewrite Nat2Z.id. apply list_eq. intros k.
  rewrite !list_lookup_fmap. destruct (decide (k < cnt)%nat).
  - rewrite !lookup_seq_lt by lia. simpl. f_equal. lia.
  - rewrite !lookup_seq_ge by lia. reflexivity.
Qed.

Lemma done_at_lookup b i :
  wf b -> 0 <= i < BufferDataset.max_size b ->
  BufferDataset.dones b !! Z.to_nat i = Some (done_at b i).
Proof.
  intros Hwf Hi. unfold done_at, slot. rewrite Z.mod_small by exact Hi.
  destruct (lookup_lt_is_Some_2 (BufferDataset.dones b) (Z.to_nat i)) as [d Hd].
  - pose proof (wf_dones b Hwf). lia.
  - rewrite Hd. reflexivity.
Qed.

Lemma done_at_mod b i :
  wf b -> done_at b (i `mod` BufferDataset.max_size b) = done_at b i.
Proof.
  intros Hwf. unfold done_at, slot. rewrite Zmod_mod. reflexivity.
Qed.

Lemma getitem_dones b i :
  wf b -> 0 <= i < BufferDataset.max_size b ->
  Np.getitem (BufferDataset.dones b) i = Ok (done_at b i).
Proof.
  intros Hwf Hi. rewrite (getitem_default _ _ false).
  - rewrite done_at_lookup by assumption. reflexivity.
  - rewrite (wf_dones b Hwf). exact Hi.
Qed.

(** The backward walk, started [i] slots behind [idx] with [cnt] rounds
    left: it gathers the next [m] slots and stops for the reason
    [lookback] names. *)
Lemma get_state_loop_spec b idx (cnt i : nat) (acc : list Z) :
  wf b ->
  exists m,
    (m <= cnt)%nat
    /\ (forall j, (i < j <= i + m)%nat -> extends_history b idx j)
    /\ (m = cnt \/ ~ extends_history b idx (S (i + m)))
    /\ BufferDataset.get_state_loop b idx (Z.of_nat <$> seq i cnt) acc
       = Ok (acc ++ ((fun k => (idx - Z.of_nat (i + k) - 1)
                                 `mod` BufferDataset.max_size b)
                       <$> seq 0 m)).
Proof.
  intros Hwf. pose proof (wf_capacity b Hwf) as Hc.
  revert i acc. induction cnt as [|cnt IH]; intros i acc.
  { exists 0%nat. simpl. rewrite app_nil_r. repeat split; auto; lia. }
  simpl. unfold Np.py_mod. replace (BufferDataset.max_size b =? 0) with false
    by lia.
  simpl. set (next_idx := (idx - Z.of_nat i - 1) `mod` BufferDataset.max_size
    b).
  assert (Hn : 0 <= next_idx < BufferDataset.max_size b)
    by (apply Z.mod_pos_bound; exact Hc).
  assert (Hslot : idx - Z.of_nat (S (i + 0)) = idx - Z.of_nat i - 1) by lia.
  destruct (Z.leb_spec (BufferDataset.len b) next_idx) as [Hge|Hlt].
  { exists 0%nat. simpl. rewrite app_nil_r. repeat split; try lia.
    right. unfold extends_history. rewrite Hslot. fold next_idx. lia. }
  rewrite (getitem_dones b next_idx Hwf Hn). simpl.
  assert (Hd : done_at b next_idx = done_at b (idx - Z.of_nat i - 1))
    by (apply done_at_mod; exact Hwf).
  destruct (done_at b next_idx) eqn:Hdone.
  { exists 0%nat. simpl. rewrite app_nil_r. repeat split; try lia.
    right. unfold extends_history. rewrite Hslot, <- Hd. intros [_ ?].
    discriminate. }
  destruct (IH (S i) (acc ++ [next_idx])) as (m & Hm & Hall & Hstop & Heq).
  exists (S m). split; [|split; [|split]].
  - lia.
  - intros j Hj. destruct (decide (j = S i)) as [->|Hne].
    + unfold extends_history.
      replace (idx - Z.of_nat (S i)) with (idx - Z.of_nat i - 1) by lia.
      fold next_idx. split; [lia | congruence].
    + apply Hall. lia.
  - destruct Hstop as [->|Hstop]; [left; reflexivity|right].
    replace (i + S m)%nat with (S i + m)%nat by lia. exact Hstop.
  - etrans; [exact Heq|]. rewrite <- app_assoc. do 2 f_equal. simpl. f_equal.
    + unfold next_idx. f_equal. lia.
    + rewrite <- fmap_S_seq, <- list_fmap_compose. apply list_fmap_ext.
      intros _ k _. simpl. f_equal. lia.
Qed.

Lemma gathered_indices idx (M : Z) m :
  reverse (idx :: ((fun k => (idx - Z.of_nat (0 + k) - 1) `mod` M) <$> seq 0 m))
  = ((fun j => (idx - Z.of_nat m + Z.of_nat j) `mod` M) <$> seq 0 m) ++ [idx].
Proof.
  rewrite reverse_cons. f_equal. apply list_eq. intros p.
  destruct (decide (p < m)%nat) as [Hp|Hp].
  - rewrite reverse_lookup by (rewrite length_fmap, length_seq; exact Hp).
    rewrite length_fmap, length_seq, !list_lookup_fmap.
    rewrite !lookup_seq_lt by lia. simpl. do 2 f_equal. lia.
  - rewrite !lookup_ge_None_2; [reflexivity | |];
      rewrite ?length_reverse, length_fmap, length_seq; lia.
Qed.

Lemma obs_at_lookup b i :
  0 <= i < BufferDataset.max_size b ->
  default obs_zero (BufferDataset.observations b !! Z.to_nat i)
  = obs_at obs_zero b i.
Proof. intros Hi. unfold obs_at, slot. rewrite Z.mod_small by exact Hi.
  reflexivity. Qed.

(** The padded branch of [get_state]. *)
Lemma get_state_padded b idx h :
  wf b -> 0 <= idx < BufferDataset.max_size b -> 1 <= h ->
  (idx - h + 1 <? 0)
    || Np.any (Np.slice (BufferDataset.dones b) (idx - h + 1) (idx + 1)) = true
      ->
  exists m, lookback b idx h m
            /\ get_state b idx h = Ok (padded_state obs_zero b idx h m).
Proof.
  intros Hwf Hidx Hh Hcond. pose proof (wf_capacity b Hwf) as Hc.
  unfold BufferDataset.get_state. rewrite Hcond.
  unfold Np.zeros. replace (h <? 0) with false by lia. simpl.
  replace (h - 1) with (Z.of_nat (Z.to_nat (h - 1))) by lia.
  rewrite (seqZ_of_nat 0).
  destruct (get_state_loop_spec b idx (Z.to_nat (h - 1)) 0 [idx] Hwf)
    as (m & Hm & Hall & Hstop & ->).
  exists m. split.
  { split; [lia|]. split.
    - intros j Hj. apply Hall. lia.
    - destruct Hstop as [->|Hstop]; [left; lia | right; exact Hstop]. }
  simpl. rewrite gathered_indices.
  rewrite (getitem_fancy_in_range _ obs_zero).
  2:{ rewrite (wf_observations b Hwf). apply Forall_app. split.
      - apply Forall_fmap, Forall_forall. intros j _. simpl.
        apply Z.mod_pos_bound. exact Hc.
      - apply Forall_singleton. exact Hidx. }
  simpl. rewrite length_app, length_fmap, length_seq. simpl.
  set (vals := _ <$> (_ ++ [idx])).
  assert (Hvals : vals = (fun j => obs_at obs_zero b (idx - Z.of_nat m +
    Z.of_nat j))
                           <$> seq 0 (S m)).
  { unfold vals. rewrite seq_S, !fmap_app, <- list_fmap_compose. simpl.
    f_equal.
    rewrite obs_at_lookup by exact Hidx. do 2 f_equal. lia. }
  assert (Hlen : length vals = S m)
    by (rewrite Hvals, length_fmap, length_seq; reflexivity).
  replace (m + 1)%nat with (length vals) by lia.
  rewrite set_slice_from_tail by lia.
  unfold padded_state. rewrite Hlen, Hvals. reflexivity.
Qed.

(** The contiguous branch of [get_state], at an index of the filled
    range. *)
Lemma get_state_contiguous b idx h :
  wf b -> 0 <= idx < BufferDataset.len b -> 1 <= h ->
  (idx - h + 1 <? 0)
    || Np.any (Np.slice (BufferDataset.dones b) (idx - h + 1) (idx + 1)) =
      false ->
  lookback b idx h (Z.to_nat (h - 1))
  /\ get_state b idx h = Ok (padded_state obs_zero b idx h (Z.to_nat (h - 1))).
Proof.
  intros Hwf Hidx Hh Hcond. pose proof (wf_capacity b Hwf) as Hc.
  pose proof (wf_len b Hwf) as Hl.
  apply orb_false_iff in Hcond as [Hstart Hany].
  apply Z.ltb_ge in Hstart.
  rewrite slice_in_range in Hany
    by (rewrite ?(wf_dones b Hwf); lia).
  replace (idx + 1 - (idx - h + 1)) with h in Hany by lia.
  assert (Hfalse : forall j : nat, (j < Z.to_nat h)%nat ->
                     done_at b (idx - Z.of_nat j) = false).
  { intros j Hj. destruct (done_at b (idx - Z.of_nat j)) eqn:Hd; [|reflexivity].
    exfalso. apply not_true_iff_false in Hany. apply Hany.
    unfold Np.any. apply existsb_exists. exists true. split; [|reflexivity].
    apply list_elem_of_In, list_elem_of_lookup.
    exists (Z.to_nat h - 1 - j)%nat.
    rewrite lookup_take_lt by lia. rewrite lookup_drop.
    replace (Z.to_nat (idx - h + 1) + (Z.to_nat h - 1 - j))%nat
      with (Z.to_nat (idx - Z.of_nat j)) by lia.
    rewrite done_at_lookup by (auto; lia). congruence. }
  split.
  - split; [lia|]. split; [|left; lia].
    intros j Hj. unfold extends_history.
    rewrite Z.mod_small by lia. split; [lia|]. apply Hfalse. lia.
  - unfold BufferDataset.get_state.
    replace (idx - h + 1 <? 0) with false by lia.
    rewrite !slice_in_range
      by (rewrite ?(wf_observations b Hwf), ?(wf_dones b Hwf); lia).
    replace (idx + 1 - (idx - h + 1)) with h by lia.
    simpl. apply not_true_iff_false in Hany. destruct (Np.any _); [congruence|].
    f_equal. unfold padded_state.
    replace (Z.to_nat h - S (Z.to_nat (h - 1)))%nat with 0%nat by lia.
    change (replicate 0 obs_zero) with (@nil obs). rewrite app_nil_l.
    replace (S (Z.to_nat (h - 1))) with (Z.to_nat h) by lia.
    apply list_eq. intros p.
    rewrite list_lookup_fmap.
    destruct (decide (p < Z.to_nat h)%nat) as [Hp|Hp].
    + rewrite lookup_take_lt by lia. rewrite lookup_drop.
      rewrite lookup_seq_lt by lia.
      destruct (lookup_lt_is_Some_2 (BufferDataset.observations b)
                  (Z.to_nat (idx - h + 1) + p)) as [o Ho].
      { pose proof (wf_observations b Hwf). lia. }
      rewrite Ho. cbn [fmap option_fmap option_map]. f_equal.
      unfold obs_at, slot. rewrite Z.mod_small by lia.
      replace (Z.to_nat (idx - Z.of_nat (Z.to_nat (h - 1)) + Z.of_nat (0 + p)))
        with (Z.to_nat (idx - h + 1) + p)%nat by lia.
      rewrite Ho. reflexivity.
    + rewrite lookup_take_ge by lia. rewrite lookup_seq_ge by lia. reflexivity.
Qed.

Lemma slice_empty {X} (a : list X) (s e : Z) :
  0 <= e <= s -> Np.slice a s e = [].
Proof.
  intros H. unfold Np.slice, Np.slice_bound.
  replace (s <? 0) with false by lia. replace (e <? 0) with false by lia.
  replace (Z.to_nat _) with 0%nat by lia. reflexivity.
Qed.

(** [get_state] returns at every slot of the ring, whatever the history
    length. *)
Lemma get_state_ok b idx h :
  wf b -> 0 <= idx < BufferDataset.max_size b ->
  exists state, get_state b idx h = Ok state.
Proof.
  intros Hwf Hidx.
  destruct ((idx - h + 1 <? 0)
            || Np.any (Np.slice (BufferDataset.dones b) (idx - h + 1) (idx +
              1)))
    eqn:Hcond.
  - destruct (Z.le_gt_cases 1 h) as [Hh|Hh].
    + destruct (get_state_padded b idx h Hwf Hidx Hh Hcond) as (m & _ & ->).
      eauto.
    + rewrite slice_empty in Hcond by lia.
      apply orb_true_iff in Hcond as [Hcond|Hcond]; [lia | discriminate].
  - unfold BufferDataset.get_state. rewrite Hcond. eauto.
Qed.

(** At an index of the filled range [get_state] is the backward scan. *)
Lemma get_state_spec b idx h :
  wf b -> 0 <= idx < BufferDataset.len b -> 1 <= h ->
  exists m, lookback b idx h m
            /\ get_state b idx h = Ok (padded_state obs_zero b idx h m).
Proof.
  intros Hwf Hidx Hh. pose proof (wf_len b Hwf) as Hl.
  destruct ((idx - h + 1 <? 0)
            || Np.any (Np.slice (BufferDataset.dones b) (idx - h + 1) (idx +
              1)))
    eqn:Hcond.
  - apply get_state_padded; auto. lia.
  - exists (Z.to_nat (h - 1)). apply get_state_contiguous; auto.
Qed.

Lemma lookback_functional b idx h m1 m2 :
  lookback b idx h m1 -> lookback b idx h m2 -> m1 = m2.
Proof.
  intros (Hle1 & Hall1 & Hstop1) (Hle2 & Hall2 & Hstop2).
  destruct (lt_eq_lt_dec m1 m2) as [[Hlt|Heq]|Hgt]; [|exact Heq|].
  - destruct Hstop1 as [Hfull|Hstop]; [lia|].
    exfalso. apply Hstop, Hall2. lia.
  - destruct Hstop2 as [Hfull|Hstop]; [lia|].
    exfalso. apply Hstop, Hall1. lia.
Qed.

Lemma get_state_lookback b idx h m :
  wf b -> 0 <= idx < BufferDataset.len b -> 1 <= h ->
  lookback b idx h m ->
  get_state b idx h = Ok (padded_state obs_zero b idx h m).
Proof.
  intros Hwf Hidx Hh Hm.
  destruct (get_state_spec b idx h Hwf Hidx Hh) as (m' & Hm' & ->).
  rewrite (lookback_functional b idx h m m' Hm Hm'). reflexivity.
Qed.

Lemma length_padded_state b idx h m :
  Z.of_nat m <= h - 1 -> length (padded_state obs_zero b idx h m) = Z.to_nat h.
Proof.
  intros Hm. unfold padded_state.
  rewrite length_app, length_replicate, length_fmap, length_seq. lia.
Qed.


(** *** Replacing the done flag of the target slot *)







Lemma lookup_observations b i :
  wf b -> 0 <= i < BufferDataset.max_size b ->
  BufferDataset.observations b !! Z.to_nat i = Some (obs_at obs_zero b i).
Proof.
  intros Hwf Hi. unfold obs_at, slot. rewrite Z.mod_small by exact Hi.
  destruct (lookup_lt_is_Some_2 (BufferDataset.observations b) (Z.to_nat i))
    as [o Ho].
  - pose proof (wf_observations b Hwf). lia.
  - rewrite Ho. reflexivity.
Qed.


(** Near the start of a buffer that has not wrapped, the history is the
    prefix of the store, zero before it. *)
Lemma get_state_unwrapped_prefix b idx h :
  wf b -> BufferDataset.len b < BufferDataset.max_size b ->
  0 <= idx < BufferDataset.len b -> idx < h - 1 ->
  (forall i, 0 <= i <= idx ->
             BufferDataset.dones b !! Z.to_nat i = Some false) ->
  get_state b idx h
  = Ok (replicate (Z.to_nat (h - 1 - idx)) obs_zero
          ++ take (Z.to_nat (idx + 1)) (BufferDataset.observations b)).
Proof.
  intros Hwf Hroom Hidx Hh Hdones. pose proof (wf_len b Hwf) as Hl.
  rewrite (get_state_lookback b idx h (Z.to_nat idx)); [| exact Hwf | lia | lia
    |].
  - unfold padded_state. f_equal. f_equal; [f_equal; lia|].
    apply list_eq. intros p. rewrite list_lookup_fmap.
    destruct (decide (p < S (Z.to_nat idx))%nat) as [Hp|Hp].
    + rewrite lookup_seq_lt, lookup_take_lt by lia.
      cbn [fmap option_fmap option_map].
      replace p with (Z.to_nat (Z.of_nat p)) at 2 by lia.
      rewrite lookup_observations by (auto; lia). do 2 f_equal. lia.
    + rewrite lookup_seq_ge, lookup_take_ge by lia. reflexivity.
  - split; [lia|]. split.
    + intros j Hj. unfold extends_history, done_at, slot.
      rewrite Z.mod_small by lia. split; [lia|].
      rewrite Hdones by lia. reflexivity.
    + right. unfold extends_history. intros [Hlt _].
      replace (idx - Z.of_nat (S (Z.to_nat idx))) with (-1) in Hlt by lia.
      rewrite <- (Z_mod_plus_full _ 1), Z.mod_small in Hlt by lia. lia.
Qed.


(** C7: in a buffer into which fewer steps than its capacity have been
    pushed since construction, at an index [idx < h - 1] of the filled
    range with no done flag in the slots [0..idx], [get_state] returns
    [h - 1 - idx] zero observations followed by the [idx + 1] stored
    observations of the slots [0..idx] in their order. *)
Theorem get_state_zero_padding
    (numpy : Np.release) (mem : BufferDataset.memory obs act rew)
    (observation_shape action_shape : list Z)
    (max_size history_len n_step : Z) (gamma : rew)
    (discrete_actions byte_observations : bool)
    (b0 : buffer) (eps : list (BufferDataset.episode obs act rew))
    (idx h : Z) :
  BufferDataset.init numpy mem observation_shape action_shape max_size
    history_len n_step gamma discrete_actions byte_observations = Ok b0 ->
  0 < max_size ->
  total_steps eps < max_size ->
  0 <= idx < BufferDataset.len (push_all eps b0) ->
  idx < h - 1 ->
  (forall i, 0 <= i <= idx ->
     BufferDataset.dones (push_all eps b0) !! Z.to_nat i = Some false) ->
  get_state (push_all eps b0) idx h
  = Ok (replicate (Z.to_nat (h - 1 - idx)) obs_zero
          ++ take (Z.to_nat (idx + 1))
               (BufferDataset.observations (push_all eps b0)))
  /\ length (take (Z.to_nat (idx + 1))
               (BufferDataset.observations (push_all eps b0)))
     = Z.to_nat (idx + 1).
Proof.
  intros Hinit Hcap Htotal Hidx Hh Hdones.
  destruct (init_wf _ _ _ _ _ _ _ _ _ _ _ Hinit Hcap) as (Hwf0 & Hlen0 & _ &
    Hmax0).
  pose proof (push_all_wf eps b0 Hwf0) as Hwf.
  pose proof (push_all_len eps b0 (wf_len b0 Hwf0)) as Hlen.
  rewrite Hlen0, Hmax0 in Hlen. pose proof (total_steps_nonneg eps) as Hnn.
  pose proof (push_all_max_size eps b0) as Hmax. split.
  - apply get_state_unwrapped_prefix; auto. lia.
  - rewrite length_take. pose proof (wf_observations _ Hwf).
    pose proof (wf_len _ Hwf). lia.
Qed.

End StateFacts.

(** ** The transition assembler: [get_transition_n_step] *)

Section TransitionFacts.

Context {obs act rew : Type}.
Context {obs_astype : Np.Astype obs} {act_astype : Np.Astype act}
  {rew_astype : Np.Astype rew}.
Variable obs_zero : obs.
Variable rew_zero : rew.
Variable rew_add rew_mul : rew -> rew -> rew.
Variable rew_pow : rew -> Z -> rew.

Local Abbreviation buffer := (BufferDataset.t obs act rew).
Local Abbreviation get_state := (BufferDataset.get_state obs_zero).
Local Abbreviation n_step_loop :=
  (BufferDataset.n_step_loop rew_add rew_mul rew_pow).
Local Abbreviation get_transition_n_step :=
  (BufferDataset.get_transition_n_step obs_zero rew_zero rew_add rew_mul
    rew_pow).
Local Abbreviation discounted_sum :=
  (discounted_sum rew_zero rew_add rew_mul rew_pow).

Implicit Types (b : buffer) (idx h n : Z) (gamma : rew).

Lemma dones_slot b i :
  wf b -> BufferDataset.dones b !! slot b i = Some (done_at b i).
Proof.
  intros Hwf. unfold done_at.
  destruct (lookup_lt_is_Some_2 (BufferDataset.dones b) (slot b i)) as [d Hd].
  - pose proof (wf_dones b Hwf).
    pose proof (Z.mod_pos_bound i _ (wf_capacity b Hwf)). unfold slot. lia.
  - rewrite Hd. reflexivity.
Qed.

Lemma rewards_slot b i :
  wf b -> BufferDataset.rewards b !! slot b i = Some (reward_at rew_zero b i).
Proof.
  intros Hwf. unfold reward_at.
  destruct (lookup_lt_is_Some_2 (BufferDataset.rewards b) (slot b i)) as [r Hr].
  - pose proof (wf_rewards b Hwf).
    pose proof (Z.mod_pos_bound i _ (wf_capacity b Hwf)). unfold slot. lia.
  - rewrite Hr. reflexivity.
Qed.

(** The pairs [enumerate] hands to the loop. *)
Lemma enumerate_window b idx n :
  wf b ->
  BufferDataset.enumerate
    (Np.mod_elem (BufferDataset.max_size b) <$> Np.arange idx (idx + n))
  = (fun k => (Z.of_nat k, (idx + Z.of_nat k) `mod` BufferDataset.max_size b))
      <$> seq 0 (Z.to_nat n).
Proof.
  intros Hwf. pose proof (wf_capacity b Hwf) as Hc.
  unfold BufferDataset.enumerate, Np.arange, seqZ. apply list_eq. intros p.
  rewrite list_lookup_imap, !list_lookup_fmap.
  replace (idx + n - idx) with n by lia.
  destruct (decide (p < Z.to_nat n)%nat) as [Hp|Hp].
  - rewrite lookup_seq_lt by lia. simpl. unfold Np.mod_elem.
    replace (BufferDataset.max_size b =? 0) with false by lia.
    do 3 f_equal. lia.
  - rewrite lookup_seq_ge by lia. reflexivity.
Qed.

(** The forward walk from offset [s] with [cnt] slots left, entered with
    the sum of the first [s] terms. *)
Lemma n_step_loop_spec b gamma idx (cnt s : nat) (d0 : option bool) :
  wf b ->
  exists cum d,
    n_step_loop b gamma
      ((fun k => (Z.of_nat k, (idx + Z.of_nat k) `mod` BufferDataset.max_size
        b))
         <$> seq s cnt)
      (discounted_sum b idx gamma s) d0 = Ok (cum, d)
    /\ ((0 < cnt)%nat -> exists t, d = Some t)
    /\ (forall k, (s <= k < s + cnt)%nat ->
          done_at b (idx + Z.of_nat k) = true ->
          (forall j, (s <= j < k)%nat -> done_at b (idx + Z.of_nat j) = false)
            ->
          cum = discounted_sum b idx gamma (S k) /\ d = Some true)
    /\ ((forall j, (s <= j < s + cnt)%nat ->
           done_at b (idx + Z.of_nat j) = false) ->
        cum = discounted_sum b idx gamma (s + cnt)
        /\ d = match cnt with O => d0 | S _ => Some false end).
Proof.
  intros Hwf. pose proof (wf_capacity b Hwf) as Hc.
  revert s d0. induction cnt as [|cnt IH]; intros s d0.
  { exists (discounted_sum b idx gamma s), d0. simpl.
    split; [reflexivity|]. split; [lia|]. split; [intros k Hk; lia|].
    intros _. rewrite Nat.add_0_r. auto. }
  cbn [seq fmap list_fmap BufferDataset.n_step_loop].
  assert (Hi : 0 <= (idx + Z.of_nat s) `mod` BufferDataset.max_size b
               < BufferDataset.max_size b) by (apply Z.mod_pos_bound; exact Hc).
  rewrite (getitem_default _ _ rew_zero) by (rewrite (wf_rewards b Hwf); exact
    Hi).
  rewrite (getitem_default _ _ false) by (rewrite (wf_dones b Hwf); exact Hi).
  change (default rew_zero (BufferDataset.rewards b !! _))
    with (reward_at rew_zero b (idx + Z.of_nat s)).
  change (default false (BufferDataset.dones b !! _))
    with (done_at b (idx + Z.of_nat s)).
  cbn [mbind result_bind].
  change (rew_add (discounted_sum b idx gamma s)
            (rew_mul (reward_at rew_zero b (idx + Z.of_nat s))
               (rew_pow gamma (Z.of_nat s))))
    with (discounted_sum b idx gamma (S s)).
  destruct (done_at b (idx + Z.of_nat s)) eqn:Hdone.
  - exists (discounted_sum b idx gamma (S s)), (Some true).
    split; [reflexivity|]. split; [eauto|]. split.
    + intros k Hk Hdk Hbefore. destruct (decide (k = s)) as [->|Hne]; [auto|].
      rewrite Hbefore in Hdone by lia. discriminate.
    + intros Hnone. rewrite Hnone in Hdone by lia. discriminate.
  - destruct (IH (S s) (Some false)) as (cum & d & Hrun & Hsome & Hfirst &
    Hnone).
    exists cum, d. split; [exact Hrun|]. split; [|split].
    + intros _. destruct cnt as [|cnt'].
      * destruct Hnone as [_ ->]; [intros j Hj; lia | eauto].
      * apply Hsome. lia.
    + intros k Hk Hdk Hbefore. destruct (decide (k = s)) as [->|Hne];
      [congruence|].
      apply Hfirst; [lia | exact Hdk |]. intros j Hj. apply Hbefore. lia.
    + intros Hall. destruct Hnone as [-> ->].
      * intros j Hj. apply Hall. lia.
      * split; [f_equal; lia | destruct cnt; reflexivity].
Qed.

(** The forward walk of [get_transition_n_step], at any slot of the ring. *)
Lemma get_transition_n_step_spec b idx h n gamma :
  wf b -> 0 <= idx < BufferDataset.max_size b -> 1 <= n ->
  exists state action ret next_state terminal,
    get_transition_n_step b idx h n gamma
    = Ok (state, action, ret, next_state, terminal)
    /\ get_state b idx h = Ok state
    /\ get_state b ((idx + n) `mod` BufferDataset.max_size b) h = Ok next_state
    /\ BufferDataset.actions b !! Z.to_nat idx = Some action
    /\ (forall k : nat,
          Z.of_nat k < n ->
          BufferDataset.dones b !! slot b (idx + Z.of_nat k) = Some true ->
          (forall j : nat, (j < k)%nat ->
             BufferDataset.dones b !! slot b (idx + Z.of_nat j) = Some false) ->
          terminal = true /\ ret = discounted_sum b idx gamma (S k))
    /\ ((forall j : nat, Z.of_nat j < n ->
           BufferDataset.dones b !! slot b (idx + Z.of_nat j) = Some false) ->
        terminal = false /\ ret = discounted_sum b idx gamma (Z.to_nat n)).
Proof.
  intros Hwf Hidx Hn. pose proof (wf_capacity b Hwf) as Hc.
  destruct (get_state_ok obs_zero b idx h Hwf) as [state Hstate]; [lia|].
  destruct (get_state_ok obs_zero b ((idx + n) `mod` BufferDataset.max_size b)
    h Hwf)
    as [next_state Hnext]; [apply Z.mod_pos_bound; exact Hc|].
  destruct (getitem_in_range (BufferDataset.actions b) idx) as (action & Hact &
    Hget);
    [rewrite (wf_actions b Hwf); lia|].
  destruct (n_step_loop_spec b gamma idx (Z.to_nat n) 0 None Hwf)
    as (ret & d & Hrun & Hsome & Hfirst & Hnone).
  destruct Hsome as [terminal ->]; [lia|].
  exists state, action, ret, next_state, terminal.
  split; [|split; [exact Hstate|split; [exact Hnext|split; [exact
    Hact|split]]]].
  - unfold BufferDataset.get_transition_n_step, Np.py_mod.
    rewrite Hstate. replace (BufferDataset.max_size b =? 0) with false by lia.
    cbn [mbind result_bind]. rewrite Hnext. cbn [mbind result_bind].
    rewrite enumerate_window by exact Hwf.
    change rew_zero with (discounted_sum b idx gamma 0) at 1.
    rewrite Hrun. cbn [mbind result_bind]. rewrite Hget. reflexivity.
  - intros k Hk Hdk Hbefore.
    destruct (Hfirst k) as [Hret Hterm]; [lia | | | split; congruence].
    + rewrite dones_slot in Hdk by exact Hwf. congruence.
    + intros j Hj. specialize (Hbefore j ltac:(lia)).
      rewrite dones_slot in Hbefore by exact Hwf. congruence.
  - intros Hall. destruct Hnone as [Hret Hterm].
    + intros j Hj. specialize (Hall j ltac:(lia)).
      rewrite dones_slot in Hall by exact Hwf. congruence.
    + destruct (Z.to_nat n) eqn:En; [lia|]. split; [congruence | exact Hret].
Qed.

(** C1: at an index of the filled range, with [n_step >= 1] and any
    discount, [get_transition_n_step] returns; its state and next state
    are those of [get_state] at [idx] and at [(idx + n_step) % max_size],
    its action is the one stored at [idx].  If slot [idx + k] is the first
    of the window [idx .. idx + n_step - 1] (mod capacity) with a done
    flag, the result is terminal and the return is the sum of
    [reward * gamma ** offset] over the offsets [0..k], that slot
    included.  If no slot of the window has a done flag, the result is not
    terminal and the return is that sum over all [n_step] offsets. *)
Theorem get_transition_n_step_return b idx h n gamma :
  wf b -> 0 <= idx < BufferDataset.len b -> 1 <= n ->
  exists state action ret next_state terminal,
    get_transition_n_step b idx h n gamma
    = Ok (state, action, ret, next_state, terminal)
    /\ get_state b idx h = Ok state
    /\ get_state b ((idx + n) `mod` BufferDataset.max_size b) h = Ok next_state
    /\ BufferDataset.actions b !! Z.to_nat idx = Some action
    /\ (forall k : nat,
          Z.of_nat k < n ->
          BufferDataset.dones b !! slot b (idx + Z.of_nat k) = Some true ->
          (forall j : nat, (j < k)%nat ->
             BufferDataset.dones b !! slot b (idx + Z.of_nat j) = Some false) ->
          terminal = true /\ ret = discounted_sum b idx gamma (S k))
    /\ ((forall j : nat, Z.of_nat j < n ->
           BufferDataset.dones b !! slot b (idx + Z.of_nat j) = Some false) ->
        terminal = false /\ ret = discounted_sum b idx gamma (Z.to_nat n)).
Proof.
  intros Hwf Hidx Hn. pose proof (wf_len b Hwf) as Hl.
  apply get_transition_n_step_spec; [exact Hwf | lia | exact Hn].
Qed.

End TransitionFacts.

(** ** Claims on the ring store *)

Section RingClaims.

Context {obs act rew : Type}.
Context {obs_astype : Np.Astype obs} {act_astype : Np.Astype act}
  {rew_astype : Np.Astype rew}.
Variable obs_zero : obs.
Variable rew_zero : rew.
Variable rew_add rew_mul : rew -> rew -> rew.
Variable rew_pow : rew -> Z -> rew.

Local Abbreviation buffer := (BufferDataset.t obs act rew).
Local Abbreviation episode := (BufferDataset.episode obs act rew).

(** C6: from construction on, after every sequence of [push_episode]
    calls [len()] is at most the capacity; once more steps than the
    capacity have been pushed it equals the capacity; it never decreases
    with further pushes, and having reached the capacity it stays there. *)
Theorem len_capacity_bound
    (numpy : Np.release) (mem : BufferDataset.memory obs act rew)
    (observation_shape action_shape : list Z)
    (max_size history_len n_step : Z) (gamma : rew)
    (discrete_actions byte_observations : bool)
    (b0 : buffer) (eps : list episode) :
  BufferDataset.init numpy mem observation_shape action_shape max_size
    history_len n_step gamma discrete_actions byte_observations = Ok b0 ->
  BufferDataset.len_ (push_all eps b0) <= max_size
  /\ (max_size < total_steps eps ->
      BufferDataset.len_ (push_all eps b0) = max_size)
  /\ (forall eps' : list episode,
        BufferDataset.len_ (push_all eps b0)
        <= BufferDataset.len_ (push_all (eps ++ eps') b0))
  /\ (forall eps' : list episode,
        BufferDataset.len_ (push_all eps b0) = max_size ->
        BufferDataset.len_ (push_all (eps ++ eps') b0) = max_size).
Proof.
  intros Hinit. destruct (init_fresh _ _ _ _ _ _ _ _ _ _ _ Hinit)
    as (Hlen0 & _ & Hmax0 & Hnn).
  assert (Hlen : forall l, BufferDataset.len_ (push_all l b0)
                           = Z.min (total_steps l) max_size).
  { intros l. unfold BufferDataset.len_. rewrite push_all_len by lia.
    rewrite Hlen0, Hmax0. reflexivity. }
  pose proof (total_steps_nonneg eps) as Hn.
  split; [|split; [|split]].
  - rewrite Hlen. lia.
  - intros Hover. rewrite Hlen. lia.
  - intros eps'. rewrite !Hlen, total_steps_app.
    pose proof (total_steps_nonneg eps'). lia.
  - intros eps'. rewrite !Hlen, total_steps_app.
    pose proof (total_steps_nonneg eps'). lia.
Qed.

(** C10: from construction with a positive capacity on, after every
    sequence of [push_episode] calls the write cursor lies in
    [0, capacity), the filled count in [0, capacity], the four arrays
    still have the capacity as their length, and at every index of the
    filled range [get_state] and [get_transition_n_step] (with
    [n_step >= 1]) return a result: none of their array reads is out of
    bounds. *)
Theorem counters_in_bounds
    (numpy : Np.release) (mem : BufferDataset.memory obs act rew)
    (observation_shape action_shape : list Z)
    (max_size history_len n_step : Z) (gamma : rew)
    (discrete_actions byte_observations : bool)
    (b0 : buffer) (eps : list episode) :
  BufferDataset.init numpy mem observation_shape action_shape max_size
    history_len n_step gamma discrete_actions byte_observations = Ok b0 ->
  0 < max_size ->
  0 <= BufferDataset.pointer (push_all eps b0) < max_size
  /\ 0 <= BufferDataset.len_ (push_all eps b0) <= max_size
  /\ Z.of_nat (length (BufferDataset.observations (push_all eps b0))) = max_size
  /\ Z.of_nat (length (BufferDataset.actions (push_all eps b0))) = max_size
  /\ Z.of_nat (length (BufferDataset.rewards (push_all eps b0))) = max_size
  /\ Z.of_nat (length (BufferDataset.dones (push_all eps b0))) = max_size
  /\ (forall idx h n (g : rew),
        0 <= idx < BufferDataset.len_ (push_all eps b0) ->
        (exists state,
           BufferDataset.get_state obs_zero (push_all eps b0) idx h = Ok state)
        /\ (1 <= n ->
            exists transition,
              BufferDataset.get_transition_n_step obs_zero rew_zero rew_add
                rew_mul rew_pow (push_all eps b0) idx h n g = Ok transition)).
Proof.
  intros Hinit Hcap.
  destruct (init_wf _ _ _ _ _ _ _ _ _ _ _ Hinit Hcap) as (Hwf0 & _ & _ & Hmax0).
  pose proof (push_all_wf eps b0 Hwf0) as Hwf.
  pose proof (push_all_max_size eps b0) as Hmax. rewrite Hmax0 in Hmax.
  pose proof Hwf as [Hc Hl Hp Ho Ha Hr Hd].
  unfold BufferDataset.len_. rewrite <- Hmax.
  do 6 (split; [assumption|]).
  intros idx h n g Hidx. split.
  - apply get_state_ok; [exact Hwf | lia].
  - intros Hn.
    destruct (get_transition_n_step_spec obs_zero rew_zero rew_add rew_mul
                rew_pow (push_all eps b0) idx h n g Hwf ltac:(lia) Hn)
      as (st & a & r & st' & t & Hrun & _).
    eauto.
Qed.

(** C3, as the code has it: [push_episode] has no capacity check.  On a
    buffer that satisfies the class invariant, an episode of four parallel
    sequences with at least one step is accepted whatever its length [n],
    also beyond the capacity: the call returns, the filled count becomes
    [min (len + n) capacity], the write cursor [(pointer + n) % capacity],
    and each of the last [min n capacity] steps [j] of the episode sits in
    slot [(pointer + j) % capacity] of the four arrays, its observation
    and action converted to the dtype of their array and its reward to
    [float32]. *)
Theorem push_episode_accepts_any_length (ep : episode) (b : buffer) :
  wf b -> parallel ep -> 0 < episode_len ep ->
  fst (BufferDataset.push_episode ep b) = Ok ()
  /\ BufferDataset.len (snd (BufferDataset.push_episode ep b))
     = Z.min (BufferDataset.len b + episode_len ep) (BufferDataset.max_size b)
  /\ BufferDataset.pointer (snd (BufferDataset.push_episode ep b))
     = (BufferDataset.pointer b + episode_len ep) `mod` BufferDataset.max_size b
  /\ (forall j : nat,
        Z.of_nat j < episode_len ep ->
        episode_len ep - BufferDataset.max_size b <= Z.of_nat j ->
        let b' := snd (BufferDataset.push_episode ep b) in
        let k := slot b (BufferDataset.pointer b + Z.of_nat j) in
        BufferDataset.observations b' !! k
        = Np.astype (BufferDataset.obs_dtype b)
            <$> BufferDataset.ep_observations ep !! j
        /\ BufferDataset.actions b' !! k
           = Np.astype (BufferDataset.act_dtype b)
               <$> BufferDataset.ep_actions ep !! j
        /\ BufferDataset.rewards b' !! k
           = Np.astype Np.Float32 <$> BufferDataset.ep_rewards ep !! j
        /\ BufferDataset.dones b' !! k = BufferDataset.ep_dones ep !! j).
Proof.
  intros Hwf Hpar Hlen.
  destruct (push_episode_parallel ep b Hwf Hpar) as (Hok & Eo & Ea & Er & Ed).
  assert (Hne : BufferDataset.ep_rewards ep <> []).
  { unfold episode_len in Hlen. intros E. rewrite E in Hlen. simpl in Hlen.
    lia. }
  specialize (Hok Hne).
  pose proof (push_episode_pointer ep b) as Hptr. rewrite Hok in Hptr.
  split; [exact Hok|]. split; [apply push_episode_len|]. split; [exact Hptr|].
  intros j Hj Hrecent. cbv zeta. rewrite Eo, Ea, Er, Ed.
  destruct Hpar as (Lo & La & Ld). destruct Hwf as [Hc Hl Hp Ho Ha Hr Hd].
  unfold episode_len in *. split; [|split; [|split]].
  - rewrite <- Lo. apply pushed_field_astype; auto; lia.
  - rewrite <- La. apply pushed_field_astype; auto; lia.
  - apply pushed_field_astype; auto; lia.
  - rewrite <- Ld. apply pushed_field; auto; lia.
Qed.

End RingClaims.

(** ** The episode accumulator: [SamplerBuffer] *)

Section AccumulatorFacts.

Context {obs act rew : Type}.
Context {obs_astype : Np.Astype obs} {act_astype : Np.Astype act}
  {rew_astype : Np.Astype rew}.
Variable obs_zero : obs.

Local Abbreviation accumulator := (SamplerBuffer.t obs act rew).
Local Abbreviation transition := (obs * act * rew * bool)%type.

Implicit Types (s : accumulator) (t : transition) (ts : list transition).

Lemma take_S_insert {X} (l : list X) (k : nat) (x : X) :
  (k < length l)%nat -> take (S k) (<[k := x]> l) = take k l ++ [x].
Proof.
  intros Hk. rewrite (take_S_r _ _ x) by (apply list_lookup_insert_eq; exact
    Hk).
  rewrite take_insert_ge by lia. reflexivity.
Qed.

(** Reading a run of consecutive slots. *)
Lemma getitem_fancy_run {X} (a : list X) (start count : nat) :
  (start + count <= length a)%nat ->
  Np.getitem_fancy a (seqZ (Z.of_nat start) (Z.of_nat count))
  = Ok (take count (drop start a)).
Proof.
  intros Hle. revert start Hle. induction count as [|count IH]; intros start
    Hle.
  { rewrite take_0. reflexivity. }
  rewrite seqZ_cons by lia. cbn [Np.getitem_fancy].
  destruct (getitem_in_range a (Z.of_nat start)) as (x & Hx & ->); [lia|].
  rewrite Nat2Z.id in Hx. cbn [mbind result_bind].
  replace (Z.succ (Z.of_nat start)) with (Z.of_nat (S start)) by lia.
  replace (Z.pred (Z.of_nat (S count))) with (Z.of_nat count) by lia.
  rewrite IH by lia. cbn [mbind result_bind]. f_equal.
  rewrite (drop_S a x start Hx). reflexivity.
Qed.

Lemma push_transition_in_range t s :
  wf_accumulator s ->
  0 <= SamplerBuffer.pointer s -> SamplerBuffer.pointer s + 1 <
    SamplerBuffer.size s ->
  let k := Z.to_nat (SamplerBuffer.pointer s) in
  SamplerBuffer.push_transition t s
  = (Ok (),
     SamplerBuffer.Build (SamplerBuffer.size s)
       (SamplerBuffer.observation_shape s) (SamplerBuffer.action_shape s)
       (SamplerBuffer.obs_dtype s) (SamplerBuffer.act_dtype s)
       (SamplerBuffer.pointer s + 1)
       (<[S k := Np.astype (SamplerBuffer.obs_dtype s) (tr_next_observation t)]>
          (SamplerBuffer.observations s))
       (<[k := Np.astype (SamplerBuffer.act_dtype s) (tr_action t)]>
          (SamplerBuffer.actions s))
       (<[k := Np.astype Np.Float32 (tr_reward t)]> (SamplerBuffer.rewards s))
       (<[k := tr_done t]> (SamplerBuffer.dones s))).
Proof.
  intros [Ho Ha Hr Hd] Hp Hroom. destruct t as [[[s_tp1 a_t] r_t] d_t].
  unfold SamplerBuffer.push_transition. simpl.
  rewrite !setitem_in_range by lia.
  replace (Z.to_nat (SamplerBuffer.pointer s + 1))
    with (S (Z.to_nat (SamplerBuffer.pointer s))) by lia.
  reflexivity.
Qed.

(** Appending [ts] from cursor [k] on: the call returns when the scratch
    arrays have room, and extends what the arrays hold up to the cursor by
    the appended values, converted to the dtype of their array. *)
Lemma append_all_spec ts s (k : nat) :
  wf_accumulator s -> SamplerBuffer.pointer s = Z.of_nat k ->
  Z.of_nat (k + length ts) < SamplerBuffer.size s ->
  exists s',
    append_all ts s = (Ok (), s')
    /\ wf_accumulator s'
    /\ SamplerBuffer.size s' = SamplerBuffer.size s
    /\ SamplerBuffer.obs_dtype s' = SamplerBuffer.obs_dtype s
    /\ SamplerBuffer.act_dtype s' = SamplerBuffer.act_dtype s
    /\ SamplerBuffer.pointer s' = Z.of_nat (k + length ts)
    /\ take (S (k + length ts)) (SamplerBuffer.observations s')
       = take (S k) (SamplerBuffer.observations s)
           ++ (Np.astype (SamplerBuffer.obs_dtype s)
                 <$> (tr_next_observation <$> ts))
    /\ take (k + length ts) (SamplerBuffer.actions s')
       = take k (SamplerBuffer.actions s)
           ++ (Np.astype (SamplerBuffer.act_dtype s) <$> (tr_action <$> ts))
    /\ take (k + length ts) (SamplerBuffer.rewards s')
       = take k (SamplerBuffer.rewards s)
           ++ (Np.astype Np.Float32 <$> (tr_reward <$> ts))
    /\ take (k + length ts) (SamplerBuffer.dones s')
       = take k (SamplerBuffer.dones s) ++ (tr_done <$> ts).
Proof.
  revert s k. induction ts as [|t ts IH]; intros s k Hwf Hptr Hroom.
  { exists s. simpl. rewrite Nat.add_0_r, !app_nil_r. auto 12. }
  simpl in Hroom. cbn [append_all].
  rewrite push_transition_in_range by (auto; lia).
  rewrite Hptr, Nat2Z.id. pose proof Hwf as [Ho Ha Hr Hd].
  match goal with |- context [append_all ts ?x] => set (s1 := x) end.
  destruct (IH s1 (S k))
    as (s' & Hrun & Hwf' & Hsize & Hod & Had & Hptr' & Eo & Ea & Er & Ed).
  { split; simpl; rewrite length_insert; assumption. }
  { simpl. lia. }
  { simpl. lia. }
  exists s'. subst s1.
  cbn [SamplerBuffer.observations SamplerBuffer.actions SamplerBuffer.rewards
         SamplerBuffer.dones SamplerBuffer.size SamplerBuffer.obs_dtype
         SamplerBuffer.act_dtype] in Hsize, Hod, Had, Eo, Ea, Er, Ed.
  rewrite !take_S_insert in * by lia.
  cbn [length]. replace (k + S (length ts))%nat with (S k + length ts)%nat by
    lia.
  rewrite Hrun, Hsize, Hod, Had, Hptr', Eo, Ea, Er, Ed.
  rewrite !fmap_cons, <- !app_assoc. auto 12.
Qed.

Lemma accumulate_spec (o0 : obs) ts s :
  wf_accumulator s -> Z.of_nat (length ts) < SamplerBuffer.size s ->
  exists s',
    accumulate o0 ts s = (Ok (), s')
    /\ wf_accumulator s'
    /\ SamplerBuffer.size s' = SamplerBuffer.size s
    /\ SamplerBuffer.obs_dtype s' = SamplerBuffer.obs_dtype s
    /\ SamplerBuffer.act_dtype s' = SamplerBuffer.act_dtype s
    /\ SamplerBuffer.pointer s' = Z.of_nat (length ts)
    /\ take (S (length ts)) (SamplerBuffer.observations s')
       = Np.astype (SamplerBuffer.obs_dtype s)
           <$> o0 :: (tr_next_observation <$> ts)
    /\ take (length ts) (SamplerBuffer.actions s')
       = Np.astype (SamplerBuffer.act_dtype s) <$> (tr_action <$> ts)
    /\ take (length ts) (SamplerBuffer.rewards s')
       = Np.astype Np.Float32 <$> (tr_reward <$> ts)
    /\ take (length ts) (SamplerBuffer.dones s') = tr_done <$> ts.
Proof.
  intros Hwf Hroom. pose proof Hwf as [Ho Ha Hr Hd].
  unfold accumulate, SamplerBuffer.init_with_observation.
  rewrite setitem_in_range by lia.
  match goal with |- context [append_all ts ?x] => set (s0 := x) end.
  destruct (append_all_spec ts s0 0)
    as (s' & Hrun & Hwf' & Hsize & Hod & Had & Hptr & Eo & Ea & Er & Ed).
  { split; simpl; rewrite ?length_insert; assumption. }
  { reflexivity. }
  { simpl. lia. }
  exists s'. subst s0.
  cbn [SamplerBuffer.observations SamplerBuffer.actions SamplerBuffer.rewards
         SamplerBuffer.dones SamplerBuffer.size SamplerBuffer.set_pointer
         SamplerBuffer.set_observations SamplerBuffer.obs_dtype
         SamplerBuffer.act_dtype Nat.add]
    in Hsize, Hod, Had, Hptr, Eo, Ea, Er, Ed.
  change (Z.to_nat 0) with 0%nat in Eo.
  rewrite take_S_insert, !take_0 in * by lia.
  rewrite Hrun, fmap_cons. auto 12.
Qed.

(** C4, as the code has it: after seeding and appending [cursor]
    transitions (which the scratch arrays hold when [cursor] is below
    their capacity), [get_complete_episode] returns four arrays that all
    have length [cursor].  The observations are those of the steps
    [0 .. cursor - 1]: the seed followed by all appended next observations
    but the last; actions, rewards and dones are the appended ones; each
    value as its array stores it, converted to the array's dtype. *)
Theorem get_complete_episode_lengths (o0 : obs) ts s :
  wf_accumulator s -> Z.of_nat (length ts) < SamplerBuffer.size s ->
  exists s' observations actions rewards dones,
    accumulate o0 ts s = (Ok (), s')
    /\ SamplerBuffer.pointer s' = Z.of_nat (length ts)
    /\ SamplerBuffer.get_complete_episode s'
       = Ok (observations, actions, rewards, dones)
    /\ length observations = length ts
    /\ length actions = length ts
    /\ length rewards = length ts
    /\ length dones = length ts
    /\ observations
       = take (length ts)
           (Np.astype (SamplerBuffer.obs_dtype s)
              <$> o0 :: (tr_next_observation <$> ts))
    /\ actions = Np.astype (SamplerBuffer.act_dtype s) <$> (tr_action <$> ts)
    /\ rewards = Np.astype Np.Float32 <$> (tr_reward <$> ts)
    /\ dones = tr_done <$> ts.
Proof.
  intros Hwf Hroom.
  destruct (accumulate_spec o0 ts s Hwf Hroom)
    as (s' & Hrun & Hwf' & Hsize & _ & _ & Hptr & Eo & Ea & Er & Ed).
  pose proof Hwf' as [Ho Ha Hr Hd].
  exists s',
    (take (length ts)
       (Np.astype (SamplerBuffer.obs_dtype s)
          <$> o0 :: (tr_next_observation <$> ts))),
    (Np.astype (SamplerBuffer.act_dtype s) <$> (tr_action <$> ts)),
    (Np.astype Np.Float32 <$> (tr_reward <$> ts)), (tr_done <$> ts).
  split; [exact Hrun|]. split; [exact Hptr|]. split.
  - unfold SamplerBuffer.get_complete_episode, Np.arange.
    rewrite Hptr, Z.sub_0_r. change 0 with (Z.of_nat 0).
    rewrite !getitem_fancy_run by lia. rewrite !drop_0, Ea, Er, Ed.
    cbn [mbind result_bind]. rewrite <- Eo, take_take.
    replace (length ts `min` S (length ts))%nat with (length ts) by lia.
    reflexivity.
  - rewrite length_take, length_fmap, length_cons, !length_fmap.
    repeat split; lia.
Qed.

(** What [get_state] composes for an effective cursor within the array. *)
Lemma accumulator_get_state s (h : Z) (arg : option Z) :
  wf_accumulator s ->
  0 <= SamplerBuffer.pointer_or arg s < SamplerBuffer.size s -> 1 <= h ->
  SamplerBuffer.get_state obs_zero s h arg
  = Ok (history_state obs_zero s h (SamplerBuffer.pointer_or arg s)).
Proof.
  intros [Ho _ _ _] Hp Hh. unfold SamplerBuffer.get_state, Np.zeros.
  set (p := SamplerBuffer.pointer_or arg s) in *.
  replace (h <? 0) with false by lia. cbn [mbind result_bind].
  unfold Np.arange. set (start := Z.max 0 (p - h + 1)).
  rewrite length_seqZ.
  replace (p + 1 - start) with (Z.of_nat (Z.to_nat (Z.min h (p + 1)))) by lia.
  replace start with (Z.of_nat (Z.to_nat (p - h + 1))) by lia.
  rewrite getitem_fancy_run by lia. cbn [mbind result_bind].
  set (vals := take _ _).
  assert (Hlen : length vals = Z.to_nat (Z.min h (p + 1))).
  { unfold vals. rewrite length_take, length_drop. lia. }
  rewrite Nat2Z.id, <- Hlen, set_slice_from_tail by lia.
  unfold history_state. fold vals. do 3 f_equal. lia.
Qed.

Lemma get_states_history_loop_spec s (h : Z) (range : list Z) :
  wf_accumulator s ->
  0 <= SamplerBuffer.pointer s < SamplerBuffer.size s -> 1 <= h ->
  Forall (fun i => 0 <= i < SamplerBuffer.size s) range ->
  SamplerBuffer.get_states_history_loop obs_zero s h range
  = Ok ((fun i => history_state obs_zero s h
                    (if i =? 0 then SamplerBuffer.pointer s else i))
          <$> range).
Proof.
  intros Hwf Hp Hh. induction 1 as [|i range Hi _ IH]; [reflexivity|].
  cbn [SamplerBuffer.get_states_history_loop].
  rewrite accumulator_get_state; auto.
  - cbn [mbind result_bind]. rewrite IH. reflexivity.
  - simpl. destruct (i =? 0); lia.
Qed.

(** What [get_states_history] returns: the state requested for step 0 is
    the one ending at the cursor, each other one ends at its step. *)
Lemma get_states_history_spec s (h : Z) :
  wf_accumulator s ->
  0 <= SamplerBuffer.pointer s < SamplerBuffer.size s -> 1 <= h ->
  SamplerBuffer.get_states_history obs_zero s h
  = Ok ((fun i => history_state obs_zero s h
                    (if i =? 0 then SamplerBuffer.pointer s else i))
          <$> seqZ 0 (SamplerBuffer.pointer s)).
Proof.
  intros Hwf Hp Hh. apply get_states_history_loop_spec; auto.
  apply Forall_forall. intros i Hi. apply list_elem_of_In in Hi.
  apply elem_of_seqZ in Hi. lia.
Qed.

Lemma get_state_step_zero s (h : Z) :
  SamplerBuffer.get_state obs_zero s h (Some 0)
  = SamplerBuffer.get_state obs_zero s h None.
Proof. reflexivity. Qed.

End AccumulatorFacts.

(** ** Construction and sampling *)

Section ConstructionClaims.

Context {obs act rew : Type}.
Context {obs_astype : Np.Astype obs} {act_astype : Np.Astype act}
  {rew_astype : Np.Astype rew}.
Variable obs_zero : obs.
Variable rew_zero : rew.
Variable rew_add rew_mul : rew -> rew -> rew.
Variable rew_pow : rew -> Z -> rew.

Local Abbreviation buffer := (BufferDataset.t obs act rew).

(** With [byte_observations=False], a capacity and shapes without a
    negative dimension, construction under a NumPy release that has the
    names [np.int] and [np.bool] returns a buffer with floating
    observation storage. *)
Lemma init_float_observations (mem : BufferDataset.memory obs act rew)
    (observation_shape action_shape : list Z)
    (max_size history_len n_step : Z) (gamma : rew) (discrete_actions : bool) :
  0 <= max_size ->
  Forall (fun d => 0 <= d) observation_shape ->
  Forall (fun d => 0 <= d) action_shape ->
  exists b,
    BufferDataset.init Np.Before_1_24 mem observation_shape action_shape
      max_size history_len n_step gamma discrete_actions false = Ok b
    /\ BufferDataset.obs_dtype b = Np.Float32
    /\ BufferDataset.act_dtype b
       = (if discrete_actions then Np.PyInt else Np.Float32).
Proof.
  intros Hcap Hoshape Hashape. unfold BufferDataset.init.
  assert (Hone : Forall (fun d => 0 <= d) [1])
    by (constructor; [lia | constructor]).
  destruct discrete_actions; cbn [Np.getattr String.eqb Ascii.eqb Bool.eqb
    mbind result_bind]; rewrite !empty_nonneg by (assumption || constructor);
    cbn [mbind result_bind]; eauto.
Qed.

(** C9, where the code departs from it: with [byte_observations=True] the
    constructors of [BufferDataset] and of [SamplerBuffer] raise
    [AttributeError], whatever the other options, because the observation
    dtype is looked up under the name [unit8], which no release of
    [numpy] has. *)
Theorem init_byte_observations_raises :
  (forall (numpy : Np.release) (mem : BufferDataset.memory obs act rew)
          (observation_shape action_shape : list Z)
          (max_size history_len n_step : Z) (gamma : rew)
          (discrete_actions : bool),
      BufferDataset.init numpy mem observation_shape action_shape max_size
        history_len n_step gamma discrete_actions true
      = Raise AttributeError)
  /\ (forall (numpy : Np.release) (mem : BufferDataset.memory obs act rew)
             (capacity : Z) (observation_shape action_shape : list Z)
             (discrete_actions : bool),
        SamplerBuffer.init numpy mem capacity observation_shape action_shape
          discrete_actions true
        = Raise AttributeError).
Proof. split; intros; reflexivity. Qed.

(** C8, as the code has it: while the filled count is 0, asking the
    sampler for a nonzero number of indices raises the [ValueError] of the
    random choice over an empty range, asking it for zero indices returns
    the empty sequence, and [__getitem__] makes no emptiness check: at
    every slot index of the ring, with [n_step >= 1], it returns a
    sample. *)
Theorem sampling_empty_buffer (b : buffer) :
  wf b -> BufferDataset.len_ b = 0 ->
  (forall (rng : nat -> Z) (epoch_len batch_size : Z),
     epoch_len * batch_size <> 0 ->
     BufferSampler.iter rng (BufferSampler.init b epoch_len batch_size)
     = Raise ValueError)
  /\ (forall (rng : nat -> Z) (epoch_len batch_size : Z),
        epoch_len * batch_size = 0 ->
        BufferSampler.iter rng (BufferSampler.init b epoch_len batch_size)
        = Ok [])
  /\ (forall index : Z,
        0 <= index < BufferDataset.max_size b -> 1 <= BufferDataset.n_step b ->
        exists smp,
          BufferDataset.getitem obs_zero rew_zero rew_add rew_mul rew_pow
            b index = Ok smp).
Proof.
  intros Hwf Hempty. split; [|split].
  - intros rng epoch_len batch_size Hsize.
    unfold BufferSampler.iter, Np.random_choice. simpl. rewrite Hempty.
    destruct (epoch_len * batch_size <? 0); [reflexivity|].
    replace (epoch_len * batch_size =? 0) with false by lia. reflexivity.
  - intros rng epoch_len batch_size Hsize.
    unfold BufferSampler.iter, Np.random_choice. simpl. rewrite Hempty, Hsize.
    reflexivity.
  - intros index Hindex Hn. unfold BufferDataset.getitem.
    destruct (get_transition_n_step_spec obs_zero rew_zero rew_add rew_mul
                rew_pow b index (BufferDataset.history_len b)
                (BufferDataset.n_step b) (BufferDataset.gamma b) Hwf Hindex Hn)
      as (st & a & r & st' & t & -> & _).
    simpl. eauto.
Qed.

End ConstructionClaims.

(** ** The claims at concrete buffers *)

Lemma demo_fresh_init :
  BufferDataset.init Np.Before_1_24 Demo.memory [] [1] 4 2 2 2 false false
  = Ok Demo.fresh.
Proof. reflexivity. Qed.

Lemma demo_filled_pushed :
  push_all [Demo.first_episode; Demo.second_episode] Demo.fresh = Demo.filled.
Proof. reflexivity. Qed.

(** In [Demo.filled] the window of two steps from slot 0 ends an episode at
    offset 1: the return is [1 * 2 ** 0 + 1 * 2 ** 1]. *)
Lemma get_transition_n_step_return_witness :
  wf Demo.filled
  /\ 0 <= 0 < BufferDataset.len Demo.filled
  /\ exists state action next_state,
       BufferDataset.get_transition_n_step 0 0 Z.add Z.mul Z.pow
         Demo.filled 0 2 2 2
       = Ok (state, action, 3, next_state, true).
Proof.
  assert (Hwf : wf Demo.filled) by (split; simpl; lia).
  assert (Hidx : 0 <= 0 < BufferDataset.len Demo.filled) by (simpl; lia).
  split; [exact Hwf|]. split; [exact Hidx|].
  destruct (get_transition_n_step_return 0 0 Z.add Z.mul Z.pow
              Demo.filled 0 2 2 2 Hwf Hidx)
    as (state & action & ret & next_state & terminal & Hrun & _ & _ & _ & Hdone
      & _);
    [lia|].
  destruct (Hdone 1%nat) as [-> ->]; [lia | reflexivity | |].
  - intros j Hj. replace j with 0%nat by lia. reflexivity.
  - exists state, action, next_state. exact Hrun.
Defined.



(** One step pushed into [Demo.fresh]: its state of length 3 is two zeros
    and that step's observation. *)
Lemma get_state_zero_padding_witness :
  BufferDataset.init Np.Before_1_24 Demo.memory [] [1] 4 2 2 2 false false
  = Ok Demo.fresh
  /\ total_steps [Demo.second_episode] < 4
  /\ BufferDataset.get_state 0 (push_all [Demo.second_episode] Demo.fresh) 0 3
     = Ok [0; 0; 12].
Proof.
  assert (Hinit : BufferDataset.init Np.Before_1_24 Demo.memory [] [1] 4 2 2
                    2 false false
                  = Ok Demo.fresh) by reflexivity.
  assert (Htotal : total_steps [Demo.second_episode] < 4)
    by (vm_compute; reflexivity).
  split; [exact Hinit|]. split; [exact Htotal|].
  destruct (get_state_zero_padding 0 Np.Before_1_24 Demo.memory [] [1] 4 2 2
              2 false false Demo.fresh [Demo.second_episode] 0 3 Hinit)
    as [Hstate _].
  - lia.
  - exact Htotal.
  - simpl. lia.
  - lia.
  - intros i Hi. replace i with 0 by lia. reflexivity.
  - exact Hstate.
Defined.

(** Seven steps pushed into a buffer of capacity four. *)
Lemma len_capacity_bound_witness :
  BufferDataset.init Np.Before_1_24 Demo.memory [] [1] 4 2 2 2 false false
  = Ok Demo.fresh
  /\ BufferDataset.len_
       (push_all [Demo.first_episode; Demo.long_episode] Demo.fresh) = 4.
Proof.
  assert (Hinit : BufferDataset.init Np.Before_1_24 Demo.memory [] [1] 4 2 2
                    2 false false
                  = Ok Demo.fresh) by reflexivity.
  split; [exact Hinit|].
  destruct (len_capacity_bound Np.Before_1_24 Demo.memory [] [1] 4 2 2 2
              false false Demo.fresh
              [Demo.first_episode; Demo.long_episode] Hinit)
    as (_ & Hfull & _).
  apply Hfull. vm_compute. reflexivity.
Defined.

Lemma counters_in_bounds_witness :
  BufferDataset.init Np.Before_1_24 Demo.memory [] [1] 4 2 2 2 false false
  = Ok Demo.fresh
  /\ 0 <= BufferDataset.pointer (push_all [Demo.first_episode] Demo.fresh) < 4
  /\ 0 <= BufferDataset.len_ (push_all [Demo.first_episode] Demo.fresh) <= 4
  /\ exists state,
       BufferDataset.get_state 0 (push_all [Demo.first_episode] Demo.fresh) 1 2
       = Ok state.
Proof.
  assert (Hinit : BufferDataset.init Np.Before_1_24 Demo.memory [] [1] 4 2 2
                    2 false false
                  = Ok Demo.fresh) by reflexivity.
  split; [exact Hinit|].
  destruct (counters_in_bounds 0 0 Z.add Z.mul Z.pow Np.Before_1_24
              Demo.memory [] [1] 4 2 2 2 false false Demo.fresh
              [Demo.first_episode] Hinit)
    as (Hpointer & Hlen & _ & _ & _ & _ & Hreads); [lia|].
  split; [exact Hpointer|]. split; [exact Hlen|].
  destruct (Hreads 1 2 1 2) as [Hstate _]; [simpl; lia | exact Hstate].
Defined.

Lemma push_episode_accepts_any_length_witness :
  wf Demo.fresh
  /\ parallel Demo.long_episode
  /\ 0 < episode_len Demo.long_episode
  /\ fst (BufferDataset.push_episode Demo.long_episode Demo.fresh) = Ok ().
Proof.
  assert (Hwf : wf Demo.fresh) by (split; simpl; lia).
  assert (Hpar : parallel Demo.long_episode) by (repeat split).
  assert (Hlen : 0 < episode_len Demo.long_episode)
    by (unfold episode_len; simpl; lia).
  split; [exact Hwf|]. split; [exact Hpar|]. split; [exact Hlen|].
  destruct (push_episode_accepts_any_length Demo.long_episode Demo.fresh
              Hwf Hpar Hlen)
    as (Hok & _).
  exact Hok.
Defined.

(** An episode longer than the capacity is not rejected: the call returns
    and the buffer holds its last four steps. *)
Lemma push_episode_capacity_error_counterexample :
  BufferDataset.max_size Demo.fresh < episode_len Demo.long_episode
  /\ BufferDataset.push_episode Demo.long_episode Demo.fresh
     = (Ok (),
        BufferDataset.Build [] [1] 2 2 2 4 Np.Float32 Np.Float32 4 1
          [24; 21; 22; 23] [4; 1; 2; 3] [5; 2; 3; 4]
          [true; false; false; false]).
Proof. split; [vm_compute|]; reflexivity. Qed.

Lemma get_complete_episode_lengths_witness :
  wf_accumulator Demo.scratch
  /\ exists s',
       accumulate 50 [(51, 4, 6, true)] Demo.scratch = (Ok (), s')
       /\ SamplerBuffer.get_complete_episode s' = Ok ([50], [4], [6], [true]).
Proof.
  assert (Hwf : wf_accumulator Demo.scratch) by (split; reflexivity).
  split; [exact Hwf|].
  destruct (get_complete_episode_lengths 50 [(51, 4, 6, true)] Demo.scratch Hwf)
    as (s' & os & acs & rs & ds & Hrun & _ & Hget & _ & _ & _ & _
        & -> & -> & -> & ->); [simpl; lia|].
  exists s'. split; [exact Hrun | exact Hget].
Defined.

(** After the seed and one appended transition the cursor is 1 and the
    returned observations are one, not two. *)
Lemma get_complete_episode_counterexample :
  accumulate 50 [(51, 4, 6, true)] Demo.scratch = (Ok (), Demo.one_step)
  /\ SamplerBuffer.pointer Demo.one_step = 1
  /\ SamplerBuffer.get_complete_episode Demo.one_step
     = Ok ([50], [4], [6], [true])
  /\ Z.of_nat (length [50]) <> SamplerBuffer.pointer Demo.one_step + 1.
Proof. repeat split; simpl; lia. Qed.

(** C5, where the code departs from it: with one appended step the single
    state of [get_states_history] is the one ending at the cursor, index
    1, while the zero-padded state ending at index 0 holds the seed. *)
Theorem get_states_history_first_state :
  SamplerBuffer.get_states_history 0 Demo.one_step 1 = Ok [[51]]
  /\ history_state 0 Demo.one_step 1 0 = [50]
  /\ SamplerBuffer.get_states_history 0 Demo.one_step 2 = Ok [[50; 51]]
  /\ history_state 0 Demo.one_step 2 0 = [0; 50].
Proof. repeat split. Qed.

Lemma sampling_empty_buffer_witness :
  wf Demo.fresh
  /\ BufferDataset.len_ Demo.fresh = 0
  /\ BufferSampler.iter (fun k => Z.of_nat k)
       (BufferSampler.init Demo.fresh 2 3) = Raise ValueError.
Proof.
  assert (Hwf : wf Demo.fresh) by (split; simpl; lia).
  split; [exact Hwf|]. split; [reflexivity|].
  destruct (sampling_empty_buffer 0 0 Z.add Z.mul Z.pow Demo.fresh Hwf)
    as (Hiter & _); [reflexivity|].
  apply Hiter. lia.
Defined.

(** On an empty buffer [__getitem__] returns a sample made of what the
    uninitialised slots hold. *)
Lemma getitem_empty_buffer_counterexample :
  BufferDataset.len_ Demo.fresh = 0
  /\ BufferDataset.getitem 0 0 Z.add Z.mul Z.pow Demo.fresh 0
     = Ok (BufferDataset.Sample [0; 100] 7 27 [101; 102] false).
Proof. split; reflexivity. Qed.

(** ** More on the ring store *)

Section MoreRing.

Context {obs act rew : Type}.
Context {obs_astype : Np.Astype obs} {act_astype : Np.Astype act}
  {rew_astype : Np.Astype rew}.

Local Abbreviation buffer := (BufferDataset.t obs act rew).
Local Abbreviation episode := (BufferDataset.episode obs act rew).

Implicit Types (b : buffer) (ep : episode) (eps : list episode).

(** The slots a push of [n] steps writes. *)
Local Abbreviation written b n :=
  ((fun j => slot b (BufferDataset.pointer b + Z.of_nat j)) <$> seq 0 n).

Lemma broadcast_sequence_cases {X} (shape : list Z) (n : nat)
    (vals : list X) :
  (broadcastable shape n vals
   /\ exists vs, Np.broadcast_sequence shape n vals = Ok vs)
  \/ (~ broadcastable shape n vals
      /\ Np.broadcast_sequence shape n vals = Raise ValueError).
Proof.
  unfold broadcastable, Np.broadcast_sequence.
  destruct vals as [|v [|w vals]].
  - destruct (Z.eqb_spec (List.last shape (Z.of_nat n)) 0) as [Heq|Hne];
      [left; eauto | right; auto].
  - left. eauto.
  - destruct (decide (length (v :: w :: vals) = n)) as [Heq|Hne];
      [left; eauto | right; auto].
Qed.

Lemma setitem_fancy_cases {X} {X_astype : Np.Astype X} (d : Np.dtype)
    (shape : list Z) (a : list X) (indices : list Z) (vals : list X) :
  Forall (fun i => 0 <= i < Z.of_nat (length a)) indices ->
  (broadcastable shape (length indices) vals
   /\ exists a', Np.setitem_fancy d shape a indices vals = Ok a')
  \/ (~ broadcastable shape (length indices) vals
      /\ Np.setitem_fancy d shape a indices vals = Raise ValueError).
Proof.
  intros Hin. unfold Np.setitem_fancy.
  rewrite adjust_indices_in_range by exact Hin. cbn [mbind result_bind].
  rewrite length_fmap.
  destruct (broadcast_sequence_cases shape (length indices) vals)
    as [(Hb & vs & ->)|(Hb & ->)]; [left | right]; simpl; eauto.
Qed.

(** The buffer a push of parallel sequences leaves, field by field, and
    the outcome of the call when the episode has a step. *)
Lemma push_episode_parallel_result ep b :
  wf b -> parallel ep ->
  let n := length (BufferDataset.ep_rewards ep) in
  snd (BufferDataset.push_episode ep b)
  = BufferDataset.Build
      (BufferDataset.observation_shape b) (BufferDataset.action_shape b)
      (BufferDataset.history_len b) (BufferDataset.n_step b)
      (BufferDataset.gamma b) (BufferDataset.max_size b)
      (BufferDataset.obs_dtype b) (BufferDataset.act_dtype b)
      (Z.min (BufferDataset.len b + Z.of_nat n) (BufferDataset.max_size b))
      ((BufferDataset.pointer b + Z.of_nat n)
         `mod` BufferDataset.max_size b)
      (Np.write_all (BufferDataset.observations b)
         (zip (written b n)
            (Np.astype (BufferDataset.obs_dtype b)
               <$> BufferDataset.ep_observations ep)))
      (Np.write_all (BufferDataset.actions b)
         (zip (written b n)
            (Np.astype (BufferDataset.act_dtype b)
               <$> BufferDataset.ep_actions ep)))
      (Np.write_all (BufferDataset.rewards b)
         (zip (written b n)
            (Np.astype Np.Float32 <$> BufferDataset.ep_rewards ep)))
      (Np.write_all (BufferDataset.dones b)
         (zip (written b n) (BufferDataset.ep_dones ep)))
  /\ (n <> 0%nat -> fst (BufferDataset.push_episode ep b) = Ok ()).
Proof.
  intros Hwf Hpar. cbv zeta.
  destruct (decide (BufferDataset.ep_rewards ep = [])) as [Hnil|Hne].
  { rewrite push_episode_nil_state by assumption. rewrite Hnil.
    destruct Hwf as [Hc Hl Hp _ _ _ _]. simpl.
    rewrite !Z.add_0_r, Z.min_l, Z.mod_small by lia.
    split; [destruct b; reflexivity | congruence]. }
  destruct (push_episode_parallel ep b Hwf Hpar) as (Hok & _).
  specialize (Hok Hne). split; [|intros _; exact Hok].
  pose proof Hwf as [Hc Hl Hp Ho Ha Hr Hd]. destruct Hpar as (Eo & Ea & Ed).
  assert (No : BufferDataset.ep_observations ep <> []).
  { intros E. rewrite E in Eo. destruct (BufferDataset.ep_rewards ep);
      [congruence | discriminate]. }
  assert (Na : BufferDataset.ep_actions ep <> []).
  { intros E. rewrite E in Ea. destruct (BufferDataset.ep_rewards ep);
      [congruence | discriminate]. }
  assert (Nd : BufferDataset.ep_dones ep <> []).
  { intros E. rewrite E in Ed. destruct (BufferDataset.ep_rewards ep);
      [congruence | discriminate]. }
  clear Hok. unfold BufferDataset.push_episode. simpl.
  rewrite !setitem_fancy_in_range;
    rewrite ?length_fmap; unfold Np.arange; rewrite ?length_seqZ;
    try lia; try assumption;
    try (apply ring_indices_in_range; assumption).
  fold (Np.arange (BufferDataset.pointer b)
          (BufferDataset.pointer b
           + Z.of_nat (length (BufferDataset.ep_rewards ep)))).
  rewrite ring_indices by exact Hc. unfold Np.py_mod. simpl.
  replace (BufferDataset.max_size b =? 0) with false by lia. simpl.
  change (Np.astype Np.PyBool) with (@id bool). rewrite list_fmap_id.
  reflexivity.
Qed.

(** X1: on a buffer that satisfies the class invariant, [push_episode]
    raises exactly when the observation, action or done sequence does not
    fit the slots of the rewards: a sequence of as many values as there
    are rewards fits, a single value is broadcast, and an empty sequence
    fits only an array whose last dimension is 0 (for the flags: only no
    reward).  The error is a [ValueError], and the call has by then
    advanced the filled count but not the write cursor. *)
Theorem push_episode_value_error ep b :
  wf b ->
  let n := length (BufferDataset.ep_rewards ep) in
  let accepted :=
    broadcastable (BufferDataset.observation_shape b) n
      (BufferDataset.ep_observations ep)
    /\ broadcastable (BufferDataset.action_shape b) n
         (BufferDataset.ep_actions ep)
    /\ broadcastable [] n (BufferDataset.ep_dones ep) in
  (accepted -> fst (BufferDataset.push_episode ep b) = Ok ())
  /\ (~ accepted ->
      fst (BufferDataset.push_episode ep b) = Raise ValueError
      /\ BufferDataset.pointer (snd (BufferDataset.push_episode ep b))
         = BufferDataset.pointer b
      /\ BufferDataset.len (snd (BufferDataset.push_episode ep b))
         = Z.min (BufferDataset.len b + Z.of_nat n) (BufferDataset.max_size b)).
Proof.
  intros Hwf n accepted. pose proof Hwf as [Hc Hl Hp Ho Ha Hr Hd].
  assert (Hfst :
    (accepted -> fst (BufferDataset.push_episode ep b) = Ok ())
    /\ (~ accepted ->
        fst (BufferDataset.push_episode ep b) = Raise ValueError)).
  { unfold BufferDataset.push_episode. simpl.
    set (idxs := Np.mod_elem (BufferDataset.max_size b) <$> _).
    assert (Hn : length idxs = n).
    { unfold idxs, Np.arange. rewrite length_fmap, length_seqZ. lia. }
    assert (Hin : forall len : nat,
               Z.of_nat len = BufferDataset.max_size b ->
               Forall (fun i => 0 <= i < Z.of_nat len) idxs).
    { intros len Hlen. apply ring_indices_in_range; assumption. }
    destruct (setitem_fancy_cases (BufferDataset.obs_dtype b)
                (BufferDataset.observation_shape b)
                (BufferDataset.observations b) idxs
                (BufferDataset.ep_observations ep) (Hin _ Ho))
      as [(Bo & o & ->)|(Bo & ->)]; rewrite Hn in Bo;
      [|unfold accepted; split; [tauto | auto]].
    simpl.
    destruct (setitem_fancy_cases (BufferDataset.act_dtype b)
                (BufferDataset.action_shape b)
                (BufferDataset.actions b) idxs
                (BufferDataset.ep_actions ep) (Hin _ Ha))
      as [(Ba & a & ->)|(Ba & ->)]; rewrite Hn in Ba;
      [|unfold accepted; split; [tauto | auto]].
    simpl.
    destruct (setitem_fancy_cases Np.Float32 [] (BufferDataset.rewards b) idxs
                (BufferDataset.ep_rewards ep) (Hin _ Hr))
      as [(Br & r & ->)|(Br & _)]; rewrite Hn in Br.
    2:{ exfalso. apply Br. unfold broadcastable, n.
        destruct (BufferDataset.ep_rewards ep) as [|v [|w vals]];
          reflexivity || exact I. }
    simpl.
    destruct (setitem_fancy_cases Np.PyBool [] (BufferDataset.dones b) idxs
                (BufferDataset.ep_dones ep) (Hin _ Hd))
      as [(Bd & d & ->)|(Bd & ->)]; rewrite Hn in Bd;
      [|unfold accepted; split; [tauto | auto]].
    simpl. unfold Np.py_mod.
    replace (BufferDataset.max_size b =? 0) with false by lia. simpl.
    unfold accepted. split; [auto | tauto]. }
  destruct Hfst as [Hyes Hno]. split; [exact Hyes|].
  intros Hrej. specialize (Hno Hrej). split; [exact Hno|]. split.
  - rewrite push_episode_pointer, Hno. reflexivity.
  - apply push_episode_len.
Qed.

(** X2: a push of parallel sequences leaves every slot it does not write
    as it was, in all four arrays. *)
Theorem push_episode_keeps_other_slots ep b (k : nat) :
  wf b -> parallel ep ->
  (forall j : nat,
     (j < length (BufferDataset.ep_rewards ep))%nat ->
     slot b (BufferDataset.pointer b + Z.of_nat j) <> k) ->
  let b' := snd (BufferDataset.push_episode ep b) in
  BufferDataset.observations b' !! k = BufferDataset.observations b !! k
  /\ BufferDataset.actions b' !! k = BufferDataset.actions b !! k
  /\ BufferDataset.rewards b' !! k = BufferDataset.rewards b !! k
  /\ BufferDataset.dones b' !! k = BufferDataset.dones b !! k.
Proof.
  intros Hwf Hpar Hother. cbv zeta.
  destruct (push_episode_parallel_result ep b Hwf Hpar) as [-> _].
  cbn [BufferDataset.observations BufferDataset.actions BufferDataset.rewards
         BufferDataset.dones].
  assert (Hks : forall j,
             written b (length (BufferDataset.ep_rewards ep)) !! j <> Some k).
  { intros j. rewrite list_lookup_fmap.
    destruct (decide (j < length (BufferDataset.ep_rewards ep))%nat) as [Hj|Hj].
    - rewrite lookup_seq_lt by exact Hj. simpl. intros [= Heq].
      exact (Hother j Hj Heq).
    - rewrite lookup_seq_ge by lia. discriminate. }
  rewrite !write_all_lookup_other by exact Hks. auto.
Qed.

(** X3: pushing an episode without steps (four empty sequences) leaves
    the buffer exactly as it was; the call returns when the observation
    and action arrays have 0 as their last dimension (scalar elements
    included) and raises [ValueError] otherwise, as the empty array of
    values, of shape [(0,)], then does not fit the selected slots. *)
Theorem push_episode_empty ep b :
  wf b -> parallel ep -> BufferDataset.ep_rewards ep = [] ->
  BufferDataset.push_episode ep b
  = (if (List.last (BufferDataset.observation_shape b) 0 =? 0)
        && (List.last (BufferDataset.action_shape b) 0 =? 0)
     then Ok () else Raise ValueError,
     b).
Proof.
  intros Hwf Hpar Hnil.
  rewrite (surjective_pairing (BufferDataset.push_episode ep b)).
  rewrite push_episode_nil_state by assumption. f_equal.
  destruct Hwf as [Hc Hl Hp _ _ _ _]. destruct Hpar as (Eo & Ea & Ed).
  destruct ep as [o a r d]. simpl in *. subst r. simpl in *.
  destruct o; [|discriminate]. destruct a; [|discriminate].
  destruct d; [|discriminate].
  unfold BufferDataset.push_episode.
  cbn [BufferDataset.ep_rewards BufferDataset.ep_observations
    BufferDataset.ep_actions BufferDataset.ep_dones length
    BufferDataset.max_size BufferDataset.set_len
    BufferDataset.set_observations BufferDataset.set_actions
    BufferDataset.set_rewards BufferDataset.set_dones
    BufferDataset.pointer BufferDataset.len BufferDataset.observations
    BufferDataset.actions BufferDataset.rewards BufferDataset.dones
    BufferDataset.observation_shape BufferDataset.action_shape
    BufferDataset.obs_dtype BufferDataset.act_dtype].
  change (Z.of_nat 0) with 0. rewrite arange_nil. cbn [fmap list_fmap].
  rewrite !setitem_fancy_nil. unfold Np.py_mod.
  replace (BufferDataset.max_size b =? 0) with false by lia.
  destruct (List.last (BufferDataset.observation_shape b) 0 =? 0);
    [|reflexivity].
  destruct (List.last (BufferDataset.action_shape b) 0 =? 0); reflexivity.
Qed.

Lemma write_all_app {X} (a : list X) (kvs1 kvs2 : list (nat * X)) :
  Np.write_all a (kvs1 ++ kvs2) = Np.write_all (Np.write_all a kvs1) kvs2.
Proof.
  revert a. induction kvs1 as [|[k v] kvs1 IH]; intros a; [reflexivity|].
  simpl. apply IH.
Qed.

Lemma written_app b b' (n1 n2 : nat) :
  0 < BufferDataset.max_size b ->
  BufferDataset.max_size b' = BufferDataset.max_size b ->
  BufferDataset.pointer b'
  = (BufferDataset.pointer b + Z.of_nat n1) `mod` BufferDataset.max_size b ->
  written b (n1 + n2) = written b n1 ++ written b' n2.
Proof.
  intros Hc Hmax Hptr. rewrite seq_app, fmap_app. f_equal.
  replace (0 + n1)%nat with (n1 + 0)%nat by lia.
  rewrite <- (fmap_add_seq n1 0 n2), <- list_fmap_compose.
  apply list_fmap_ext. intros _ j _. simpl. unfold slot.
  rewrite Hmax, Hptr, Zplus_mod_idemp_l. do 2 f_equal. lia.
Qed.

(** X4: pushing two episodes of parallel sequences one after the other
    leaves the buffer that pushing their concatenation leaves; the push of
    the concatenation returns when it has a step, and otherwise ends as
    the push of the first, empty, episode does. *)
Theorem push_episode_app ep1 ep2 b :
  wf b -> parallel ep1 -> parallel ep2 ->
  snd (BufferDataset.push_episode (episode_app ep1 ep2) b)
  = snd (BufferDataset.push_episode ep2
           (snd (BufferDataset.push_episode ep1 b)))
  /\ (0 < episode_len (episode_app ep1 ep2) ->
      fst (BufferDataset.push_episode (episode_app ep1 ep2) b) = Ok ())
  /\ (episode_len (episode_app ep1 ep2) = 0 ->
      BufferDataset.push_episode (episode_app ep1 ep2) b
      = BufferDataset.push_episode ep1 b).
Proof.
  intros Hwf Hp1 Hp2.
  pose proof (push_episode_wf ep1 b Hwf) as Hwf1.
  assert (Hp12 : parallel (episode_app ep1 ep2)).
  { destruct Hp1 as (? & ? & ?), Hp2 as (? & ? & ?).
    unfold parallel, episode_app in *. simpl in *.
    rewrite !length_app. lia. }
  split; [|split].
  2:{ intros Hlen.
      destruct (push_episode_parallel_result _ b Hwf Hp12) as [_ Hok].
      apply Hok. unfold episode_len in Hlen. lia. }
  2:{ intros Hlen. f_equal.
      destruct Hp1 as (Eo1 & Ea1 & Ed1), Hp2 as (Eo2 & Ea2 & Ed2).
      destruct ep1 as [o1 a1 r1 d1], ep2 as [o2 a2 r2 d2].
      unfold episode_len, episode_app in *. simpl in *.
      rewrite length_app in Hlen.
      destruct r2; [|simpl in Hlen; lia].
      destruct o2; [|discriminate]. destruct a2; [|discriminate].
      destruct d2; [|discriminate]. rewrite !app_nil_r. reflexivity. }
  destruct (push_episode_parallel_result _ b Hwf Hp12) as [-> _].
  destruct (push_episode_parallel_result ep2 _ Hwf1 Hp2) as [-> _].
  revert Hwf1.
  destruct (push_episode_parallel_result ep1 b Hwf Hp1) as [E1 _].
  rewrite E1. clear E1. intros Hwf1. pose proof Hwf as [Hc Hl Hp _ _ _ _].
  destruct Hp1 as (Eo1 & Ea1 & Ed1). simpl in Eo1, Ea1, Ed1.
  destruct Hp2 as (Eo2 & Ea2 & Ed2). simpl in Eo2, Ea2, Ed2.
  cbn [episode_app BufferDataset.ep_observations BufferDataset.ep_actions
         BufferDataset.ep_rewards BufferDataset.ep_dones
         BufferDataset.observation_shape BufferDataset.action_shape
         BufferDataset.history_len BufferDataset.n_step BufferDataset.gamma
         BufferDataset.max_size BufferDataset.obs_dtype
         BufferDataset.act_dtype BufferDataset.len BufferDataset.pointer
         BufferDataset.observations BufferDataset.actions
         BufferDataset.rewards BufferDataset.dones].
  rewrite length_app.
  match goal with
  | |- context [Np.write_all (Np.write_all _ _)
                  (zip (?f <$> seq 0 ?n2) _)] =>
      set (ks2 := f <$> seq 0 n2)
  end.
  assert (Hks : written b (length (BufferDataset.ep_rewards ep1)
                           + length (BufferDataset.ep_rewards ep2))
                = written b (length (BufferDataset.ep_rewards ep1)) ++ ks2).
  { unfold ks2.
    apply (written_app b
             (BufferDataset.Build
                (BufferDataset.observation_shape b)
                (BufferDataset.action_shape b)
                (BufferDataset.history_len b) (BufferDataset.n_step b)
                (BufferDataset.gamma b) (BufferDataset.max_size b)
                (BufferDataset.obs_dtype b) (BufferDataset.act_dtype b)
                _ _ _ _ _ _)); auto. }
  rewrite Hks, !fmap_app.
  rewrite !zip_with_app, !write_all_app
    by (rewrite length_fmap, length_seq, ?length_fmap; lia).
  f_equal; [lia|].
  rewrite Zplus_mod_idemp_l. f_equal. lia.
Qed.

Lemma push_all_pointer eps b :
  wf b -> Forall parallel eps ->
  BufferDataset.pointer (push_all eps b)
  = (BufferDataset.pointer b + total_steps eps) `mod` BufferDataset.max_size b.
Proof.
  intros Hwf Hpar. revert b Hwf.
  induction Hpar as [|ep eps Hep _ IH]; intros b Hwf.
  - unfold total_steps. simpl. destruct Hwf as [Hc _ Hp _ _ _ _].
    rewrite Z.add_0_r, Z.mod_small by lia. reflexivity.
  - simpl. rewrite IH by (apply push_episode_wf; exact Hwf).
    rewrite push_episode_max_size.
    destruct (push_episode_parallel_result ep b Hwf Hep) as [-> _].
    cbn [BufferDataset.pointer].
    rewrite Zplus_mod_idemp_l. unfold total_steps, episode_len. simpl.
    f_equal. lia.
Qed.

(** X5: from construction with a positive capacity on, after pushing any
    sequence of episodes of parallel sequences the filled count is the
    number of steps pushed, capped at the capacity, and the write cursor
    is that number modulo the capacity. *)
Theorem counters_after_pushes
    (numpy : Np.release) (mem : BufferDataset.memory obs act rew)
    (observation_shape action_shape : list Z)
    (max_size history_len n_step : Z) (gamma : rew)
    (discrete_actions byte_observations : bool) (b0 : buffer) eps :
  BufferDataset.init numpy mem observation_shape action_shape max_size
    history_len n_step gamma discrete_actions byte_observations = Ok b0 ->
  0 < max_size ->
  Forall parallel eps ->
  BufferDataset.len_ (push_all eps b0) = Z.min (total_steps eps) max_size
  /\ BufferDataset.pointer (push_all eps b0) = total_steps eps `mod` max_size.
Proof.
  intros Hinit Hcap Hpar.
  destruct (init_wf _ _ _ _ _ _ _ _ _ _ _ Hinit Hcap)
    as (Hwf & Hlen & Hptr & Hmax).
  split.
  - unfold BufferDataset.len_. rewrite push_all_len by (apply wf_len, Hwf).
    rewrite Hlen, Hmax. reflexivity.
  - rewrite push_all_pointer by assumption. rewrite Hptr, Hmax. reflexivity.
Qed.

End MoreRing.

(** ** More on the state composer *)

Section MoreState.

Context {obs act rew : Type}.
Context {obs_astype : Np.Astype obs} {act_astype : Np.Astype act}
  {rew_astype : Np.Astype rew}.
Variable obs_zero : obs.

Local Abbreviation buffer := (BufferDataset.t obs act rew).
Local Abbreviation get_state := (BufferDataset.get_state obs_zero).

Implicit Types (b : buffer) (idx h : Z) (m : nat).

(** A run of slots that does not cross the end of the array. *)
Lemma obs_at_run b (s : Z) (n : nat) :
  wf b -> 0 <= s -> s + Z.of_nat n <= BufferDataset.max_size b ->
  (fun j => obs_at obs_zero b (s + Z.of_nat j)) <$> seq 0 n
  = take n (drop (Z.to_nat s) (BufferDataset.observations b)).
Proof.
  intros Hwf Hs Hn. apply list_eq. intros p. rewrite list_lookup_fmap.
  destruct (decide (p < n)%nat) as [Hp|Hp].
  - rewrite lookup_seq_lt, lookup_take_lt, lookup_drop by lia.
    cbn [fmap option_fmap option_map].
    replace (Z.to_nat s + p)%nat with (Z.to_nat (s + Z.of_nat (0 + p))) by lia.
    rewrite (lookup_observations obs_zero) by (auto; lia). reflexivity.
  - rewrite lookup_seq_ge, lookup_take_ge by lia. reflexivity.
Qed.

Lemma obs_at_turn b (i : Z) :
  obs_at obs_zero b (i + BufferDataset.max_size b) = obs_at obs_zero b i.
Proof.
  unfold obs_at, slot.
  rewrite <- (Z_mod_plus_full i 1 (BufferDataset.max_size b)).
  do 4 f_equal. lia.
Qed.

(** X6: at every slot of the ring [get_state] returns exactly
    [history_len] observations (none when [history_len] is not
    positive). *)
Theorem get_state_length b idx h :
  wf b -> 0 <= idx < BufferDataset.max_size b ->
  exists state, get_state b idx h = Ok state /\ length state = Z.to_nat h.
Proof.
  intros Hwf Hidx. pose proof (wf_observations b Hwf) as Ho.
  destruct ((idx - h + 1 <? 0)
            || Np.any (Np.slice (BufferDataset.dones b) (idx - h + 1) (idx +
              1)))
    eqn:Hcond.
  - destruct (Z.le_gt_cases 1 h) as [Hh|Hh].
    + destruct (get_state_padded obs_zero b idx h Hwf Hidx Hh Hcond)
        as (m & (Hm & _) & ->).
      eexists. split; [reflexivity|]. apply length_padded_state. exact Hm.
    + rewrite slice_empty in Hcond by lia.
      apply orb_true_iff in Hcond as [Hcond|Hcond]; [lia | discriminate].
  - unfold BufferDataset.get_state. rewrite Hcond.
    eexists. split; [reflexivity|].
    apply orb_false_iff in Hcond as [Hstart _]. apply Z.ltb_ge in Hstart.
    destruct (Z.le_gt_cases 1 h) as [Hh|Hh].
    + rewrite slice_in_range by lia. rewrite length_take, length_drop. lia.
    + rewrite slice_empty by lia. simpl. lia.
Qed.

Lemma get_state_one b idx :
  wf b -> 0 <= idx < BufferDataset.max_size b ->
  get_state b idx 1 = Ok [obs_at obs_zero b idx].
Proof.
  intros Hwf Hidx. pose proof (wf_observations b Hwf) as Ho.
  destruct ((idx - 1 + 1 <? 0)
            || Np.any (Np.slice (BufferDataset.dones b) (idx - 1 + 1) (idx +
              1)))
    eqn:Hcond.
  - destruct (get_state_padded obs_zero b idx 1 Hwf Hidx ltac:(lia) Hcond)
      as (m & (Hm & _) & ->).
    replace m with 0%nat by lia. unfold padded_state. simpl.
    do 3 f_equal. lia.
  - unfold BufferDataset.get_state. rewrite Hcond. f_equal.
    rewrite slice_in_range by lia.
    replace (idx + 1 - (idx - 1 + 1)) with 1 by lia.
    replace (idx - 1 + 1) with idx by lia. change (Z.to_nat 1) with 1%nat.
    rewrite <- (obs_at_run b idx 1) by (auto; lia). simpl.
    do 2 f_equal. lia.
Qed.

(** X7: with history length 1 the state is the single observation of the
    slot, whether or not the slot ends an episode. *)
Theorem get_state_single b idx :
  wf b -> 0 <= idx < BufferDataset.max_size b ->
  exists o, BufferDataset.observations b !! Z.to_nat idx = Some o
            /\ get_state b idx 1 = Ok [o].
Proof.
  intros Hwf Hidx. exists (obs_at obs_zero b idx).
  split; [apply lookup_observations | apply get_state_one]; assumption.
Qed.

(** X8: at an index of the filled range, if the [m] slots right behind
    [idx] lie at nonnegative positions and carry no done flag, and either
    [m] is [history_len - 1] or the slot behind them carries a done flag,
    then the state is the observations of the slots [idx - m .. idx] with
    [history_len - 1 - m] zeros in front; a done flag on [idx] itself
    plays no role. *)
Theorem get_state_episode_window b idx h m :
  wf b -> 0 <= idx < BufferDataset.len b -> 1 <= h ->
  Z.of_nat m <= h - 1 -> Z.of_nat m <= idx ->
  (forall j : nat, (1 <= j <= m)%nat ->
     BufferDataset.dones b !! Z.to_nat (idx - Z.of_nat j) = Some false) ->
  Z.of_nat m = h - 1
  \/ (Z.of_nat m < idx
      /\ BufferDataset.dones b !! Z.to_nat (idx - Z.of_nat m - 1) = Some true)
        ->
  get_state b idx h
  = Ok (replicate (Z.to_nat (h - 1) - m) obs_zero
          ++ take (S m)
               (drop (Z.to_nat (idx - Z.of_nat m))
                  (BufferDataset.observations b))).
Proof.
  intros Hwf Hidx Hh Hm Hroom Hclear Hstop. pose proof (wf_len b Hwf) as Hl.
  rewrite (get_state_lookback obs_zero b idx h m); [| exact Hwf | lia | lia |].
  - unfold padded_state. f_equal. f_equal; [f_equal; lia|].
    apply obs_at_run; [exact Hwf | lia | lia].
  - split; [exact Hm|]. split.
    + intros j Hj. unfold extends_history, done_at, slot.
      rewrite Z.mod_small by lia. split; [lia|].
      rewrite Hclear by exact Hj. reflexivity.
    + destruct Hstop as [Hfull|[Hbehind Hdone]]; [left; exact Hfull|right].
      unfold extends_history, done_at, slot. intros [_ Hd].
      rewrite Z.mod_small in Hd by lia.
      replace (idx - Z.of_nat (S m)) with (idx - Z.of_nat m - 1) in Hd by lia.
      rewrite Hdone in Hd. discriminate.
Qed.

(** X9: in a full ring the history of an index near the start continues
    at the end of the arrays: with no done flag in the [history_len - 1]
    slots behind [idx] (counted around the ring), the state is the last
    [history_len - 1 - idx] observations of the array followed by its
    first [idx + 1]. *)
Theorem get_state_around_full_ring b idx h :
  wf b -> BufferDataset.len b = BufferDataset.max_size b ->
  0 <= idx -> idx < h - 1 -> h <= BufferDataset.max_size b ->
  (forall j : nat, 1 <= Z.of_nat j <= h - 1 ->
     BufferDataset.dones b !! slot b (idx - Z.of_nat j) = Some false) ->
  get_state b idx h
  = Ok (drop (Z.to_nat (BufferDataset.max_size b - (h - 1 - idx)))
          (BufferDataset.observations b)
          ++ take (Z.to_nat (idx + 1)) (BufferDataset.observations b)).
Proof.
  intros Hwf Hfull Hidx Hshort Hh Hclear.
  pose proof (wf_observations b Hwf) as Ho.
  rewrite (get_state_lookback obs_zero b idx h (Z.to_nat (h - 1)));
    [| exact Hwf | lia | lia |].
  - unfold padded_state. f_equal.
    replace (Z.to_nat h - S (Z.to_nat (h - 1)))%nat with 0%nat by lia.
    change (replicate 0 obs_zero) with (@nil obs). rewrite app_nil_l.
    replace (S (Z.to_nat (h - 1)))
      with (Z.to_nat (h - 1 - idx) + Z.to_nat (idx + 1))%nat by lia.
    rewrite seq_app, fmap_app. f_equal.
    + rewrite <- (take_ge (drop _ (BufferDataset.observations b))
                    (Z.to_nat (h - 1 - idx)))
        by (rewrite length_drop; lia).
      rewrite <- (obs_at_run b) by (auto; lia).
      apply list_fmap_ext. intros _ j _. simpl.
      rewrite <- obs_at_turn. f_equal. lia.
    + replace (0 + Z.to_nat (h - 1 - idx))%nat
        with (Z.to_nat (h - 1 - idx) + 0)%nat by lia.
      rewrite <- (fmap_add_seq (Z.to_nat (h - 1 - idx)) 0), <-
        list_fmap_compose.
      rewrite <- (drop_0 (BufferDataset.observations b)) at 1.
      change 0%nat with (Z.to_nat 0) at 2.
      rewrite <- (obs_at_run b 0) by (auto; lia).
      apply list_fmap_ext. intros _ j _. simpl. f_equal. lia.
  - split; [lia|]. split; [|left; lia].
    intros j Hj. unfold extends_history. rewrite Hfull. split.
    + apply Z.mod_pos_bound, wf_capacity, Hwf.
    + unfold done_at. rewrite Hclear by lia. reflexivity.
Qed.

End MoreState.

(** ** More on the transition assembler *)

Section MoreTransition.

Context {obs act rew : Type}.
Context {obs_astype : Np.Astype obs} {act_astype : Np.Astype act}
  {rew_astype : Np.Astype rew}.
Variable obs_zero : obs.
Variable rew_zero : rew.
Variable rew_add rew_mul : rew -> rew -> rew.
Variable rew_pow : rew -> Z -> rew.

Local Abbreviation buffer := (BufferDataset.t obs act rew).
Local Abbreviation episode := (BufferDataset.episode obs act rew).
Local Abbreviation get_state := (BufferDataset.get_state obs_zero).
Local Abbreviation get_transition_n_step :=
  (BufferDataset.get_transition_n_step obs_zero rew_zero rew_add rew_mul
     rew_pow).

Implicit Types (b : buffer) (idx h n : Z) (gamma : rew).

(** X10: with [n_step] zero or negative the loop body never runs, [done]
    stays unbound, and [get_transition_n_step] raises [UnboundLocalError]
    at every slot of the ring. *)
Theorem get_transition_n_step_no_step b idx h n gamma :
  wf b -> 0 <= idx < BufferDataset.max_size b -> n <= 0 ->
  get_transition_n_step b idx h n gamma = Raise UnboundLocalError.
Proof.
  intros Hwf Hidx Hn. pose proof (wf_capacity b Hwf) as Hc.
  destruct (get_state_ok obs_zero b idx h Hwf Hidx) as [state Hstate].
  destruct (get_state_ok obs_zero b
              ((idx + n) `mod` BufferDataset.max_size b) h Hwf)
    as [next_state Hnext]; [apply Z.mod_pos_bound; exact Hc|].
  destruct (getitem_in_range (BufferDataset.actions b) idx)
    as (action & _ & Hget); [rewrite (wf_actions b Hwf); lia|].
  unfold BufferDataset.get_transition_n_step, Np.py_mod.
  rewrite Hstate. replace (BufferDataset.max_size b =? 0) with false by lia.
  cbn [mbind result_bind]. rewrite Hnext. cbn [mbind result_bind].
  rewrite enumerate_window by exact Hwf.
  replace (Z.to_nat n) with 0%nat by lia. simpl. rewrite Hget. reflexivity.
Qed.

Lemma getitem_fancy_last_out_of_range {X} (a : list X) (indices : list Z)
    (i : Z) :
  Forall (fun i => 0 <= i < Z.of_nat (length a)) indices ->
  Z.of_nat (length a) <= i ->
  Np.getitem_fancy a (indices ++ [i]) = Raise IndexError.
Proof.
  intros Hin Hi. induction Hin as [|k rest Hk _ IH]; simpl.
  - unfold Np.getitem, Np.adjust_index.
    replace (Z.of_nat (length a) <=? i) with true by lia.
    rewrite orb_true_r. reflexivity.
  - destruct (getitem_in_range a k Hk) as (x & _ & ->). simpl.
    rewrite IH. reflexivity.
Qed.

(** Past the end of the arrays [get_state] either raises [IndexError] or
    returns what the clamped slice holds. *)
Lemma get_state_past_the_end b idx h :
  wf b -> BufferDataset.max_size b <= idx ->
  get_state b idx h = Raise IndexError
  \/ exists state, get_state b idx h = Ok state.
Proof.
  intros Hwf Hidx. pose proof (wf_capacity b Hwf) as Hc.
  unfold BufferDataset.get_state.
  destruct ((idx - h + 1 <? 0)
            || Np.any (Np.slice (BufferDataset.dones b) (idx - h + 1) (idx +
              1)))
    eqn:Hcond; [left | right; eauto].
  assert (Hh : 1 <= h).
  { destruct (Z.le_gt_cases 1 h) as [Hh|Hh]; [exact Hh|].
    rewrite slice_empty in Hcond by lia.
    apply orb_true_iff in Hcond as [Hcond|Hcond]; [lia | discriminate]. }
  unfold Np.zeros. replace (h <? 0) with false by lia.
  cbn [mbind result_bind].
  replace (h - 1) with (Z.of_nat (Z.to_nat (h - 1))) by lia.
  rewrite (seqZ_of_nat 0).
  destruct (get_state_loop_spec b idx (Z.to_nat (h - 1)) 0 [idx] Hwf)
    as (m & _ & _ & _ & ->).
  cbn [mbind result_bind]. simpl app. rewrite gathered_indices.
  rewrite getitem_fancy_last_out_of_range; [reflexivity | |].
  - rewrite (wf_observations b Hwf). apply Forall_fmap, Forall_forall.
    intros j _. simpl. apply Z.mod_pos_bound. exact Hc.
  - rewrite (wf_observations b Hwf). exact Hidx.
Qed.

(** X11: an index at or past the capacity makes
    [get_transition_n_step] raise [IndexError], whatever the history
    length and [n_step]. *)
Theorem get_transition_n_step_index_error b idx h n gamma :
  wf b -> BufferDataset.max_size b <= idx ->
  get_transition_n_step b idx h n gamma = Raise IndexError.
Proof.
  intros Hwf Hidx. pose proof (wf_capacity b Hwf) as Hc.
  unfold BufferDataset.get_transition_n_step.
  destruct (get_state_past_the_end b idx h Hwf Hidx) as [->|[state ->]];
    [reflexivity|].
  unfold Np.py_mod. replace (BufferDataset.max_size b =? 0) with false by lia.
  cbn [mbind result_bind].
  destruct (get_state_ok obs_zero b
              ((idx + n) `mod` BufferDataset.max_size b) h Hwf)
    as [next_state ->]; [apply Z.mod_pos_bound; exact Hc|].
  cbn [mbind result_bind]. rewrite enumerate_window by exact Hwf.
  change rew_zero
    with (discounted_sum rew_zero rew_add rew_mul rew_pow b idx gamma 0) at 1.
  destruct (n_step_loop_spec rew_zero rew_add rew_mul rew_pow b gamma idx
              (Z.to_nat n) 0 None Hwf) as (cum & d & -> & _).
  cbn [mbind result_bind]. unfold Np.getitem, Np.adjust_index.
  rewrite (wf_actions b Hwf).
  replace (BufferDataset.max_size b <=? idx) with true by lia.
  rewrite orb_true_r. reflexivity.
Qed.

(** The slots a push of parallel sequences has just written, with the
    values as converted on the way in. *)
Lemma pushed_slots (ep : episode) b (j : nat) :
  wf b -> parallel ep ->
  Z.of_nat j < episode_len ep ->
  episode_len ep - BufferDataset.max_size b <= Z.of_nat j ->
  let b' := snd (BufferDataset.push_episode ep b) in
  let k := slot b (BufferDataset.pointer b + Z.of_nat j) in
  BufferDataset.observations b' !! k
  = Np.astype (BufferDataset.obs_dtype b)
      <$> BufferDataset.ep_observations ep !! j
  /\ BufferDataset.actions b' !! k
     = Np.astype (BufferDataset.act_dtype b)
         <$> BufferDataset.ep_actions ep !! j
  /\ BufferDataset.rewards b' !! k
     = Np.astype Np.Float32 <$> BufferDataset.ep_rewards ep !! j
  /\ BufferDataset.dones b' !! k = BufferDataset.ep_dones ep !! j.
Proof.
  intros Hwf Hpar Hj Hrecent.
  destruct (push_episode_parallel ep b Hwf Hpar) as (_ & Eo & Ea & Er & Ed).
  cbv zeta. rewrite Eo, Ea, Er, Ed.
  destruct Hpar as (Lo & La & Ld). simpl in Lo, La, Ld.
  destruct Hwf as [Hc Hl Hp Ho Ha Hr Hd]. unfold episode_len in *.
  split; [|split; [|split]].
  - rewrite <- Lo. apply pushed_field_astype; auto; lia.
  - rewrite <- La. apply pushed_field_astype; auto; lia.
  - apply pushed_field_astype; auto; lia.
  - rewrite <- Ld. apply pushed_field; auto; lia.
Qed.

(** X12: what [push_episode] writes, [get_transition_n_step] reads back,
    as converted to the dtype of the arrays.  After a push of parallel
    sequences, the one-step transition with history length 1 at the slot
    of step [j] (one of the last [capacity] steps of the episode) holds
    that step's observation and action, each converted to the dtype of
    its array, its done flag, and with [r] its reward converted to
    [float32] the return [0 + r * gamma ** 0]; its next state is the
    converted observation of step [j + 1] when the episode has one. *)
Theorem push_then_get_transition (ep : episode) b (j : nat)
    (o : obs) (a : act) (r : rew) (d : bool) gamma :
  wf b -> parallel ep ->
  BufferDataset.ep_observations ep !! j = Some o ->
  BufferDataset.ep_actions ep !! j = Some a ->
  BufferDataset.ep_rewards ep !! j = Some r ->
  BufferDataset.ep_dones ep !! j = Some d ->
  episode_len ep - BufferDataset.max_size b <= Z.of_nat j ->
  let b' := snd (BufferDataset.push_episode ep b) in
  let idx := (BufferDataset.pointer b + Z.of_nat j)
               `mod` BufferDataset.max_size b in
  exists next_state,
    get_transition_n_step b' idx 1 1 gamma
    = Ok ([Np.astype (BufferDataset.obs_dtype b) o],
          Np.astype (BufferDataset.act_dtype b) a,
          rew_add rew_zero
            (rew_mul (Np.astype Np.Float32 r) (rew_pow gamma 0)),
          next_state, d)
    /\ (forall o', BufferDataset.ep_observations ep !! S j = Some o' ->
                   next_state = [Np.astype (BufferDataset.obs_dtype b) o']).
Proof.
  intros Hwf Hpar Ho Ha Hr Hd Hrecent b' idx.
  pose proof (wf_capacity b Hwf) as Hc.
  assert (Hj : Z.of_nat j < episode_len ep).
  { apply lookup_lt_Some in Hr. unfold episode_len. lia. }
  assert (Hwf' : wf b') by (apply push_episode_wf; exact Hwf).
  assert (Hmax : BufferDataset.max_size b' = BufferDataset.max_size b)
    by apply push_episode_max_size.
  assert (Hidx : 0 <= idx < BufferDataset.max_size b')
    by (rewrite Hmax; apply Z.mod_pos_bound; exact Hc).
  destruct (pushed_slots ep b j Hwf Hpar Hj Hrecent) as (So & Sa & Sr & Sd).
  fold b' in So, Sa, Sr, Sd.
  change (slot b (BufferDataset.pointer b + Z.of_nat j))
    with (Z.to_nat idx) in So, Sa, Sr, Sd.
  rewrite Ho in So. rewrite Ha in Sa. rewrite Hr in Sr. rewrite Hd in Sd.
  assert (Hslot : slot b' (idx + Z.of_nat 0) = Z.to_nat idx).
  { unfold slot. rewrite Z.add_0_r, Z.mod_small by exact Hidx. reflexivity. }
  destruct (get_transition_n_step_spec obs_zero rew_zero rew_add rew_mul
              rew_pow b' idx 1 1 gamma Hwf' Hidx ltac:(lia))
    as (state & action & ret & next_state & terminal
        & Hrun & Hstate & Hnext & Hact & Hdone & Hnone).
  rewrite (get_state_one obs_zero) in Hstate by assumption.
  rewrite (get_state_one obs_zero) in Hnext
    by (auto; apply Z.mod_pos_bound; lia).
  injection Hstate as <-. injection Hnext as <-.
  assert (Hobs : obs_at obs_zero b' idx
                 = Np.astype (BufferDataset.obs_dtype b) o).
  { unfold obs_at, slot. rewrite Z.mod_small by exact Hidx.
    rewrite So. reflexivity. }
  assert (Hret : discounted_sum rew_zero rew_add rew_mul rew_pow b' idx gamma 1
                 = rew_add rew_zero
                     (rew_mul (Np.astype Np.Float32 r) (rew_pow gamma 0))).
  { simpl. unfold reward_at. rewrite Hslot, Sr. reflexivity. }
  assert (Hterm : terminal = d
                  /\ ret = rew_add rew_zero
                             (rew_mul (Np.astype Np.Float32 r)
                                (rew_pow gamma 0))).
  { rewrite <- Hret. destruct d.
    - apply (Hdone 0%nat); [lia | rewrite Hslot; exact Sd | intros; lia].
    - apply Hnone. intros j0 Hj0. replace j0 with 0%nat by lia.
      rewrite Hslot. exact Sd. }
  destruct Hterm as [-> ->]. rewrite Sa in Hact. injection Hact as <-.
  rewrite Hobs in Hrun. eexists. split; [exact Hrun|].
  intros o' Ho'. f_equal.
  assert (Hj' : Z.of_nat (S j) < episode_len ep).
  { apply lookup_lt_Some in Ho'. destruct Hpar as (Lo & _). simpl in Lo.
    unfold episode_len. lia. }
  destruct (pushed_slots ep b (S j) Hwf Hpar Hj' ltac:(lia)) as (So' & _).
  fold b' in So'. rewrite Ho' in So'.
  cbn [fmap option_fmap option_map] in So'.
  unfold obs_at, slot. rewrite Hmax, Zmod_mod.
  replace ((idx + 1) `mod` BufferDataset.max_size b)
    with ((BufferDataset.pointer b + Z.of_nat (S j))
            `mod` BufferDataset.max_size b).
  - unfold slot in So'. rewrite So'. reflexivity.
  - unfold idx. rewrite Zplus_mod_idemp_l. f_equal. lia.
Qed.

End MoreTransition.

(** ** Construction and the sample index generator *)

Section MoreSampler.

Context {obs act rew : Type}.
Context {obs_astype : Np.Astype obs} {act_astype : Np.Astype act}
  {rew_astype : Np.Astype rew}.
Variable obs_zero : obs.
Variable rew_zero : rew.
Variable rew_add rew_mul : rew -> rew -> rew.
Variable rew_pow : rew -> Z -> rew.

Local Abbreviation buffer := (BufferDataset.t obs act rew).

(** X13: when the constructor of [BufferDataset] returns.  It does so
    exactly when [byte_observations] is off, the NumPy release has the
    names the call looks up ([np.bool] always, [np.int] for discrete
    actions), and neither the capacity nor a dimension of the observation
    shape or of the effective action shape is negative; otherwise it
    raises [AttributeError] or [ValueError], the latter for a negative
    capacity whenever both options are off.  The buffer it returns is
    empty, has four arrays as long as the capacity (so that it satisfies
    the class invariant when the capacity is positive), stores floating
    observations, and for discrete actions stores integer actions under
    shape [(1,)] whatever [action_shape] was given. *)
Theorem init_buffer (numpy : Np.release)
    (mem : BufferDataset.memory obs act rew)
    (observation_shape action_shape : list Z)
    (max_size history_len n_step : Z) (gamma : rew)
    (discrete_actions byte_observations : bool) :
  let effective_shape := if discrete_actions then [1] else action_shape in
  let constructible :=
    byte_observations = false
    /\ (discrete_actions = true -> numpy = Np.Before_1_24)
    /\ numpy <> Np.From_1_24
    /\ 0 <= max_size
    /\ Forall (fun d => 0 <= d) observation_shape
    /\ Forall (fun d => 0 <= d) effective_shape in
  let outcome :=
    BufferDataset.init numpy mem observation_shape action_shape max_size
      history_len n_step gamma discrete_actions byte_observations in
  (constructible ->
   exists b,
     outcome = Ok b
     /\ BufferDataset.len_ b = 0
     /\ BufferDataset.pointer b = 0
     /\ BufferDataset.max_size b = max_size
     /\ Z.of_nat (length (BufferDataset.observations b)) = max_size
     /\ Z.of_nat (length (BufferDataset.actions b)) = max_size
     /\ Z.of_nat (length (BufferDataset.rewards b)) = max_size
     /\ Z.of_nat (length (BufferDataset.dones b)) = max_size
     /\ (0 < max_size -> wf b)
     /\ BufferDataset.action_shape b = effective_shape
     /\ BufferDataset.obs_dtype b = Np.Float32
     /\ BufferDataset.act_dtype b
        = (if discrete_actions then Np.PyInt else Np.Float32))
  /\ (~ constructible ->
      outcome = Raise AttributeError \/ outcome = Raise ValueError)
  /\ (byte_observations = false -> discrete_actions = false ->
      max_size < 0 -> outcome = Raise ValueError).
Proof.
  clear obs_zero rew_zero rew_add rew_mul rew_pow.
  intros effective_shape constructible outcome.
  assert (Hnil : Forall (fun d : Z => 0 <= d) []) by constructor.
  split; [|split].
  - intros (-> & Hint & Hbool & Hcap & Hoshape & Hashape).
    assert (Hrun : exists b, outcome = Ok b
              /\ BufferDataset.action_shape b = effective_shape
              /\ BufferDataset.obs_dtype b = Np.Float32
              /\ BufferDataset.act_dtype b
                 = (if discrete_actions then Np.PyInt else Np.Float32)).
    { unfold outcome, BufferDataset.init. fold effective_shape.
      rewrite !empty_nonneg by assumption.
      destruct discrete_actions; [rewrite Hint by reflexivity|];
        destruct numpy; try congruence;
        cbn [Np.getattr String.eqb Ascii.eqb Bool.eqb mbind result_bind];
        eauto. }
    destruct Hrun as (b & Hrun & Hshape & Hod & Had). exists b.
    pose proof Hrun as Hinit. unfold outcome in Hinit.
    destruct (init_ok _ _ _ _ _ _ _ _ _ _ _ Hinit)
      as (_ & Hlen & Hptr & Hmax & Ho & Ha & Hr & Hd).
    split; [exact Hrun|]. do 7 (split; [assumption|]).
    split; [|auto]. intros Hpos. split; lia.
  - intros Hno. unfold outcome, BufferDataset.init. fold effective_shape.
    destruct byte_observations; [left; reflexivity|].
    destruct (decide (0 <= max_size
                      /\ Forall (fun d => 0 <= d) observation_shape))
      as [[Hcap Hoshape]|Hneg].
    2:{ rewrite (empty_negative _ _ _ Hneg).
        destruct discrete_actions, numpy;
          cbn [Np.getattr String.eqb Ascii.eqb Bool.eqb mbind result_bind];
          auto. }
    destruct (decide (Forall (fun d => 0 <= d) effective_shape))
      as [Hashape|Hneg].
    2:{ rewrite (empty_nonneg _ max_size observation_shape) by assumption.
        rewrite (empty_negative _ _ effective_shape) by tauto.
        destruct discrete_actions, numpy;
          cbn [Np.getattr String.eqb Ascii.eqb Bool.eqb mbind result_bind];
          auto. }
    rewrite !empty_nonneg by assumption.
    destruct discrete_actions, numpy;
      cbn [Np.getattr String.eqb Ascii.eqb Bool.eqb mbind result_bind];
      auto; exfalso; apply Hno; unfold constructible;
      repeat split; auto; congruence.
  - intros -> -> Hcap. unfold outcome, BufferDataset.init.
    rewrite (empty_negative _ max_size observation_shape) by lia.
    destruct numpy; reflexivity.
Qed.

Lemma iter_indices (rng : nat -> Z) (b : buffer) (epoch_len batch_size : Z) :
  0 < BufferDataset.len_ b -> 0 <= epoch_len * batch_size ->
  exists indices,
    BufferSampler.iter rng (BufferSampler.init b epoch_len batch_size)
    = Ok indices
    /\ Z.of_nat (length indices) = epoch_len * batch_size
    /\ Forall (fun i => 0 <= i < BufferDataset.len_ b) indices.
Proof.
  intros Hlen Hsize. unfold BufferSampler.iter, Np.random_choice. simpl.
  replace (epoch_len * batch_size <? 0) with false by lia.
  replace (BufferDataset.len_ b <=? 0) with false by lia. simpl.
  eexists. split; [reflexivity|]. split.
  - rewrite length_fmap, length_seq. lia.
  - apply Forall_fmap, Forall_forall. intros k _. simpl.
    apply Z.mod_pos_bound. exact Hlen.
Qed.

(** X14: over a buffer that is not empty the sampler returns
    [epoch_len * batch_size] indices, each one within the filled range,
    whatever the random source draws. *)
Theorem sampler_indices_in_filled_range (rng : nat -> Z) (b : buffer)
    (epoch_len batch_size : Z) :
  0 < BufferDataset.len_ b -> 0 <= epoch_len * batch_size ->
  exists indices,
    BufferSampler.iter rng (BufferSampler.init b epoch_len batch_size)
    = Ok indices
    /\ Z.of_nat (length indices)
       = BufferSampler.len_ (BufferSampler.init b epoch_len batch_size)
    /\ Forall (fun i => 0 <= i < BufferDataset.len_ b) indices.
Proof.
  intros Hlen Hsize. unfold BufferSampler.iter, Np.random_choice. simpl.
  replace (epoch_len * batch_size <? 0) with false by lia.
  replace (BufferDataset.len_ b <=? 0) with false by lia. simpl.
  eexists. split; [reflexivity|]. split.
  - rewrite length_fmap, length_seq. unfold BufferSampler.len_. simpl. lia.
  - apply Forall_fmap, Forall_forall. intros k _. simpl.
    apply Z.mod_pos_bound. exact Hlen.
Qed.

(** X15: the sampler and [__getitem__] compose: over a buffer that
    satisfies the class invariant, holds at least one step and is
    configured with [n_step >= 1], every index the sampler returns makes
    [__getitem__] return a sample. *)
Theorem sampled_indices_give_samples (rng : nat -> Z) (b : buffer)
    (epoch_len batch_size : Z) :
  wf b -> 0 < BufferDataset.len_ b -> 1 <= BufferDataset.n_step b ->
  0 <= epoch_len * batch_size ->
  exists indices,
    BufferSampler.iter rng (BufferSampler.init b epoch_len batch_size)
    = Ok indices
    /\ Forall
         (fun i =>
            exists smp,
              BufferDataset.getitem obs_zero rew_zero rew_add rew_mul rew_pow
                b i = Ok smp)
         indices.
Proof.
  intros Hwf Hlen Hn Hsize. pose proof (wf_len b Hwf) as Hl.
  destruct (iter_indices rng b epoch_len batch_size Hlen Hsize)
    as (indices & Hrun & _ & Hin).
  exists indices. split; [exact Hrun|].
  eapply Forall_impl; [|exact Hin]. intros i Hi. simpl in Hi.
  unfold BufferDataset.len_ in Hi. unfold BufferDataset.getitem.
  destruct (get_transition_n_step_spec obs_zero rew_zero rew_add rew_mul
              rew_pow b i (BufferDataset.history_len b)
              (BufferDataset.n_step b) (BufferDataset.gamma b) Hwf
              ltac:(lia) Hn)
    as (st & a & r & st' & t & -> & _).
  simpl. eauto.
Qed.

End MoreSampler.

(** ** More on the episode accumulator *)

Section MoreAccumulator.

Context {obs act rew : Type}.
Context {obs_astype : Np.Astype obs} {act_astype : Np.Astype act}
  {rew_astype : Np.Astype rew}.
Variable obs_zero : obs.

Local Abbreviation accumulator := (SamplerBuffer.t obs act rew).
Local Abbreviation buffer := (BufferDataset.t obs act rew).
Local Abbreviation transition := (obs * act * rew * bool)%type.

Implicit Types (s : accumulator) (t : transition) (ts : list transition).

(** The observations an accumulator has received, seed first, and the
    actions and rewards, each as its array stores it. *)
Local Abbreviation received s o0 ts :=
  (Np.astype (SamplerBuffer.obs_dtype s)
     <$> o0 :: (tr_next_observation <$> ts)).
Local Abbreviation stored_actions s ts :=
  (Np.astype (SamplerBuffer.act_dtype s) <$> (tr_action <$> ts)).
Local Abbreviation stored_rewards ts :=
  (Np.astype Np.Float32 <$> (tr_reward <$> ts)).

(** What [get_complete_episode] returns for a cursor within the arrays. *)
Lemma get_complete_episode_prefix s (k : nat) :
  wf_accumulator s -> SamplerBuffer.pointer s = Z.of_nat k ->
  Z.of_nat k <= SamplerBuffer.size s ->
  SamplerBuffer.get_complete_episode s
  = Ok (take k (SamplerBuffer.observations s),
        take k (SamplerBuffer.actions s),
        take k (SamplerBuffer.rewards s),
        take k (SamplerBuffer.dones s)).
Proof.
  intros [Ho Ha Hr Hd] Hptr Hk.
  unfold SamplerBuffer.get_complete_episode, Np.arange.
  rewrite Hptr, Z.sub_0_r. change 0 with (Z.of_nat 0).
  rewrite !getitem_fancy_run by lia. rewrite !drop_0. reflexivity.
Qed.

(** Seeding, appending and reading the episode back. *)
Lemma accumulate_finalize (o0 : obs) ts s :
  wf_accumulator s -> Z.of_nat (length ts) < SamplerBuffer.size s ->
  exists s',
    accumulate o0 ts s = (Ok (), s')
    /\ wf_accumulator s'
    /\ SamplerBuffer.size s' = SamplerBuffer.size s
    /\ SamplerBuffer.pointer s' = Z.of_nat (length ts)
    /\ take (S (length ts)) (SamplerBuffer.observations s')
       = received s o0 ts
    /\ SamplerBuffer.get_complete_episode s'
       = Ok (take (length ts) (received s o0 ts),
             stored_actions s ts, stored_rewards ts, tr_done <$> ts).
Proof.
  intros Hwf Hroom.
  destruct (accumulate_spec o0 ts s Hwf Hroom)
    as (s' & Hrun & Hwf' & Hsize & _ & _ & Hptr & Eo & Ea & Er & Ed).
  exists s'. do 5 (split; [assumption|]).
  rewrite (get_complete_episode_prefix s' (length ts)) by (auto; lia).
  rewrite Ea, Er, Ed, <- Eo, take_take.
  replace (length ts `min` S (length ts))%nat with (length ts) by lia.
  reflexivity.
Qed.

Lemma append_all_app ts1 ts2 s :
  append_all (ts1 ++ ts2) s
  = match append_all ts1 s with
    | (Ok _, s1) => append_all ts2 s1
    | (Raise e, s1) => (Raise e, s1)
    end.
Proof.
  revert s. induction ts1 as [|t ts1 IH]; intros s; [reflexivity|].
  simpl. destruct (SamplerBuffer.push_transition t s) as [[[]|e] s1];
    [apply IH | reflexivity].
Qed.

Lemma push_transition_full t s :
  wf_accumulator s ->
  0 <= SamplerBuffer.pointer s ->
  SamplerBuffer.size s <= SamplerBuffer.pointer s + 1 ->
  SamplerBuffer.push_transition t s = (Raise IndexError, s).
Proof.
  intros [Ho _ _ _] Hp Hfull. destruct t as [[[s_tp1 a_t] r_t] d_t].
  unfold SamplerBuffer.push_transition, Np.setitem, Np.adjust_index.
  rewrite Ho.
  replace (SamplerBuffer.size s <=? SamplerBuffer.pointer s + 1)
    with true by lia.
  rewrite orb_true_r. reflexivity.
Qed.

(** X16: a scratch of capacity [c >= 1] takes [c - 1] transitions after
    the seed.  Appending more raises [IndexError] at the first transition
    that does not fit and leaves the accumulator as the first [c - 1]
    left it: the cursor is [c - 1] and [get_complete_episode] returns
    those [c - 1] steps, each value as its array stores it. *)
Theorem accumulate_overflow (o0 : obs) ts s :
  wf_accumulator s -> 0 < SamplerBuffer.size s ->
  SamplerBuffer.size s <= Z.of_nat (length ts) ->
  let c := Z.to_nat (SamplerBuffer.size s - 1) in
  exists s',
    accumulate o0 ts s = (Raise IndexError, s')
    /\ SamplerBuffer.pointer s' = SamplerBuffer.size s - 1
    /\ SamplerBuffer.get_complete_episode s'
       = Ok (take c (received s o0 ts),
             stored_actions s (take c ts), stored_rewards (take c ts),
             tr_done <$> take c ts).
Proof.
  intros Hwf Hpos Hlong c.
  assert (Hc : length (take c ts) = c) by (rewrite length_take; lia).
  destruct (accumulate_finalize o0 (take c ts) s Hwf)
    as (s' & Hrun & Hwf' & Hsize & Hptr & _ & Hget); [lia|].
  exists s'. rewrite Hc in Hptr, Hget. split; [|split; [lia|]].
  - rewrite <- (take_drop c ts) at 1. unfold accumulate in *.
    destruct (SamplerBuffer.init_with_observation o0 s) as [[[]|e] s0];
      [|discriminate].
    rewrite append_all_app, Hrun.
    destruct (drop c ts) as [|t rest] eqn:Hdrop.
    + apply (f_equal length) in Hdrop. rewrite length_drop in Hdrop.
      simpl in Hdrop. lia.
    + simpl. rewrite push_transition_full by (auto; lia). reflexivity.
  - assert (E : take c (received s o0 (take c ts))
                = take c (received s o0 ts)).
    { rewrite <- !fmap_take. f_equal.
      rewrite fmap_take. destruct c as [|c']; [reflexivity|].
      cbn [take]. rewrite take_take. f_equal.
      replace (c' `min` S c')%nat with c' by lia. reflexivity. }
    rewrite Hget, E. reflexivity.
Qed.

Lemma stacked_take (l : list obs) (h i : Z) (n : nat) :
  1 <= h -> 0 <= i < Z.of_nat n ->
  stacked obs_zero (take n l) h i = stacked obs_zero l h i.
Proof.
  intros Hh Hi. unfold stacked. f_equal.
  rewrite !take_drop_commute, take_take. do 2 f_equal. lia.
Qed.

(** X17: after seeding with [o0] and appending transitions that fit,
    [get_state] without a cursor argument returns the last [history_len]
    observations received so far (the seed and the next observations, as
    the array stores them), with zeros in front when there are fewer. *)
Theorem accumulator_current_state (o0 : obs) ts s (h : Z) :
  wf_accumulator s -> Z.of_nat (length ts) < SamplerBuffer.size s ->
  1 <= h ->
  exists s',
    accumulate o0 ts s = (Ok (), s')
    /\ SamplerBuffer.get_state obs_zero s' h None
       = Ok (stacked obs_zero (received s o0 ts) h (Z.of_nat (length ts))).
Proof.
  intros Hwf Hroom Hh.
  destruct (accumulate_finalize o0 ts s Hwf Hroom)
    as (s' & Hrun & Hwf' & Hsize & Hptr & Eo & _).
  exists s'. split; [exact Hrun|].
  rewrite accumulator_get_state by (simpl; auto; lia).
  cbn [SamplerBuffer.pointer_or]. rewrite Hptr, <- Eo. f_equal. symmetry.
  apply (stacked_take (SamplerBuffer.observations s')); lia.
Qed.

(** X18: after seeding with [o0] and appending [k] transitions that fit,
    [get_states_history] returns [k] states over the observations
    received so far: for every step [i >= 1] the one ending at [i], and
    for step 0 the one ending at the cursor [k]. *)
Theorem states_history_after_accumulate (o0 : obs) ts s (h : Z) :
  wf_accumulator s -> Z.of_nat (length ts) < SamplerBuffer.size s ->
  1 <= h ->
  exists s',
    accumulate o0 ts s = (Ok (), s')
    /\ SamplerBuffer.get_states_history obs_zero s' h
       = Ok ((fun i => stacked obs_zero (received s o0 ts) h
                         (if i =? 0 then Z.of_nat (length ts) else i))
               <$> seqZ 0 (Z.of_nat (length ts))).
Proof.
  intros Hwf Hroom Hh.
  destruct (accumulate_finalize o0 ts s Hwf Hroom)
    as (s' & Hrun & Hwf' & Hsize & Hptr & Eo & _).
  exists s'. split; [exact Hrun|].
  rewrite get_states_history_spec by (auto; lia).
  rewrite Hptr. f_equal. apply list_fmap_ext. intros p i Hi.
  apply lookup_seqZ in Hi. rewrite <- Eo. symmetry.
  apply (stacked_take (SamplerBuffer.observations s')); [exact Hh|].
  destruct (i =? 0); lia.
Qed.

(** X19: the episode an accumulator hands over goes into the ring.  After
    seeding with [o0] and appending transitions that fit,
    [get_complete_episode] returns an episode of four parallel sequences,
    which [push_episode] accepts when it has a step; the filled count
    grows by the number of transitions (up to the capacity), the write
    cursor advances by it modulo the capacity, and the slot of each of the
    last [capacity] steps [j] holds the observation the action of
    transition [j] was taken at, with that transition's action, reward
    and done flag; observation, action and reward have been converted
    twice, to the dtype of the accumulator's array and then to that of the
    ring's. *)
Theorem finalize_then_push (o0 : obs) ts s (b : buffer) :
  wf_accumulator s -> Z.of_nat (length ts) < SamplerBuffer.size s ->
  wf b ->
  exists s' e,
    accumulate o0 ts s = (Ok (), s')
    /\ SamplerBuffer.get_complete_episode s' = Ok e
    /\ parallel (as_episode e)
    /\ (ts <> [] -> fst (BufferDataset.push_episode (as_episode e) b) = Ok ())
    /\ BufferDataset.len (snd (BufferDataset.push_episode (as_episode e) b))
       = Z.min (BufferDataset.len b + Z.of_nat (length ts))
           (BufferDataset.max_size b)
    /\ BufferDataset.pointer
         (snd (BufferDataset.push_episode (as_episode e) b))
       = (BufferDataset.pointer b + Z.of_nat (length ts))
           `mod` BufferDataset.max_size b
    /\ (forall (j : nat) (t : transition),
          ts !! j = Some t ->
          Z.of_nat (length ts) - BufferDataset.max_size b <= Z.of_nat j ->
          let b' := snd (BufferDataset.push_episode (as_episode e) b) in
          let k := slot b (BufferDataset.pointer b + Z.of_nat j) in
          BufferDataset.observations b' !! k
          = Np.astype (BufferDataset.obs_dtype b) <$> received s o0 ts !! j
          /\ BufferDataset.actions b' !! k
             = Some (Np.astype (BufferDataset.act_dtype b)
                       (Np.astype (SamplerBuffer.act_dtype s) (tr_action t)))
          /\ BufferDataset.rewards b' !! k
             = Some (Np.astype Np.Float32
                       (Np.astype Np.Float32 (tr_reward t)))
          /\ BufferDataset.dones b' !! k = Some (tr_done t)).
Proof.
  intros Hwf Hroom Hwfb.
  destruct (accumulate_finalize o0 ts s Hwf Hroom)
    as (s' & Hrun & _ & _ & _ & _ & Hget).
  eexists s', _. split; [exact Hrun|]. split; [exact Hget|].
  cbn [as_episode].
  set (ep := BufferDataset.Episode _ _ _ _).
  assert (Hlen : episode_len ep = Z.of_nat (length ts)).
  { unfold episode_len, ep. simpl. rewrite !length_fmap. reflexivity. }
  assert (Hpar : parallel ep).
  { unfold parallel, ep. simpl.
    rewrite length_take, length_fmap, length_cons, !length_fmap. lia. }
  destruct (push_episode_parallel_result ep b Hwfb Hpar) as [Hsnd Hok].
  split; [exact Hpar|]. split.
  { intros Hne. apply Hok. unfold ep. simpl. rewrite !length_fmap.
    destruct ts; [congruence | discriminate]. }
  split; [rewrite push_episode_len, Hlen; reflexivity|].
  split.
  { rewrite Hsnd. cbn [BufferDataset.pointer]. unfold episode_len in Hlen.
    rewrite Hlen. reflexivity. }
  intros j t Ht Hrecent.
  assert (Hj : (j < length ts)%nat) by (apply lookup_lt_Some in Ht; exact Ht).
  destruct (pushed_slots ep b j Hwfb Hpar) as (So & Sa & Sr & Sd);
    [lia | lia |].
  cbv zeta. rewrite So, Sa, Sr, Sd. unfold ep.
  cbn [BufferDataset.ep_observations BufferDataset.ep_actions
         BufferDataset.ep_rewards BufferDataset.ep_dones].
  rewrite lookup_take_lt by exact Hj.
  rewrite !list_lookup_fmap, Ht. auto.
Qed.

(** X20: when the constructor of [SamplerBuffer] returns.  It does so
    exactly when [byte_observations] is off, the NumPy release has the
    names the call looks up ([np.bool] always, [np.int] for discrete
    actions), and neither the capacity nor a dimension of the two shapes
    is negative; otherwise it raises [AttributeError] or [ValueError], the
    latter for a negative capacity whenever both options are off.  The
    accumulator it returns has four arrays as long as the capacity and the
    cursor at 0.  Seeding it raises [IndexError] and changes nothing when
    the capacity is 0; otherwise it stores the observation, converted to
    [float32], at index 0 and leaves the cursor at 0. *)
Theorem init_accumulator (numpy : Np.release)
    (mem : BufferDataset.memory obs act rew)
    (capacity : Z) (observation_shape action_shape : list Z)
    (discrete_actions byte_observations : bool) :
  let constructible :=
    byte_observations = false
    /\ (discrete_actions = true -> numpy = Np.Before_1_24)
    /\ numpy <> Np.From_1_24
    /\ 0 <= capacity
    /\ Forall (fun d => 0 <= d) observation_shape
    /\ Forall (fun d => 0 <= d) action_shape in
  let outcome :=
    SamplerBuffer.init numpy mem capacity observation_shape action_shape
      discrete_actions byte_observations in
  (constructible ->
   exists s,
     outcome = Ok s
     /\ wf_accumulator s
     /\ SamplerBuffer.size s = capacity
     /\ SamplerBuffer.pointer s = 0
     /\ (capacity = 0 ->
         forall o : obs,
           SamplerBuffer.init_with_observation o s = (Raise IndexError, s))
     /\ (0 < capacity ->
         forall o : obs,
           exists s',
             SamplerBuffer.init_with_observation o s = (Ok (), s')
             /\ wf_accumulator s'
             /\ SamplerBuffer.pointer s' = 0
             /\ SamplerBuffer.observations s' !! 0%nat
                = Some (Np.astype Np.Float32 o)))
  /\ (~ constructible ->
      outcome = Raise AttributeError \/ outcome = Raise ValueError)
  /\ (byte_observations = false -> discrete_actions = false ->
      capacity < 0 -> outcome = Raise ValueError).
Proof.
  clear obs_zero.
  intros constructible outcome.
  assert (Hnil : Forall (fun d : Z => 0 <= d) []) by constructor.
  split; [|split].
  - intros (-> & Hint & Hbool & Hcap & Hoshape & Hashape).
    assert (Hrun : exists s, outcome = Ok s
              /\ SamplerBuffer.obs_dtype s = Np.Float32
              /\ SamplerBuffer.size s = capacity
              /\ SamplerBuffer.pointer s = 0
              /\ wf_accumulator s).
    { unfold outcome, SamplerBuffer.init.
      rewrite !empty_nonneg by assumption.
      destruct discrete_actions; [rewrite Hint by reflexivity|];
        destruct numpy; try congruence;
        cbn [Np.getattr String.eqb Ascii.eqb Bool.eqb mbind result_bind];
        eexists; (split; [reflexivity|]); (do 3 (split; [reflexivity|]));
        split; simpl; rewrite length_fmap, length_seq; lia. }
    destruct Hrun as (s & Hrun & Hod & Hsize & Hptr & Hwf). exists s.
    do 4 (split; [assumption|]). pose proof Hwf as [Ho Ha Hr Hd]. split.
    + intros Hzero o.
      unfold SamplerBuffer.init_with_observation, Np.setitem, Np.adjust_index.
      rewrite Ho, Hsize, Hzero. reflexivity.
    + intros Hpos o. unfold SamplerBuffer.init_with_observation.
      rewrite setitem_in_range by lia. eexists. split; [reflexivity|].
      split; [split; simpl; rewrite ?length_insert; assumption|].
      split; [reflexivity|]. simpl. rewrite Hod.
      apply list_lookup_insert_eq. lia.
  - intros Hno. unfold outcome, SamplerBuffer.init.
    destruct byte_observations; [left; reflexivity|].
    destruct (decide (0 <= capacity
                      /\ Forall (fun d => 0 <= d) observation_shape))
      as [[Hcap Hoshape]|Hneg].
    2:{ rewrite (empty_negative _ _ _ Hneg).
        destruct discrete_actions, numpy;
          cbn [Np.getattr String.eqb Ascii.eqb Bool.eqb mbind result_bind];
          auto. }
    destruct (decide (Forall (fun d => 0 <= d) action_shape))
      as [Hashape|Hneg].
    2:{ rewrite (empty_nonneg _ capacity observation_shape) by assumption.
        rewrite (empty_negative _ _ action_shape) by tauto.
        destruct discrete_actions, numpy;
          cbn [Np.getattr String.eqb Ascii.eqb Bool.eqb mbind result_bind];
          auto. }
    rewrite !empty_nonneg by assumption.
    destruct discrete_actions, numpy;
      cbn [Np.getattr String.eqb Ascii.eqb Bool.eqb mbind result_bind];
      auto; exfalso; apply Hno; unfold constructible;
      repeat split; auto; congruence.
  - intros -> -> Hcap. unfold outcome, SamplerBuffer.init.
    rewrite (empty_negative _ capacity observation_shape) by lia.
    destruct numpy; reflexivity.
Qed.

End MoreAccumulator.

(** ** Negative indices *)

Section NegativeIndices.

Context {obs act rew : Type}.
Context {obs_astype : Np.Astype obs} {act_astype : Np.Astype act}
  {rew_astype : Np.Astype rew}.
Variable obs_zero : obs.
Variable rew_zero : rew.
Variable rew_add rew_mul : rew -> rew -> rew.
Variable rew_pow : rew -> Z -> rew.

Local Abbreviation buffer := (BufferDataset.t obs act rew).
Local Abbreviation get_state := (BufferDataset.get_state obs_zero).
Local Abbreviation get_transition_n_step :=
  (BufferDataset.get_transition_n_step obs_zero rew_zero rew_add rew_mul
     rew_pow).

Implicit Types (b : buffer) (idx h n : Z) (gamma : rew).

Lemma getitem_negative {X} (a : list X) (i : Z) (d : X) :
  - Z.of_nat (length a) <= i < 0 ->
  Np.getitem a i = Ok (default d (a !! Z.to_nat (i + Z.of_nat (length a)))).
Proof.
  intros Hi. unfold Np.getitem, Np.adjust_index.
  replace (i <? - Z.of_nat (length a)) with false by lia.
  replace (Z.of_nat (length a) <=? i) with false by lia.
  replace (i <? 0) with true by lia. simpl.
  destruct (lookup_lt_is_Some_2 a (Z.to_nat (i + Z.of_nat (length a))))
    as [x Hx]; [lia|].
  rewrite Hx. reflexivity.
Qed.

Lemma getitem_below_range {X} (a : list X) (i : Z) :
  i < - Z.of_nat (length a) -> Np.getitem a i = Raise IndexError.
Proof.
  intros Hi. unfold Np.getitem, Np.adjust_index.
  replace (i <? - Z.of_nat (length a)) with true by lia. reflexivity.
Qed.

Lemma getitem_fancy_snoc {X} (a : list X) (d : X) (indices : list Z)
    (i : Z) :
  Forall (fun i => 0 <= i < Z.of_nat (length a)) indices ->
  Np.getitem_fancy a (indices ++ [i])
  = x ← Np.getitem a i;
    Ok (((fun i => default d (a !! Z.to_nat i)) <$> indices) ++ [x]).
Proof.
  intros Hin. induction Hin as [|k rest Hk _ IH]; simpl.
  - destruct (Np.getitem a i); reflexivity.
  - rewrite (getitem_default a k d Hk). simpl. rewrite IH.
    destruct (Np.getitem a i); reflexivity.
Qed.

Lemma extends_history_turn b idx (j : nat) :
  extends_history b (idx + BufferDataset.max_size b) j
  <-> extends_history b idx j.
Proof.
  unfold extends_history, done_at, slot.
  replace (idx + BufferDataset.max_size b - Z.of_nat j)
    with (idx - Z.of_nat j + 1 * BufferDataset.max_size b) by lia.
  rewrite Z_mod_plus_full. reflexivity.
Qed.

Lemma lookback_turn b idx h m :
  lookback b idx h m -> lookback b (idx + BufferDataset.max_size b) h m.
Proof.
  intros (Hle & Hall & Hstop). split; [exact Hle|]. split.
  - intros j Hj. apply extends_history_turn, Hall, Hj.
  - destruct Hstop as [Hfull|Hstop]; [left; exact Hfull|right].
    intros Hext. apply Hstop, extends_history_turn, Hext.
Qed.

Lemma padded_state_turn b idx h m :
  padded_state obs_zero b (idx + BufferDataset.max_size b) h m
  = padded_state obs_zero b idx h m.
Proof.
  unfold padded_state. f_equal. apply list_fmap_ext. intros _ j _. simpl.
  rewrite <- (obs_at_turn obs_zero b (idx - Z.of_nat m + Z.of_nat j)).
  f_equal. lia.
Qed.

(** The state composed at a negative index: the walk and the reads are
    those of the slot one turn ahead. *)
Lemma get_state_negative b idx h :
  wf b -> - BufferDataset.max_size b <= idx < 0 -> 1 <= h ->
  exists m, lookback b idx h m
            /\ get_state b idx h = Ok (padded_state obs_zero b idx h m).
Proof.
  intros Hwf Hidx Hh. pose proof (wf_capacity b Hwf) as Hc.
  pose proof (wf_observations b Hwf) as Ho.
  unfold BufferDataset.get_state.
  replace (idx - h + 1 <? 0) with true by lia. simpl orb. cbv iota.
  unfold Np.zeros. replace (h <? 0) with false by lia.
  cbn [mbind result_bind].
  replace (h - 1) with (Z.of_nat (Z.to_nat (h - 1))) by lia.
  rewrite (seqZ_of_nat 0).
  destruct (get_state_loop_spec b idx (Z.to_nat (h - 1)) 0 [idx] Hwf)
    as (m & Hm & Hall & Hstop & ->).
  exists m. split.
  { split; [lia|]. split.
    - intros j Hj. apply Hall. lia.
    - destruct Hstop as [->|Hstop]; [left; lia | right; exact Hstop]. }
  cbn [mbind result_bind]. simpl app. rewrite gathered_indices.
  rewrite (getitem_fancy_snoc _ obs_zero).
  2:{ rewrite Ho. apply Forall_fmap, Forall_forall. intros j _. simpl.
      apply Z.mod_pos_bound. exact Hc. }
  rewrite (getitem_negative _ _ obs_zero) by lia.
  cbn [mbind result_bind].
  rewrite length_app, length_fmap, length_seq. simpl length.
  set (vals := _ ++ [_]).
  assert (Hvals : vals
                  = (fun j => obs_at obs_zero b (idx - Z.of_nat m + Z.of_nat j))
                      <$> seq 0 (S m)).
  { unfold vals. rewrite seq_S, fmap_app, <- list_fmap_compose. simpl.
    f_equal. unfold obs_at, slot. do 3 f_equal.
    replace (idx - Z.of_nat m + Z.of_nat m) with idx by lia.
    rewrite <- (Z_mod_plus_full idx 1), Z.mod_small by lia. lia. }
  assert (Hlen : length vals = S m)
    by (rewrite Hvals, length_fmap, length_seq; reflexivity).
  replace (m + 1)%nat with (length vals) by lia.
  rewrite set_slice_from_tail by lia.
  unfold padded_state. rewrite Hlen, Hvals. reflexivity.
Qed.

(** X21: a negative index down to [-capacity] does not raise: when the
    slot one turn ahead, [idx + capacity], lies in the filled range,
    [get_state] (history length at least 1) and [get_transition_n_step]
    return at [idx] what they return at [idx + capacity]. *)
Theorem negative_index_aliases b idx h n gamma :
  wf b -> - BufferDataset.max_size b <= idx < 0 ->
  idx + BufferDataset.max_size b < BufferDataset.len b -> 1 <= h ->
  get_state b idx h = get_state b (idx + BufferDataset.max_size b) h
  /\ get_transition_n_step b idx h n gamma
     = get_transition_n_step b (idx + BufferDataset.max_size b) h n gamma.
Proof.
  intros Hwf Hidx Hfilled Hh. pose proof (wf_capacity b Hwf) as Hc.
  assert (Hstate : get_state b idx h
                   = get_state b (idx + BufferDataset.max_size b) h).
  { destruct (get_state_negative b idx h Hwf Hidx Hh) as (m & Hm & ->).
    rewrite (get_state_lookback obs_zero b _ h m);
      [| exact Hwf | lia | exact Hh | apply lookback_turn; exact Hm].
    rewrite padded_state_turn. reflexivity. }
  split; [exact Hstate|].
  unfold BufferDataset.get_transition_n_step. rewrite Hstate.
  replace (idx + BufferDataset.max_size b + n)
    with (idx + n + 1 * BufferDataset.max_size b) by lia.
  unfold Np.py_mod. rewrite Z_mod_plus_full.
  replace (Np.mod_elem (BufferDataset.max_size b)
             <$> Np.arange (idx + BufferDataset.max_size b)
                   (idx + n + 1 * BufferDataset.max_size b))
    with (Np.mod_elem (BufferDataset.max_size b)
             <$> Np.arange idx (idx + n)).
  2:{ unfold Np.arange, seqZ. rewrite <- !list_fmap_compose.
      replace (idx + n + 1 * BufferDataset.max_size b
               - (idx + BufferDataset.max_size b)) with (idx + n - idx) by lia.
      apply list_fmap_ext. intros _ k _. simpl. unfold Np.mod_elem.
      replace (BufferDataset.max_size b =? 0) with false by lia.
      rewrite <- (Z_mod_plus_full (Z.of_nat k + idx) 1). f_equal. lia. }
  replace (Np.getitem (BufferDataset.actions b)
             (idx + BufferDataset.max_size b))
    with (Np.getitem (BufferDataset.actions b) idx); [reflexivity|].
  pose proof (wf_actions b Hwf) as Ha.
  destruct (getitem_in_range (BufferDataset.actions b)
              (idx + BufferDataset.max_size b)) as (a & Hlook & ->); [lia|].
  unfold Np.getitem, Np.adjust_index. rewrite Ha.
  replace (idx <? - BufferDataset.max_size b) with false by lia.
  replace (BufferDataset.max_size b <=? idx) with false by lia.
  replace (idx <? 0) with true by lia. simpl. rewrite Hlook. reflexivity.
Qed.

(** X22: an index below [-capacity] makes [get_state] and
    [get_transition_n_step] raise [IndexError] for every history length
    of at least 1. *)
Theorem index_below_range_raises b idx h n gamma :
  wf b -> idx < - BufferDataset.max_size b -> 1 <= h ->
  get_state b idx h = Raise IndexError
  /\ get_transition_n_step b idx h n gamma = Raise IndexError.
Proof.
  intros Hwf Hidx Hh. pose proof (wf_capacity b Hwf) as Hc.
  pose proof (wf_observations b Hwf) as Ho.
  assert (Hstate : get_state b idx h = Raise IndexError).
  { unfold BufferDataset.get_state.
    replace (idx - h + 1 <? 0) with true by lia. simpl orb. cbv iota.
    unfold Np.zeros. replace (h <? 0) with false by lia.
    cbn [mbind result_bind].
    replace (h - 1) with (Z.of_nat (Z.to_nat (h - 1))) by lia.
    rewrite (seqZ_of_nat 0).
    destruct (get_state_loop_spec b idx (Z.to_nat (h - 1)) 0 [idx] Hwf)
      as (m & _ & _ & _ & ->).
    cbn [mbind result_bind]. simpl app. rewrite gathered_indices.
    rewrite (getitem_fancy_snoc _ obs_zero).
    - rewrite getitem_below_range by lia. reflexivity.
    - rewrite Ho. apply Forall_fmap, Forall_forall. intros j _. simpl.
      apply Z.mod_pos_bound. exact Hc. }
  split; [exact Hstate|].
  unfold BufferDataset.get_transition_n_step. rewrite Hstate. reflexivity.
Qed.

End NegativeIndices.

(** ** The further properties at concrete buffers *)

Lemma push_episode_value_error_witness :
  wf Demo.fresh
  /\ ~ broadcastable (BufferDataset.observation_shape Demo.fresh) 2
         (BufferDataset.ep_observations Cases.ragged_episode)
  /\ fst (BufferDataset.push_episode Cases.ragged_episode Demo.fresh)
     = Raise ValueError
  /\ BufferDataset.len
       (snd (BufferDataset.push_episode Cases.ragged_episode Demo.fresh)) = 2
  /\ BufferDataset.pointer
       (snd (BufferDataset.push_episode Cases.ragged_episode Demo.fresh)) = 0.
Proof.
  assert (Hwf : wf Demo.fresh) by (split; simpl; lia).
  assert (Hbad : ~ broadcastable (BufferDataset.observation_shape Demo.fresh)
                     2 (BufferDataset.ep_observations Cases.ragged_episode))
    by (intros H; vm_compute in H; discriminate H).
  split; [exact Hwf|]. split; [exact Hbad|].
  destruct (push_episode_value_error Cases.ragged_episode Demo.fresh Hwf)
    as [_ Hrejected].
  destruct Hrejected as (Hraise & Hpointer & Hlen).
  - intros (Hobs & _). exact (Hbad Hobs).
  - split; [exact Hraise|]. split; [exact Hlen | exact Hpointer].
Defined.

Lemma push_episode_keeps_other_slots_witness :
  wf Demo.fresh
  /\ parallel Demo.first_episode
  /\ BufferDataset.observations
       (snd (BufferDataset.push_episode Demo.first_episode Demo.fresh))
       !! 2%nat = Some 102.
Proof.
  assert (Hwf : wf Demo.fresh) by (split; simpl; lia).
  assert (Hpar : parallel Demo.first_episode) by (repeat split).
  split; [exact Hwf|]. split; [exact Hpar|].
  destruct (push_episode_keeps_other_slots Demo.first_episode Demo.fresh 2
              Hwf Hpar) as (Hobs & _).
  - intros j Hj. simpl in Hj.
    destruct j as [|[|j]]; [discriminate | discriminate | lia].
  - exact Hobs.
Defined.

(** [Demo.filled] stores actions of shape [(1,)]: four empty lists are
    turned down, and the buffer stays as it was. *)
Lemma push_episode_empty_witness :
  wf Demo.filled
  /\ BufferDataset.action_shape Demo.filled = [1]
  /\ BufferDataset.push_episode (BufferDataset.Episode [] [] [] []) Demo.filled
     = (Raise ValueError, Demo.filled).
Proof.
  assert (Hwf : wf Demo.filled) by (split; simpl; lia).
  split; [exact Hwf|]. split; [reflexivity|].
  apply (push_episode_empty (BufferDataset.Episode [] [] [] []) Demo.filled
           Hwf); [repeat split | reflexivity].
Defined.

Lemma push_episode_app_witness :
  wf Demo.fresh
  /\ parallel Demo.first_episode
  /\ parallel Demo.second_episode
  /\ BufferDataset.push_episode
       (episode_app Demo.first_episode Demo.second_episode) Demo.fresh
     = (Ok (), Demo.filled).
Proof.
  assert (Hwf : wf Demo.fresh) by (split; simpl; lia).
  assert (Hp1 : parallel Demo.first_episode) by (repeat split).
  assert (Hp2 : parallel Demo.second_episode) by (repeat split).
  split; [exact Hwf|]. split; [exact Hp1|]. split; [exact Hp2|].
  destruct (push_episode_app Demo.first_episode Demo.second_episode Demo.fresh
              Hwf Hp1 Hp2) as (Hsnd & Hok & _).
  rewrite (surjective_pairing (BufferDataset.push_episode _ _)).
  rewrite Hsnd, Hok; [reflexivity | unfold episode_len; simpl; lia].
Defined.

Lemma counters_after_pushes_witness :
  BufferDataset.init Np.Before_1_24 Demo.memory [] [1] 4 2 2 2 false false
  = Ok Demo.fresh
  /\ BufferDataset.len_
       (push_all [Demo.first_episode; Demo.long_episode] Demo.fresh) = 4
  /\ BufferDataset.pointer
       (push_all [Demo.first_episode; Demo.long_episode] Demo.fresh) = 3.
Proof.
  assert (Hinit : BufferDataset.init Np.Before_1_24 Demo.memory [] [1] 4 2 2
                    2 false false
                  = Ok Demo.fresh) by reflexivity.
  split; [exact Hinit|].
  apply (counters_after_pushes Np.Before_1_24 Demo.memory [] [1] 4 2 2 2
           false false Demo.fresh [Demo.first_episode; Demo.long_episode]
           Hinit);
    [lia|].
  repeat constructor.
Defined.

Lemma get_state_length_witness :
  wf Demo.filled
  /\ exists state,
       BufferDataset.get_state 0 Demo.filled 3 3 = Ok state
       /\ length state = 3%nat.
Proof.
  assert (Hwf : wf Demo.filled) by (split; simpl; lia).
  split; [exact Hwf|].
  apply (get_state_length 0 Demo.filled 3 3 Hwf). simpl. lia.
Defined.

Lemma get_state_single_witness :
  wf Demo.filled /\ BufferDataset.get_state 0 Demo.filled 1 1 = Ok [11].
Proof.
  assert (Hwf : wf Demo.filled) by (split; simpl; lia).
  split; [exact Hwf|].
  destruct (get_state_single 0 Demo.filled 1 Hwf) as (o & Ho & Hstate);
    [simpl; lia|].
  injection Ho as <-. exact Hstate.
Defined.

Lemma get_state_episode_window_witness :
  wf Cases.full
  /\ 0 <= 3 < BufferDataset.len Cases.full
  /\ BufferDataset.get_state 0 Cases.full 3 3 = Ok [15; 12; 13].
Proof.
  assert (Hwf : wf Cases.full) by (split; simpl; lia).
  assert (Hidx : 0 <= 3 < BufferDataset.len Cases.full) by (simpl; lia).
  split; [exact Hwf|]. split; [exact Hidx|].
  apply (get_state_episode_window 0 Cases.full 3 3 2 Hwf Hidx);
    [lia | lia | lia | | left; lia].
  intros j Hj. destruct j as [|[|[|j]]]; [lia | reflexivity | reflexivity |
    lia].
Defined.

Lemma get_state_around_full_ring_witness :
  wf Cases.full
  /\ BufferDataset.len Cases.full = BufferDataset.max_size Cases.full
  /\ BufferDataset.get_state 0 Cases.full 0 3 = Ok [12; 13; 14].
Proof.
  assert (Hwf : wf Cases.full) by (split; simpl; lia).
  split; [exact Hwf|]. split; [reflexivity|].
  apply (get_state_around_full_ring 0 Cases.full 0 3 Hwf);
    [reflexivity | lia | lia | simpl; lia |].
  intros j Hj. destruct j as [|[|[|j]]]; [lia | reflexivity | reflexivity |
    lia].
Defined.

Lemma get_transition_n_step_no_step_witness :
  wf Cases.full
  /\ BufferDataset.get_transition_n_step 0 0 Z.add Z.mul Z.pow
       Cases.full 1 2 0 2 = Raise UnboundLocalError.
Proof.
  assert (Hwf : wf Cases.full) by (split; simpl; lia).
  split; [exact Hwf|].
  apply (get_transition_n_step_no_step 0 0 Z.add Z.mul Z.pow
           Cases.full 1 2 0 2 Hwf); simpl; lia.
Defined.

Lemma get_transition_n_step_index_error_witness :
  wf Cases.full
  /\ BufferDataset.get_transition_n_step 0 0 Z.add Z.mul Z.pow
       Cases.full 4 2 2 2 = Raise IndexError.
Proof.
  assert (Hwf : wf Cases.full) by (split; simpl; lia).
  split; [exact Hwf|].
  apply (get_transition_n_step_index_error 0 0 Z.add Z.mul Z.pow
           Cases.full 4 2 2 2 Hwf). simpl. lia.
Defined.

(** The observation [2 ** 24 + 1] has no [float32] of its own: it is
    read back as [2 ** 24]. *)
Lemma push_then_get_transition_witness :
  wf Demo.fresh
  /\ parallel Cases.precise_episode
  /\ BufferDataset.ep_observations Cases.precise_episode !! 0%nat
     = Some 16777217
  /\ BufferDataset.get_transition_n_step 0 0 Z.add Z.mul Z.pow
       (snd (BufferDataset.push_episode Cases.precise_episode Demo.fresh))
       0 1 1 2
     = Ok ([16777216], 0, 1, [11], false).
Proof.
  assert (Hwf : wf Demo.fresh) by (split; simpl; lia).
  assert (Hpar : parallel Cases.precise_episode) by (repeat split).
  split; [exact Hwf|]. split; [exact Hpar|]. split; [reflexivity|].
  destruct (push_then_get_transition 0 0 Z.add Z.mul Z.pow
              Cases.precise_episode Demo.fresh 0 16777217 0 1 false 2 Hwf Hpar)
    as (next_state & Hrun & Hnext);
    [reflexivity | reflexivity | reflexivity | reflexivity
    | unfold episode_len; simpl; lia |].
  rewrite (Hnext 11 eq_refl) in Hrun. exact Hrun.
Defined.

(** Discrete actions under a release that has [np.int]: the buffer
    stores them under shape [(1,)]. *)
Lemma init_buffer_witness :
  exists b,
    BufferDataset.init Np.Before_1_24 Demo.memory [] [3] 4 2 2 2 true false
    = Ok b
    /\ wf b
    /\ BufferDataset.action_shape b = [1].
Proof.
  destruct (init_buffer Np.Before_1_24 Demo.memory [] [3] 4 2 2 2 true false)
    as [Hok _].
  destruct Hok
    as (b & Hinit & _ & _ & _ & _ & _ & _ & _ & Hwf & Hshape & _).
  - split; [reflexivity|]. split; [reflexivity|]. split; [discriminate|].
    split; [lia|]. split; [constructor|]. constructor; [lia | constructor].
  - exists b. split; [exact Hinit|]. split; [apply Hwf; lia | exact Hshape].
Defined.

Lemma sampler_indices_in_filled_range_witness :
  0 < BufferDataset.len_ Demo.filled
  /\ exists indices,
       BufferSampler.iter (fun k => Z.of_nat k * 7 - 3)
         (BufferSampler.init Demo.filled 2 2) = Ok indices
       /\ Z.of_nat (length indices) = 4
       /\ Forall (fun i => 0 <= i < 3) indices.
Proof.
  assert (Hlen : 0 < BufferDataset.len_ Demo.filled) by (simpl; lia).
  split; [exact Hlen|].
  apply (sampler_indices_in_filled_range (fun k => Z.of_nat k * 7 - 3)
           Demo.filled 2 2 Hlen). lia.
Defined.

Lemma sampled_indices_give_samples_witness :
  wf Demo.filled
  /\ exists indices,
       BufferSampler.iter (fun k => Z.of_nat k * 7 - 3)
         (BufferSampler.init Demo.filled 2 2) = Ok indices
       /\ Forall
            (fun i =>
               exists smp,
                 BufferDataset.getitem 0 0 Z.add Z.mul Z.pow Demo.filled i
                 = Ok smp)
            indices.
Proof.
  assert (Hwf : wf Demo.filled) by (split; simpl; lia).
  split; [exact Hwf|].
  apply (sampled_indices_give_samples 0 0 Z.add Z.mul Z.pow
           (fun k => Z.of_nat k * 7 - 3) Demo.filled 2 2 Hwf);
    simpl; lia.
Defined.

Lemma accumulate_overflow_witness :
  wf_accumulator Demo.scratch
  /\ exists s',
       accumulate 50 [(51, 4, 6, false); (52, 5, 7, true); (53, 6, 8, true)]
         Demo.scratch = (Raise IndexError, s')
       /\ SamplerBuffer.pointer s' = 2
       /\ SamplerBuffer.get_complete_episode s'
          = Ok ([50; 51], [4; 5], [6; 7], [false; true]).
Proof.
  assert (Hwf : wf_accumulator Demo.scratch) by (split; reflexivity).
  split; [exact Hwf|].
  destruct (accumulate_overflow 50
              [(51, 4, 6, false); (52, 5, 7, true); (53, 6, 8, true)]
              Demo.scratch Hwf) as (s' & Hrun & Hptr & Hget);
    [simpl; lia | simpl; lia |].
  exists s'. split; [exact Hrun|]. split; [exact Hptr | exact Hget].
Defined.

Lemma accumulator_current_state_witness :
  wf_accumulator Demo.scratch
  /\ exists s',
       accumulate 50 [(51, 4, 6, false); (52, 5, 7, true)] Demo.scratch
       = (Ok (), s')
       /\ SamplerBuffer.get_state 0 s' 2 None = Ok [51; 52].
Proof.
  assert (Hwf : wf_accumulator Demo.scratch) by (split; reflexivity).
  split; [exact Hwf|].
  destruct (accumulator_current_state 0 50
              [(51, 4, 6, false); (52, 5, 7, true)] Demo.scratch 2 Hwf)
    as (s' & Hrun & Hstate); [simpl; lia | lia |].
  exists s'. split; [exact Hrun | exact Hstate].
Defined.

Lemma states_history_after_accumulate_witness :
  wf_accumulator Demo.scratch
  /\ exists s',
       accumulate 50 [(51, 4, 6, false); (52, 5, 7, true)] Demo.scratch
       = (Ok (), s')
       /\ SamplerBuffer.get_states_history 0 s' 2
          = Ok [[51; 52]; [50; 51]].
Proof.
  assert (Hwf : wf_accumulator Demo.scratch) by (split; reflexivity).
  split; [exact Hwf|].
  destruct (states_history_after_accumulate 0 50
              [(51, 4, 6, false); (52, 5, 7, true)] Demo.scratch 2 Hwf)
    as (s' & Hrun & Hstates); [simpl; lia | lia |].
  exists s'. split; [exact Hrun | exact Hstates].
Defined.

Lemma finalize_then_push_witness :
  wf_accumulator Demo.scratch
  /\ wf Demo.fresh
  /\ exists s' e,
       accumulate 50 [(51, 4, 6, false); (52, 5, 7, true)] Demo.scratch
       = (Ok (), s')
       /\ SamplerBuffer.get_complete_episode s' = Ok e
       /\ parallel (as_episode e)
       /\ fst (BufferDataset.push_episode (as_episode e) Demo.fresh) = Ok ()
       /\ BufferDataset.len
            (snd (BufferDataset.push_episode (as_episode e) Demo.fresh)) = 2.
Proof.
  assert (Hwfs : wf_accumulator Demo.scratch) by (split; reflexivity).
  assert (Hwf : wf Demo.fresh) by (split; simpl; lia).
  split; [exact Hwfs|]. split; [exact Hwf|].
  destruct (finalize_then_push 50 [(51, 4, 6, false); (52, 5, 7, true)]
              Demo.scratch Demo.fresh Hwfs)
    as (s' & e & Hrun & Hget & Hpar & Hok & Hlen & _);
    [simpl; lia | exact Hwf |].
  exists s', e. split; [exact Hrun|]. split; [exact Hget|].
  split; [exact Hpar|]. split; [apply Hok; discriminate | exact Hlen].
Defined.

Lemma init_accumulator_witness :
  exists s s',
    SamplerBuffer.init Np.From_2_0 Demo.memory 3 [] [1] false false = Ok s
    /\ wf_accumulator s
    /\ SamplerBuffer.init_with_observation 50 s = (Ok (), s')
    /\ SamplerBuffer.observations s' !! 0%nat = Some 50.
Proof.
  destruct (init_accumulator Np.From_2_0 Demo.memory 3 [] [1] false false)
    as [Hok _].
  destruct Hok as (s & Hinit & Hwf & _ & _ & _ & Hseed).
  - split; [reflexivity|]. split; [discriminate|]. split; [discriminate|].
    split; [lia|]. split; [constructor|]. constructor; [lia | constructor].
  - destruct (Hseed ltac:(lia) 50) as (s' & Hrun & _ & _ & Hobs).
    exists s, s'. split; [exact Hinit|]. split; [exact Hwf|].
    split; [exact Hrun | exact Hobs].
Defined.

Lemma negative_index_aliases_witness :
  wf Cases.full
  /\ BufferDataset.get_state 0 Cases.full (-1) 3
     = BufferDataset.get_state 0 Cases.full 3 3
  /\ BufferDataset.get_transition_n_step 0 0 Z.add Z.mul Z.pow
       Cases.full (-1) 3 2 2
     = BufferDataset.get_transition_n_step 0 0 Z.add Z.mul Z.pow
         Cases.full 3 3 2 2.
Proof.
  assert (Hwf : wf Cases.full) by (split; simpl; lia).
  split; [exact Hwf|].
  apply (negative_index_aliases 0 0 Z.add Z.mul Z.pow Cases.full (-1) 3 2 2
           Hwf); simpl; lia.
Defined.

Lemma index_below_range_raises_witness :
  wf Cases.full
  /\ BufferDataset.get_state 0 Cases.full (-5) 2 = Raise IndexError
  /\ BufferDataset.get_transition_n_step 0 0 Z.add Z.mul Z.pow
       Cases.full (-5) 2 2 2 = Raise IndexError.
Proof.
  assert (Hwf : wf Cases.full) by (split; simpl; lia).
  split; [exact Hwf|].
  apply (index_below_range_raises 0 0 Z.add Z.mul Z.pow Cases.full (-5) 2 2 2
           Hwf); simpl; lia.
Defined.
